(** * atom-editorconfig: the settings engine of [index.js]

    A shallow embedding of [index.js]: the normalisation of the raw
    EditorConfig mapping into the per-buffer settings object, the
    pre-save hook, the settings applier with its wrap-guide interception,
    and the lifecycle functions ([observeTextEditor],
    [reapplyEditorconfig], [observeActivePaneItem], [deactivate]).

    JavaScript values keep their dynamic types: the sentinel ['unset'] is
    the string "unset", exactly as in the source.  Strings are sequences
    of code units below 256.  A number produced by [parseInt] is an
    integer, rounded the way the language rounds its numbers, or an
    infinity; a number of the raw mapping is known by the string it
    converts to. *)

From Stdlib Require Import ZArith Lia List Ascii String Bool DecimalString DecimalPos.
From stdpp Require Import base option list gmap strings.

Local Open Scope string_scope.
Local Open Scope Z_scope.

(** ** JavaScript values and the few built-ins the file relies on *)

Module JS.

(** Numbers come in three forms.  [Num n] is the number with the
    integer value [n], and [Infinity] one of the two infinities: these
    are what [parseInt] returns.  [Numeral repr] is a number known by
    the string it converts to (the shortest decimal form that reads
    back as the same number, as in "4", "2.5" or "1e+21"): this is how
    a number of the resolver's mapping is given, which is only ever
    tested for truth, converted to a string or asked for a method. *)
Inductive Value :=
| Undefined
| Null
| Bool (b : bool)
| Num (n : Z)
| NaN
| Str (s : string)
| ProtoMember (name : string)
| Infinity (negative : bool)
| Numeral (repr : string).

(** What a [throw] or a rejected promise carries: an instance of
    [Error] (with its [name] and [message]) or any other value. *)
Inductive Thrown :=
| ErrorInstance (name message : string)
| Other (v : Value).

Definition TypeError (msg : string) : Thrown := ErrorInstance "TypeError" msg.

Inductive Completion (A : Type) :=
| Normal (a : A)
| Throw (e : Thrown).

Arguments Normal {A} a.
Arguments Throw {A} e.

(** [e instanceof Error] *)
Definition instanceof_Error (e : Thrown) : bool :=
  match e with ErrorInstance _ _ => true | Other _ => false end.

(** The sentinel of every settings field. *)
Definition unset : Value := Str "unset".

Definition truthy (v : Value) : bool :=
  match v with
  | Undefined | Null | NaN => false
  | Bool b => b
  | Num n => negb (n =? 0)
  | Str s => negb (String.eqb s "")
  | ProtoMember _ => true
  | Infinity _ => true
  | Numeral repr => negb (String.eqb repr "0") && negb (String.eqb repr "NaN")
  end.

(** [a || b] *)
Definition or (a b : Value) : Value := if truthy a then a else b.

Definition typeof_boolean (v : Value) : bool :=
  match v with Bool _ => true | _ => false end.

(** [v === true] *)
Definition strict_eq_true (v : Value) : Value :=
  match v with Bool true => Bool true | _ => Bool false end.

(** [Num n] prints in decimal, which is how the language prints an
    integer below 2^53 in magnitude; the code converts no number of
    that form. *)
Definition ToString (v : Value) : string :=
  match v with
  | Undefined => "undefined"
  | Null => "null"
  | Bool true => "true"
  | Bool false => "false"
  | Num n => NilZero.string_of_int (Z.to_int n)
  | NaN => "NaN"
  | Str s => s
  | ProtoMember name => "function " ++ name ++ "() { [native code] }"
  | Infinity false => "Infinity"
  | Infinity true => "-Infinity"
  | Numeral repr => repr
  end.

(** [x === y] *)
Definition strict_eq (x y : Value) : bool :=
  match x, y with
  | Undefined, Undefined | Null, Null => true
  | Bool a, Bool b => Bool.eqb a b
  | Num a, Num b => a =? b
  | Str a, Str b => String.eqb a b
  | ProtoMember a, ProtoMember b => String.eqb a b
  | Infinity a, Infinity b => Bool.eqb a b
  | Numeral a, Numeral b => String.eqb a b && negb (String.eqb a "NaN")
  | Numeral a, (Num _ | Infinity _) => String.eqb a (ToString y)
  | (Num _ | Infinity _), Numeral b => String.eqb (ToString x) b
  | _, _ => false
  end.

(** [`${e}`]: [Error.prototype.toString] for an error instance. *)
Definition thrown_to_string (e : Thrown) : string :=
  match e with
  | ErrorInstance name message =>
      if String.eqb message "" then name
      else if String.eqb name "" then message
      else name ++ ": " ++ message
  | Other v => ToString v
  end.

(** White space of the regular expression class [\s] and of the
    [StrWhiteSpaceChar] production, among the code units below 256. *)
Definition is_space (c : ascii) : bool :=
  let n := nat_of_ascii c in
  ((9 <=? n) && (n <=? 13) || (n =? 32) || (n =? 160))%nat.

Definition digit_of (c : ascii) : option Z :=
  let n := Z.of_nat (nat_of_ascii c) in
  if (48 <=? n) && (n <=? 57) then Some (n - 48) else None.

Fixpoint skip_space (s : string) : string :=
  match s with
  | String c r => if is_space c then skip_space r else s
  | EmptyString => s
  end.

(** The longest prefix of decimal digits, read left to right; [acc] is
    [None] until a first digit has been seen. *)
Fixpoint read_digits (s : string) (acc : option Z) : option Z :=
  match s with
  | String c r =>
      match digit_of c with
      | Some d => read_digits r (Some (10 * default 0 acc + d))
      | None => acc
      end
  | EmptyString => acc
  end.

(** The Number value of an integer: the integer itself below 2^53 in
    magnitude; beyond, the nearest number with a mantissa of 53 bits,
    the even mantissa when two are equally near; an infinity from
    2^1024 - 2^970 on, where rounding leaves the range of the finite
    numbers. *)
Definition round_double (n : Z) : Value :=
  let a := Z.abs n in
  if a <? 2 ^ 53 then Num n
  else
    let e := Z.log2 a - 52 in
    let q := Z.shiftr a e in
    let r := a - Z.shiftl q e in
    let half := Z.shiftl 1 (e - 1) in
    let q := if (half <? r) || (r =? half) && Z.odd q then q + 1 else q in
    if 2 ^ 1024 <=? Z.shiftl q e then Infinity (n <? 0)
    else Num (Z.sgn n * Z.shiftl q e).

(** [parseInt(v, 10)]: the argument is converted to a string, leading
    white space is skipped, one sign is accepted, and the longest run of
    decimal digits is read; the result is the Number value of the
    integer they denote, and [NaN] without a digit. *)
Definition parseInt10 (v : Value) : Value :=
  let s := skip_space (ToString v) in
  let '(sign, body) :=
    match s with
    | String "-" r => (-1, r)
    | String "+" r => (1, r)
    | _ => (1, s)
    end in
  match read_digits body None with
  | Some n => round_double (sign * n)
  | None => NaN
  end.

(** [isNaN(v) || v <= 0] on a result of [parseInt]. *)
Definition nan_or_nonpositive (v : Value) : bool :=
  match v with
  | Num n => n <=? 0
  | Infinity negative => negative
  | _ => true
  end.

(** [s.toLowerCase()] on code units below 256: A-Z and the Latin-1
    capitals U+00C0-U+00DE (without the sign U+00D7) move up by 32. *)
Definition lower_char (c : ascii) : ascii :=
  let n := nat_of_ascii c in
  if ((65 <=? n) && (n <=? 90)
      || (192 <=? n) && (n <=? 222) && negb (n =? 215))%nat
  then ascii_of_nat (n + 32) else c.

Fixpoint toLowerCase (s : string) : string :=
  match s with
  | String c r => String (lower_char c) (toLowerCase r)
  | EmptyString => EmptyString
  end.

(** [s.replace(/-/g, '')] *)
Fixpoint strip_hyphens (s : string) : string :=
  match s with
  | String c r => if Ascii.eqb c "-" then strip_hyphens r else String c (strip_hyphens r)
  | EmptyString => EmptyString
  end.

(** The property names every plain object inherits from
    [Object.prototype]; each of them reads as a truthy value. *)
Definition object_prototype_names : list string :=
  [ "constructor"; "toString"; "toLocaleString"; "valueOf";
    "hasOwnProperty"; "isPrototypeOf"; "propertyIsEnumerable";
    "__defineGetter__"; "__defineSetter__"; "__lookupGetter__";
    "__lookupSetter__"; "__proto__" ].

Definition mem_string (x : string) (l : list string) : bool :=
  existsb (String.eqb x) l.

(** [obj[key]] on an object literal with the own properties [own]. *)
Definition get_literal (own : list (string * Value)) (key : Value) : Value :=
  let k := ToString key in
  match List.find (fun p => String.eqb (fst p) k) own with
  | Some p => snd p
  | None => if mem_string k object_prototype_names then ProtoMember k else Undefined
  end.

End JS.

(** ** A small state-and-exception monad

    The [then] callback of [observeTextEditor] assigns the fields of the
    settings object one after the other; an exception raised half-way
    leaves the earlier assignments in place.  [Eff S A] threads the
    mutated object and stops at the first [Throw]. *)

Module Eff.

Import JS.

Definition t (S A : Type) : Type := S -> Completion A * S.

Definition ret {S A} (a : A) : t S A := fun s => (Normal a, s).

Definition bind {S A B} (m : t S A) (k : A -> t S B) : t S B :=
  fun s =>
    match m s with
    | (Normal a, s') => k a s'
    | (Throw e, s') => (Throw e, s')
    end.

Definition lift {S A} (c : Completion A) : t S A := fun s => (c, s).

Definition modify {S} (f : S -> S) : t S unit := fun s => (Normal tt, f s).

Definition gets {S A} (f : S -> A) : t S A := fun s => (Normal (f s), s).

End Eff.

Declare Scope eff_scope.
Delimit Scope eff_scope with eff.
Notation "'let*' x ':=' m 'in' k" := (Eff.bind m (fun x => k))
  (at level 10, x name, m at level 100, k at level 200) : eff_scope.
Notation "m '>>' k" := (Eff.bind m (fun _ => k))
  (at level 100, k at level 200, right associativity) : eff_scope.

(** ** RawConfig and the settings object *)

Module Config.

Import JS.

(** A value of the mapping the resolver returns.  The resolver reads
    every value of the file as JSON where it can, so that [true] and
    [false] arrive as booleans and "4", "0" or "2.5" as numbers; a text
    that is no JSON stays a string.  A number is given by the string it
    converts to.  A value spelled as a JSON array or object is not
    covered. *)
Inductive RawValue :=
| RBool (b : bool)
| RStr (s : string)
| RNum (repr : string).

Definition to_js (v : RawValue) : Value :=
  match v with
  | RBool b => Bool b
  | RStr s => Str s
  | RNum repr => Numeral repr
  end.

(** [key in config] *)
Definition has (key : string) (config : gmap string RawValue) : bool :=
  match config !! key with Some _ => true | None => false end.

(** [config.key] *)
Definition get (key : string) (config : gmap string RawValue) : Value :=
  match config !! key with Some v => to_js v | None => Undefined end.

(** [Object.keys(config).length === 0] *)
Definition is_empty (config : gmap string RawValue) : bool :=
  match map_to_list config with [] => true | _ => false end.

(** The [settings] object of a buffer's [editorconfig]. *)
Record Settings := mkSettings {
  trim_trailing_whitespace : Value;
  insert_final_newline : Value;
  max_line_length : Value;
  end_of_line : Value;
  indent_style : Value;
  tab_width : Value;
  charset : Value
}.

(** The literal of [initializeTextBuffer]. *)
Definition initial_settings : Settings :=
  mkSettings unset unset unset unset unset unset unset.

Definition set_trim_trailing_whitespace v (s : Settings) : Settings :=
  mkSettings v (insert_final_newline s) (max_line_length s) (end_of_line s)
             (indent_style s) (tab_width s) (charset s).
Definition set_insert_final_newline v (s : Settings) : Settings :=
  mkSettings (trim_trailing_whitespace s) v (max_line_length s) (end_of_line s)
             (indent_style s) (tab_width s) (charset s).
Definition set_max_line_length v (s : Settings) : Settings :=
  mkSettings (trim_trailing_whitespace s) (insert_final_newline s) v (end_of_line s)
             (indent_style s) (tab_width s) (charset s).
Definition set_end_of_line v (s : Settings) : Settings :=
  mkSettings (trim_trailing_whitespace s) (insert_final_newline s) (max_line_length s) v
             (indent_style s) (tab_width s) (charset s).
Definition set_indent_style v (s : Settings) : Settings :=
  mkSettings (trim_trailing_whitespace s) (insert_final_newline s) (max_line_length s)
             (end_of_line s) v (tab_width s) (charset s).
Definition set_tab_width v (s : Settings) : Settings :=
  mkSettings (trim_trailing_whitespace s) (insert_final_newline s) (max_line_length s)
             (end_of_line s) (indent_style s) v (charset s).
Definition set_charset v (s : Settings) : Settings :=
  mkSettings (trim_trailing_whitespace s) (insert_final_newline s) (max_line_length s)
             (end_of_line s) (indent_style s) (tab_width s) v.

(** [const lineEndings = {crlf: '\r\n', cr: '\r', lf: '\n'}] *)
Definition CR : string := String (ascii_of_nat 13) EmptyString.
Definition LF : string := String (ascii_of_nat 10) EmptyString.
Definition CRLF : string := String (ascii_of_nat 13) LF.

Definition lineEndings : list (string * Value) :=
  [ ("crlf", Str CRLF); ("cr", Str CR); ("lf", Str LF) ].

(** [v.search(/^(space|tab)$/)]: the index of the match, or -1; a value
    without a [search] method makes the call a [TypeError]. *)
Definition search_space_or_tab (v : Value) : Completion Z :=
  match v with
  | Str s => Normal (if String.eqb s "space" || String.eqb s "tab" then 0 else -1)
  | _ => Throw (TypeError "config.indent_style.search is not a function")
  end.

(** [v.replace(/-/g, '').toLowerCase()] *)
Definition replace_hyphens_lower (v : Value) : Completion Value :=
  match v with
  | Str s => Normal (Str (toLowerCase (strip_hyphens s)))
  | _ => Throw (TypeError "config.charset.replace is not a function")
  end.

Local Open Scope eff_scope.

(** Lines 200-229 of [observeTextEditor]: the assignments to
    [settings], in source order. *)
Definition normalize (config : gmap string RawValue) : Eff.t Settings unit :=
  Eff.modify (set_trim_trailing_whitespace
    (if has "trim_trailing_whitespace" config
        && typeof_boolean (get "trim_trailing_whitespace" config)
     then strict_eq_true (get "trim_trailing_whitespace" config)
     else unset)) >>
  Eff.modify (set_insert_final_newline
    (if has "insert_final_newline" config
        && typeof_boolean (get "insert_final_newline" config)
     then strict_eq_true (get "insert_final_newline" config)
     else unset)) >>
  let* ok := (if has "indent_style" config
              then (let* i := Eff.lift (search_space_or_tab (get "indent_style" config)) in
                    Eff.ret (i >? -1))
              else Eff.ret false) in
  Eff.modify (set_indent_style
    (if ok then get "indent_style" config else unset)) >>
  Eff.modify (set_end_of_line
    (or (get_literal lineEndings (get "end_of_line" config)) unset)) >>
  Eff.modify (set_tab_width
    (parseInt10 (or (get "indent_size" config) (get "tab_width" config)))) >>
  let* tw := Eff.gets tab_width in
  (if nan_or_nonpositive tw then Eff.modify (set_tab_width unset) else Eff.ret tt) >>
  Eff.modify (set_max_line_length (parseInt10 (get "max_line_length" config))) >>
  let* mll := Eff.gets max_line_length in
  (if nan_or_nonpositive mll then Eff.modify (set_max_line_length unset) else Eff.ret tt) >>
  (if has "charset" config
   then (let* c := Eff.lift (replace_hyphens_lower (get "charset" config)) in
         Eff.modify (set_charset c))
   else Eff.modify (set_charset unset)).

End Config.

(** ** The host's text buffer

    [onWillSave] works through operations of the host editor's text
    buffer, which is not part of this package.  They are given here as
    the host documents and implements them, on a buffer seen as its
    rows (the lines without their endings; a buffer has at least one
    row, and a text that ends in a newline has an empty last row):

    - [getLineCount()] is the number of rows, [getLastRow()] one less;
    - [isRowBlank(row)] holds when the row has no character other than
      white space;
    - [previousNonBlankRow(startRow)] is the nearest row before
      [startRow] that is not blank, and [null] when there is none or
      [startRow] is 0;
    - [deleteRows(startRow, endRow)] swaps the two when they are out of
      order, clips the range to the buffer and deletes its rows; when
      the range ends at the last row the line ending before
      [startRow] is deleted with it, and deleting every row leaves one
      empty row;
    - [append('\n')] adds an empty last row;
    - [backwardsScan(/[ \t]+$/gm, ...)] with the replacement [''] cuts
      the spaces and tabs at the end of every row.

    Row numbers are JavaScript numbers; [null] is [None] and counts as
    0 in arithmetic and comparisons. *)

Module TextBuffer.

Import JS.

Definition getLineCount (rows : list string) : Z := Z.of_nat (length rows).

Definition getLastRow (rows : list string) : Z := getLineCount rows - 1.

Definition lineForRow (rows : list string) (row : Z) : Value :=
  if row <? 0 then Undefined
  else match rows !! Z.to_nat row with Some l => Str l | None => Undefined end.

(** [/\S/.test(s)] *)
Fixpoint has_non_space (s : string) : bool :=
  match s with
  | String c r => negb (is_space c) || has_non_space r
  | EmptyString => false
  end.

(** A line without a character that is not white space. *)
Definition blank (l : string) : Prop := has_non_space l = false.

Definition isRowBlank (rows : list string) (row : Z) : bool :=
  negb (has_non_space (ToString (lineForRow rows row))).

(** The rows [n-1], ..., 0 in that order: the first that is not blank. *)
Fixpoint scan_back (rows : list string) (n : nat) : option Z :=
  match n with
  | O => None
  | S k => if isRowBlank rows (Z.of_nat k) then scan_back rows k else Some (Z.of_nat k)
  end.

(** [null] for row 0 and when every earlier row is blank. *)
Definition previousNonBlankRow (rows : list string) (startRow : Z) : option Z :=
  if startRow =? 0 then None
  else scan_back rows (Z.to_nat (Z.min startRow (getLastRow rows))).

(** [ToNumber] of a row number that may be [null]. *)
Definition to_number (r : option Z) : Z := default 0 r.

(** [deleteRows(startRow, endRow)]: deletes the rows of the inclusive
    range with their line endings; when the range reaches the last row,
    the ending before [startRow] goes instead. *)
Definition deleteRows (rows : list string) (startRow endRow : Z) : list string :=
  let lastRow := getLastRow rows in
  let '(startRow, endRow) :=
    if startRow >? endRow then (endRow, startRow) else (startRow, endRow) in
  if endRow <? 0 then rows
  else if startRow >? lastRow then rows
  else
    let startRow := Z.max 0 startRow in
    let endRow := Z.min lastRow endRow in
    if endRow <? lastRow
    then take (Z.to_nat startRow) rows ++ drop (Z.to_nat (endRow + 1)) rows
    else if startRow =? 0 then [""]
    else take (Z.to_nat startRow) rows.

(** [append('\n')]: a new, empty last row. *)
Definition append_newline (rows : list string) : list string := rows ++ [""].

(** The longest suffix of spaces and tabs is removed. *)
Fixpoint strip_trailing (s : string) : string :=
  match s with
  | EmptyString => EmptyString
  | String c r =>
      let r' := strip_trailing r in
      if (Ascii.eqb c " " || Ascii.eqb c (ascii_of_nat 9)) && String.eqb r' ""
      then EmptyString else String c r'
  end.

(** [backwardsScan(/[ \t]+$/gm, params => params.replace(''))] *)
Definition backwardsScan_strip (rows : list string) : list string :=
  map strip_trailing rows.

(** [getText()], with LF as the line ending. *)
Definition getText (rows : list string) : string :=
  String.concat (String (ascii_of_nat 10) EmptyString) rows.

End TextBuffer.

(** ** The pre-save hook *)

Module SaveHook.

Import JS TextBuffer.

(** The first block of [onWillSave]. *)
Definition trimTrailingWhitespace (settings : Config.Settings) (rows : list string)
    : list string :=
  if strict_eq (Config.trim_trailing_whitespace settings) (Bool true)
  then backwardsScan_strip rows else rows.

(** The second block of [onWillSave]. *)
Definition finalNewline (settings : Config.Settings) (rows : list string) : list string :=
  if negb (strict_eq (Config.insert_final_newline settings) unset) then
    let lastRow := getLineCount rows - 1 in
    if isRowBlank rows lastRow then
      let stripStart := previousNonBlankRow rows lastRow in
      let stripStart :=
        if strict_eq (Config.insert_final_newline settings) (Bool true)
        then Some (to_number stripStart + 1) else stripStart in
      if to_number stripStart <? lastRow
      then deleteRows rows (to_number stripStart + 1) lastRow
      else rows
    else if strict_eq (Config.insert_final_newline settings) (Bool true)
    then append_newline rows
    else rows
  else rows.

(** [onWillSave] of a buffer's [editorconfig], on the rows of its buffer. *)
Definition onWillSave (settings : Config.Settings) (rows : list string) : list string :=
  finalNewline settings (trimTrailingWhitespace settings rows).

End SaveHook.

(** ** The workspace: buffers, editors, wrap guides

    Objects with identity (buffers, editors) live in stores and are
    named by their key, so that two editors showing one buffer share it.
    An editor is named by its position in
    [atom.workspace.getTextEditors()]. *)

Module Atom.

Import JS Config.

(** What [initializeTextBuffer] puts into [disposables]. *)
Inductive Subscription :=
| OnWillSave          (* buffer.onWillSave(editorconfig.onWillSave) *)
| OnDidSaveReapply.   (* buffer.onDidSave(reapplyEditorconfig) *)

(** The host's [CompositeDisposable]: [add] is ignored once disposed,
    [dispose] releases everything. *)
Record CompositeDisposable := mkDisposable {
  subscriptions : list Subscription;
  disposed : bool
}.

Definition disposable_add (s : Subscription) (d : CompositeDisposable) : CompositeDisposable :=
  if disposed d then d else mkDisposable (subscriptions d ++ [s]) false.

Definition disposable_dispose (d : CompositeDisposable) : CompositeDisposable :=
  mkDisposable [] true.

Definition subscribed (s : Subscription) (d : CompositeDisposable) : bool :=
  existsb (fun x => match x, s with
                    | OnWillSave, OnWillSave | OnDidSaveReapply, OnDidSaveReapply => true
                    | _, _ => false
                    end) (subscriptions d).

(** The object [buffer.editorconfig]; its [buffer] back-reference is
    the key of the buffer that holds it. *)
Record Ecfg := mkEcfg {
  ec_disposables : CompositeDisposable;
  ec_state : string;
  ec_settings : Settings;
  ec_config : option (gmap string RawValue)
}.

(** A function value stored in a method slot of a wrap guide. *)
Inductive GuideFn :=
| HostFn (name : string)
| InterceptGuideColumn      (* wrapGuideInterceptor.getGuideColumn.bind(wrapGuide) *)
| InterceptGuidesColumns.   (* wrapGuideInterceptor.getGuidesColumns.bind(wrapGuide) *)

(** The wrap-guide element of an editor's view; [None] in a slot is
    [undefined]. *)
Record WrapGuide := mkWrapGuide {
  wg_editorconfig : option nat;
  wg_getGuideColumn : GuideFn;
  wg_getNativeGuideColumn : option GuideFn;
  wg_getGuidesColumns : GuideFn;
  wg_getNativeGuidesColumns : option GuideFn;
  wg_updates : nat
}.

Record Editor := mkEditor {
  ed_buffer : nat;
  ed_scope : string;              (* getRootScopeDescriptor() *)
  ed_usesSoftTabs : Value;        (* usesSoftTabs(): a boolean or undefined *)
  ed_softTabs : Value;
  ed_tabLength : Value;
  ed_preferredLineLength : Value;
  ed_wrapGuide : option WrapGuide (* querySelector('* /deep/ .wrap-guide'), None for null *)
}.

Record Buffer := mkBuffer {
  buf_uri : option string;        (* getUri(), None for undefined *)
  buf_rows : list string;
  buf_encoding : Value;
  buf_preferredLineEnding : Value;
  buf_editorconfig : option Ecfg  (* None: 'editorconfig' in buffer === false *)
}.

(** The calls made on the host, in order. *)
Inductive Call :=
| SetSoftTabs (e : nat) (v : Value)
| SetTabLength (e : nat) (v : Value)
| SetEncoding (b : nat) (v : Value)
| Update (e : nat) (preferredLineLength : Value)
| UpdateGuide (e : nat)
| SetPreferredLineEnding (b : nat) (v : Value)
| Checklist (b : nat)
| UpdateIcon (state : string)
| RemoveIcon
| ConsoleWarn (msg : string).

Record World := mkWorld {
  buffers : gmap nat Buffer;
  editors : list Editor;          (* atom.workspace.getTextEditors() *)
  saveObservers : list nat;       (* editor.onDidSave(() => observeTextEditor(editor)) *)
  icon : option string;           (* the status tile's icon *)
  calls : list Call
}.

(** The collaborators outside [index.js]. *)
Record Host := mkHost {
  configGet : string -> string -> Value;   (* atom.config.get(key, {scope}) *)
  checklist : Ecfg -> string;              (* ./lib/checklist: the state it leaves in ecfg.state *)
  nativeGuide : string -> Value            (* what a host wrap-guide function returns *)
}.

(** *** Field updates *)

Definition with_buffers (f : gmap nat Buffer -> gmap nat Buffer) (w : World) : World :=
  mkWorld (f (buffers w)) (editors w) (saveObservers w) (icon w) (calls w).
Definition with_editors (f : list Editor -> list Editor) (w : World) : World :=
  mkWorld (buffers w) (f (editors w)) (saveObservers w) (icon w) (calls w).
Definition with_saveObservers (f : list nat -> list nat) (w : World) : World :=
  mkWorld (buffers w) (editors w) (f (saveObservers w)) (icon w) (calls w).
Definition with_icon (i : option string) (w : World) : World :=
  mkWorld (buffers w) (editors w) (saveObservers w) i (calls w).
Definition log (c : Call) (w : World) : World :=
  mkWorld (buffers w) (editors w) (saveObservers w) (icon w) (calls w ++ [c]).

Definition with_editor (e : nat) (f : Editor -> Editor) : World -> World :=
  with_editors (alter f e).
Definition with_buffer (b : nat) (f : Buffer -> Buffer) : World -> World :=
  with_buffers (alter f b).

Definition set_softTabs v (ed : Editor) : Editor :=
  mkEditor (ed_buffer ed) (ed_scope ed) (ed_usesSoftTabs ed) v (ed_tabLength ed)
           (ed_preferredLineLength ed) (ed_wrapGuide ed).
Definition set_tabLength v (ed : Editor) : Editor :=
  mkEditor (ed_buffer ed) (ed_scope ed) (ed_usesSoftTabs ed) (ed_softTabs ed) v
           (ed_preferredLineLength ed) (ed_wrapGuide ed).
Definition set_preferredLineLength v (ed : Editor) : Editor :=
  mkEditor (ed_buffer ed) (ed_scope ed) (ed_usesSoftTabs ed) (ed_softTabs ed)
           (ed_tabLength ed) v (ed_wrapGuide ed).
Definition set_wrapGuide g (ed : Editor) : Editor :=
  mkEditor (ed_buffer ed) (ed_scope ed) (ed_usesSoftTabs ed) (ed_softTabs ed)
           (ed_tabLength ed) (ed_preferredLineLength ed) g.

Definition set_rows r (bf : Buffer) : Buffer :=
  mkBuffer (buf_uri bf) r (buf_encoding bf) (buf_preferredLineEnding bf) (buf_editorconfig bf).
Definition set_encoding v (bf : Buffer) : Buffer :=
  mkBuffer (buf_uri bf) (buf_rows bf) v (buf_preferredLineEnding bf) (buf_editorconfig bf).
Definition set_preferredLineEnding v (bf : Buffer) : Buffer :=
  mkBuffer (buf_uri bf) (buf_rows bf) (buf_encoding bf) v (buf_editorconfig bf).
Definition set_editorconfig ec (bf : Buffer) : Buffer :=
  mkBuffer (buf_uri bf) (buf_rows bf) (buf_encoding bf) (buf_preferredLineEnding bf) ec.

Definition set_ec_disposables d (ec : Ecfg) : Ecfg :=
  mkEcfg d (ec_state ec) (ec_settings ec) (ec_config ec).
Definition set_ec_state s (ec : Ecfg) : Ecfg :=
  mkEcfg (ec_disposables ec) s (ec_settings ec) (ec_config ec).
Definition set_ec_settings s (ec : Ecfg) : Ecfg :=
  mkEcfg (ec_disposables ec) (ec_state ec) s (ec_config ec).
Definition set_ec_config c (ec : Ecfg) : Ecfg :=
  mkEcfg (ec_disposables ec) (ec_state ec) (ec_settings ec) c.

(** [buffer.editorconfig] of the buffer [b]. *)
Definition ecfg_of (w : World) (b : nat) : option Ecfg :=
  bf ← buffers w !! b; buf_editorconfig bf.

Definition with_ecfg (b : nat) (f : Ecfg -> Ecfg) : World -> World :=
  with_buffer b (fun bf => set_editorconfig (f <$> buf_editorconfig bf) bf).

(** *** Host setters: each changes its property and is logged. *)

Definition setSoftTabs (e : nat) (v : Value) (w : World) : World :=
  log (SetSoftTabs e v) (with_editor e (set_softTabs v) w).
Definition setTabLength (e : nat) (v : Value) (w : World) : World :=
  log (SetTabLength e v) (with_editor e (set_tabLength v) w).
Definition setEncoding (b : nat) (v : Value) (w : World) : World :=
  log (SetEncoding b v) (with_buffer b (set_encoding v) w).
Definition update (e : nat) (preferredLineLength : Value) (w : World) : World :=
  log (Update e preferredLineLength) (with_editor e (set_preferredLineLength preferredLineLength) w).
Definition setPreferredLineEnding (b : nat) (v : Value) (w : World) : World :=
  log (SetPreferredLineEnding b v) (with_buffer b (set_preferredLineEnding v) w).
Definition removeIcon (w : World) : World := log RemoveIcon (with_icon None w).
Definition console_warn (msg : string) (w : World) : World := log (ConsoleWarn msg) w.

End Atom.

(** ** The functions of [index.js] *)

Module Index.

Import JS Config Atom.

(** [setState(ecfg)]: [checklist(ecfg)] leaves the severity in
    [ecfg.state], and the status tile shows it. *)
Definition setState (h : Host) (b : nat) (w : World) : World :=
  match ecfg_of w b with
  | Some ec =>
      let state := checklist h ec in
      let w := log (Checklist b) (with_ecfg b (set_ec_state state) w) in
      log (UpdateIcon state) (with_icon (Some state) w)
  | None => w
  end.

(** The regular expression [/[\\|/]\.editorconfig$/]: the text ends in
    a backslash, a bar or a slash followed by [.editorconfig]. *)
Fixpoint ends_in_editorconfig (s : string) : bool :=
  match s with
  | EmptyString => false
  | String c r =>
      (Ascii.eqb c "\" || Ascii.eqb c "|" || Ascii.eqb c "/")
        && String.eqb r ".editorconfig"
      || ends_in_editorconfig r
  end.

(** [buffer.getUri() && buffer.getUri().match(...) !== null] *)
Definition is_editorconfig_file (uri : option string) : bool :=
  match uri with
  | Some s => negb (String.eqb s "") && ends_in_editorconfig s
  | None => false
  end.

(** The object literal assigned to [buffer.editorconfig], with the
    subscriptions added right after. *)
Definition fresh_ecfg (uri : option string) : Ecfg :=
  let d := disposable_add OnWillSave (mkDisposable [] false) in
  let d := if is_editorconfig_file uri then disposable_add OnDidSaveReapply d else d in
  mkEcfg d "subtle" initial_settings None.

Definition initializeTextBuffer (b : nat) (w : World) : World :=
  with_buffer b (fun bf =>
    match buf_editorconfig bf with
    | None => set_editorconfig (Some (fresh_ecfg (buf_uri bf))) bf
    | Some _ => bf
    end) w.

(** [getCurrentEditor]: the [reduce] keeps the last open editor whose
    buffer is this buffer. *)
Fixpoint last_editor_of (b : nat) (eds : list Editor) (i : nat) (prev : option nat) : option nat :=
  match eds with
  | [] => prev
  | curr :: rest =>
      last_editor_of b rest (S i) (if Nat.eqb (ed_buffer curr) b then Some i else prev)
  end.

Definition getCurrentEditor (w : World) (b : nat) : option nat :=
  last_editor_of b (editors w) 0%nat None.

(** Lines 98-108 of [applySettings]: the guide is intercepted once; the
    marker [wrapGuide.editorconfig] tells whether it already was. *)
Definition interceptWrapGuide (b : nat) (g : WrapGuide) : WrapGuide :=
  match wg_editorconfig g with
  | None =>
      mkWrapGuide (Some b)
        InterceptGuideColumn (Some (wg_getGuideColumn g))
        InterceptGuidesColumns (Some (wg_getGuidesColumns g))
        (wg_updates g)
  | Some _ => g
  end.

(** [wrapGuide.updateGuide()] *)
Definition updateGuide (g : WrapGuide) : WrapGuide :=
  mkWrapGuide (wg_editorconfig g) (wg_getGuideColumn g) (wg_getNativeGuideColumn g)
    (wg_getGuidesColumns g) (wg_getNativeGuidesColumns g) (S (wg_updates g)).

(** The body guarded by [editor.getBuffer() === buffer]. *)
Definition applyToEditor (h : Host) (b e : nat) (ed : Editor) (settings : Settings)
    (w : World) : World :=
  let scope := ed_scope ed in
  let w :=
    if strict_eq (indent_style settings) unset then
      if strict_eq (ed_usesSoftTabs ed) Undefined
      then setSoftTabs e (configGet h "editor.softTabs" scope) w
      else setSoftTabs e (ed_usesSoftTabs ed) w
    else setSoftTabs e (Bool (strict_eq (indent_style settings) (Str "space"))) w in
  let w :=
    if strict_eq (tab_width settings) unset
    then setTabLength e (configGet h "editor.tabLength" scope) w
    else setTabLength e (tab_width settings) w in
  let w :=
    if strict_eq (charset settings) unset
    then setEncoding b (configGet h "core.fileEncoding" scope) w
    else setEncoding b (charset settings) w in
  let preferredLineLength :=
    if strict_eq (max_line_length settings) unset
    then configGet h "editor.preferredLineLength" scope
    else max_line_length settings in
  let w := update e preferredLineLength w in
  let w :=
    match ed_wrapGuide ed with
    | Some g =>
        log (UpdateGuide e)
          (with_editor e (set_wrapGuide (Some (updateGuide (interceptWrapGuide b g)))) w)
    | None => w
    end in
  if negb (strict_eq (end_of_line settings) unset)
  then setPreferredLineEnding b (end_of_line settings) w
  else w.

(** [applySettings] of the [editorconfig] object of buffer [b]. *)
Definition applySettings (h : Host) (b : nat) (w : World) : World :=
  match getCurrentEditor w b with
  | None => w
  | Some e =>
      match editors w !! e, ecfg_of w b with
      | Some ed, Some ec =>
          let w :=
            if Nat.eqb (ed_buffer ed) b
            then applyToEditor h b e ed (ec_settings ec) w
            else w in
          setState h b w
      | _, _ => w
      end
  end.

(** A call of [editorconfig.parse(file)] made for an editor. *)
Record Request := mkRequest {
  req_editor : nat;
  req_file : string
}.

(** How the promise of [editorconfig.parse] settles. *)
Inductive Outcome :=
| Resolved (config : gmap string RawValue)
| Rejected (reason : Thrown).

(** How the promise returned by [.then(...).catch(Error, ...)] settles. *)
Inductive Settled :=
| Fulfilled
| Unhandled (reason : Thrown).

(** [editor.getURI()] *)
Definition getURI (w : World) (e : nat) : option string :=
  ed ← editors w !! e; bf ← buffers w !! ed_buffer ed; buf_uri bf.

(** [observeTextEditor], up to the call of [editorconfig.parse]: the
    world it leaves and the request it made, if any.  An [e] outside
    the workspace stands for a falsy argument. *)
Definition observeTextEditor (e : nat) (w : World) : World * list Request :=
  match editors w !! e with
  | None => (w, [])
  | Some ed =>
      let w := initializeTextBuffer (ed_buffer ed) w in
      match getURI w e with
      | Some file =>
          if String.eqb file "" then (with_saveObservers (fun l => (l ++ [e])%list) w, [])
          else (w, [mkRequest e file])
      | None => (with_saveObservers (fun l => (l ++ [e])%list) w, [])
      end
  end.

(** The callback given to [then]; it closes over [editor] alone. *)
Definition onParsed (h : Host) (e : nat) (config : gmap string RawValue)
    : Eff.t World unit :=
  fun w =>
    if is_empty config then (Normal tt, w)
    else
      match editors w !! e with
      | None => (Normal tt, w)
      | Some ed =>
          let b := ed_buffer ed in
          match ecfg_of w b with
          | None => (Throw (TypeError "Cannot read property 'settings' of undefined"), w)
          | Some ec =>
              let w := with_ecfg b (set_ec_config (Some config)) w in
              let '(r, settings) := normalize config (ec_settings ec) in
              let w := with_ecfg b (set_ec_settings settings) w in
              match r with
              | Normal _ => (Normal tt, applySettings h b w)
              | Throw x => (Throw x, w)
              end
          end
      end.

(** [.catch(Error, e => console.warn(`atom-editorconfig: ${e}`))]: the
    filtered catch of the promise library behind [editorconfig.parse];
    the handler runs for instances of [Error], any other reason stays
    a rejection. *)
Definition catchError (r : Completion unit * World) : Settled * World :=
  match r with
  | (Normal _, w) => (Fulfilled, w)
  | (Throw x, w) =>
      if instanceof_Error x
      then (Fulfilled, console_warn ("atom-editorconfig: " ++ thrown_to_string x) w)
      else (Unhandled x, w)
  end.

(** The promise chain of [observeTextEditor] once [parse] has settled. *)
Definition settle (h : Host) (req : Request) (o : Outcome) (w : World) : Settled * World :=
  catchError
    match o with
    | Resolved config => onParsed h (req_editor req) config w
    | Rejected reason => (Throw reason, w)
    end.

(** [reapplyEditorconfig]: every open editor is observed again. *)
Fixpoint observeAll (es : list nat) (w : World) : World * list Request :=
  match es with
  | [] => (w, [])
  | e :: rest =>
      let '(w, r1) := observeTextEditor e w in
      let '(w, r2) := observeAll rest w in
      (w, (r1 ++ r2)%list)
  end.

Definition reapplyEditorconfig (w : World) : World * list Request :=
  observeAll (seq 0 (length (editors w))) w.

(** The active pane item handed to [observeActivePaneItem]: none, an
    open text editor (whose constructor is named [TextEditor]), or any
    other object, with the name of its constructor and the buffer its
    [buffer] property holds, if it holds one. *)
Inductive PaneItem :=
| NoItem
| TextEditorItem (e : nat)
| OtherItem (constructorName : string) (buffer : option nat).

(** [editor.constructor.name] *)
Definition constructor_name (item : PaneItem) : option string :=
  match item with
  | NoItem => None
  | TextEditorItem _ => Some "TextEditor"
  | OtherItem name _ => Some name
  end.

(** [editor.buffer] *)
Definition item_buffer (w : World) (item : PaneItem) : option nat :=
  match item with
  | NoItem => None
  | TextEditorItem e => ed_buffer <$> editors w !! e
  | OtherItem _ buffer => buffer
  end.

Definition observeActivePaneItem (h : Host) (item : PaneItem) (w : World) : World :=
  if bool_decide (constructor_name item = Some "TextEditor")
  then
    match item_buffer w item with
    | Some b =>
        match ecfg_of w b with
        | Some _ => applySettings h b w
        | None => w
        end
    | None => w
    end
  else removeIcon w.

(** The [forEach] of [deactivate]:
    [editor.getBuffer().editorconfig.disposables.dispose()]. *)
Fixpoint disposeAll (eds : list Editor) : Eff.t World unit :=
  fun w =>
    match eds with
    | [] => (Normal tt, w)
    | ed :: rest =>
        match ecfg_of w (ed_buffer ed) with
        | Some ec =>
            disposeAll rest
              (with_ecfg (ed_buffer ed)
                 (set_ec_disposables (disposable_dispose (ec_disposables ec))) w)
        | None =>
            (Throw (TypeError "Cannot read property 'disposables' of undefined"), w)
        end
    end.

Definition deactivate : Eff.t World unit :=
  fun w =>
    match disposeAll (editors w) w with
    | (Normal _, w) => (Normal tt, removeIcon w)
    | (Throw x, w) => (Throw x, w)
    end.

(** The host saves buffer [b]: the will-save handlers run, then the
    did-save handlers.  Handlers released by [dispose] do not run. *)
Definition save (b : nat) (w : World) : World * list Request :=
  let ec := ecfg_of w b in
  let w :=
    match ec with
    | Some ec =>
        if subscribed OnWillSave (ec_disposables ec)
        then with_buffer b
               (fun bf => set_rows (SaveHook.onWillSave (ec_settings ec) (buf_rows bf)) bf) w
        else w
    | None => w
    end in
  let '(w, r1) :=
    match ec with
    | Some ec =>
        if subscribed OnDidSaveReapply (ec_disposables ec)
        then reapplyEditorconfig w else (w, [])
    | None => (w, [])
    end in
  let '(w, r2) :=
    observeAll (filter (fun e => bool_decide (ed_buffer <$> editors w !! e = Some b))
                       (saveObservers w)) w in
  (w, (r1 ++ r2)%list).

End Index.

(** ** The wrap-guide interceptor *)

Module WrapGuideInterceptor.

Import JS Config Atom.

(** Modelled from the spec: [./lib/wrapguide-interceptor], whose
    [getGuideColumn] and [getGuidesColumns] are bound to the guide by
    [applySettings], is not among the sources.  Section 4.3: the
    override uses the resolved [max_line_length] and falls back to the
    original computation when it is unset.  [call] runs a function
    slot of the guide [g]; [None] is a failed call (an undefined slot,
    or the fuel used up by slots that call each other for ever). *)
Fixpoint call (h : Host) (w : World) (g : WrapGuide) (fuel : nat) (f : GuideFn)
    : option Value :=
  match fuel with
  | O => None
  | S fuel =>
      let intercepted (native : option GuideFn) :=
        ec ← wg_editorconfig g ≫= ecfg_of w;
        if strict_eq (max_line_length (ec_settings ec)) unset
        then native ≫= call h w g fuel
        else Some (max_line_length (ec_settings ec)) in
      match f with
      | HostFn name => Some (nativeGuide h name)
      | InterceptGuideColumn => intercepted (wg_getNativeGuideColumn g)
      | InterceptGuidesColumns => intercepted (wg_getNativeGuidesColumns g)
      end
  end.

End WrapGuideInterceptor.

(** ** What the specification says, as predicates on the model *)

Module Spec.

Import JS Config Atom Index.

(** The documented domain of each settings field (section 3). *)
Definition boolean_or_unset (v : Value) : bool :=
  match v with Bool _ => true | _ => strict_eq v unset end.

Definition positive_or_unset (v : Value) : bool :=
  match v with Num n => 0 <? n | _ => strict_eq v unset end.

Definition line_ending_or_unset (v : Value) : bool :=
  strict_eq v (Str CRLF) || strict_eq v (Str CR) || strict_eq v (Str LF)
  || strict_eq v unset.

Definition indent_or_unset (v : Value) : bool :=
  strict_eq v (Str "space") || strict_eq v (Str "tab") || strict_eq v unset.

(** A lower-case string without hyphens; "unset" is one. *)
Definition charset_or_unset (v : Value) : bool :=
  match v with
  | Str s => String.eqb (toLowerCase (strip_hyphens s)) s
  | _ => false
  end.

Definition in_domain (s : Settings) : bool :=
  boolean_or_unset (trim_trailing_whitespace s)
  && boolean_or_unset (insert_final_newline s)
  && positive_or_unset (max_line_length s)
  && line_ending_or_unset (end_of_line s)
  && indent_or_unset (indent_style s)
  && positive_or_unset (tab_width s)
  && charset_or_unset (charset s).

(** [isNaN(n) || n <= 0] turns a parsed number into ['unset']. *)
Definition keep_positive (v : Value) : Value :=
  if nan_or_nonpositive v then unset else v.

(** The rule for [tab_width] in the words of section 4.1: from
    [indent_size] if that key is present, else from [tab_width]. *)
Definition tab_width_as_specified (config : gmap string RawValue) : Value :=
  keep_positive
    (parseInt10 (if has "indent_size" config
                 then get "indent_size" config
                 else get "tab_width" config)).

(** The same rule with "present" read as JavaScript's [||] reads it:
    [indent_size] counts when it is neither absent, nor [false], nor
    the empty string, nor the number 0. *)
Definition tab_width_source (config : gmap string RawValue) : Value :=
  if truthy (get "indent_size" config)
  then get "indent_size" config
  else get "tab_width" config.

(** The text ends in exactly one newline: the last row is empty and the
    row before it is not blank. *)
Definition one_final_newline (rows : list string) : bool :=
  match rev rows with
  | l :: p :: _ => String.eqb l "" && TextBuffer.has_non_space p
  | _ => false
  end.

(** The text ends in a newline at all. *)
Definition ends_in_newline (rows : list string) : bool :=
  match rev rows with
  | l :: _ :: _ => String.eqb l ""
  | _ => false
  end.

(** The directory part of a path, with its final separator. *)
Fixpoint dirname (s : string) : string :=
  match s with
  | EmptyString => EmptyString
  | String c r =>
      if existsb (Ascii.eqb "/") (list_ascii_of_string r)
      then String c (dirname r)
      else if Ascii.eqb c "/" then String c EmptyString else EmptyString
  end.

(** A [.editorconfig] file governs the files below its directory. *)
Definition governs (editorconfig_file file : string) : bool :=
  String.prefix (dirname editorconfig_file) file.

(** Two worlds with the same editors and the same path for every
    buffer. *)
Definition same_paths (w w' : World) : Prop :=
  editors w' = editors w
  /\ forall b, buffers w' !! b ≫= buf_uri = buffers w !! b ≫= buf_uri.

(** The request [observeTextEditor] makes for an editor. *)
Definition request_of (w : World) (e : nat) : list Request :=
  match getURI w e with
  | Some file => if String.eqb file "" then [] else [mkRequest e file]
  | None => []
  end.

(** The subscriptions of buffer [b] have been released. *)
Definition released (w : World) (b : nat) : Prop :=
  ec_disposables <$> ecfg_of w b = Some (mkDisposable [] true).


End Spec.

(** ** Sample workspaces *)

Module Samples.

Import JS Config Atom Index.

Definition host : Host :=
  mkHost (fun key _ => Str key) (fun _ => "success") (fun _ => Num 80).

Definition guide : WrapGuide :=
  mkWrapGuide None (HostFn "getGuideColumn") None (HostFn "getGuidesColumns") None 0.

Definition editor_on (b : nat) : Editor :=
  mkEditor b "source.js" Undefined Undefined Undefined Undefined (Some guide).

Definition buffer_at (uri : string) (ec : option Ecfg) : Buffer :=
  mkBuffer (Some uri) ["a"] Undefined Undefined ec.

(** Two observed editors: a [.editorconfig] file in [/a/] and a file
    in [/b/]. *)
Definition two_projects : World :=
  mkWorld
    (<[0%nat := buffer_at "/a/.editorconfig" (Some (fresh_ecfg (Some "/a/.editorconfig")))]>
       (<[1%nat := buffer_at "/b/x.txt" (Some (fresh_ecfg (Some "/b/x.txt")))]> ∅))
    [editor_on 0; editor_on 1] [] None [].


(** An editor whose buffer never got an [editorconfig] object, followed
    by an observed one. *)
Definition half_observed : World :=
  mkWorld
    (<[0%nat := mkBuffer (Some "/a/new.txt") ["a"] Undefined Undefined None]>
       (<[1%nat := buffer_at "/a/x.txt" (Some (fresh_ecfg (Some "/a/x.txt")))]> ∅))
    [editor_on 0; editor_on 1] [] None [].

(** A buffer with a config state that no open editor shows. *)
Definition hidden_buffer : World :=
  mkWorld
    (<[0%nat := buffer_at "/a/x.txt" (Some (fresh_ecfg (Some "/a/x.txt")))]>
       (<[1%nat := buffer_at "/a/y.txt" (Some (fresh_ecfg (Some "/a/y.txt")))]> ∅))
    [editor_on 0] [] None [].

Definition tab4 : gmap string RawValue := {[ "indent_size" := RStr "4" ]}.

(** [indent_size] present but empty, beside a [tab_width]. *)
Definition empty_indent_size : gmap string RawValue :=
  <[ "indent_size" := RStr "" ]> {[ "tab_width" := RStr "4" ]}.

(** [indent_style = true] after [insert_final_newline = true]. *)
Definition boolean_indent_style : gmap string RawValue :=
  <[ "insert_final_newline" := RBool true ]> {[ "indent_style" := RBool true ]}.

(** An [end_of_line] that names a member of [Object.prototype]. *)
Definition inherited_end_of_line : gmap string RawValue :=
  {[ "end_of_line" := RStr "constructor" ]}.

Definition final_newline_on : Settings :=
  set_insert_final_newline (Bool true) initial_settings.

Definition final_newline_off : Settings :=
  set_insert_final_newline (Bool false) initial_settings.

Definition only_tab_width (v : string) : gmap string RawValue :=
  {[ "tab_width" := RStr v ]}.

Definition only_indent_size (v : string) : gmap string RawValue :=
  {[ "indent_size" := RStr v ]}.

(** A run of [n] digits 9. *)
Fixpoint nines (n : nat) : string :=
  match n with
  | O => EmptyString
  | S k => String "9" (nines k)
  end.

(** The same two with a number for a value. *)
Definition number_tab_width (repr : string) : gmap string RawValue :=
  {[ "tab_width" := RNum repr ]}.

Definition number_indent_size (repr : string) : gmap string RawValue :=
  {[ "indent_size" := RNum repr ]}.

(** The numbers 0 under [indent_size] and 4 under [tab_width]. *)
Definition zero_indent_size : gmap string RawValue :=
  <[ "indent_size" := RNum "0" ]> {[ "tab_width" := RNum "4" ]}.

(** A size beside a [charset] that is no string. *)
Definition boolean_charset : gmap string RawValue :=
  <[ "indent_size" := RNum "4" ]> {[ "charset" := RBool true ]}.

End Samples.

(** ** Activation *)

Module Activation.

Import JS Config Atom Index.

(** [activate], as far as the workspace goes.  The three commands it
    registers first come from [./commands] and keep nothing in the
    workspace.  [atom.workspace.observeTextEditors] hands every open
    editor to [observeTextEditor] at once,
    [atom.workspace.observeActivePaneItem] hands the active pane item
    [active] to [observeActivePaneItem] at once, and
    [reapplyEditorconfig] observes every open editor a second time. *)
Definition activate (h : Host) (active : PaneItem) (w : World) : World * list Request :=
  let '(w, r1) := observeAll (seq 0 (length (editors w))) w in
  let w := observeActivePaneItem h active w in
  let '(w, r2) := reapplyEditorconfig w in
  (w, (r1 ++ r2)%list).

End Activation.

(** ** Notions used to state further properties *)

Module Notions.

Import JS Config Atom.

(** A value [search] and [replace] can be called on, or no value. *)
Definition string_or_absent (v : option RawValue) : Prop :=
  match v with
  | Some (RStr _) | None => True
  | Some _ => False
  end.

(** A character the trimming expression [/[ \t]+$/] removes. *)
Definition space_or_tab (c : ascii) : bool :=
  Ascii.eqb c " " || Ascii.eqb c (ascii_of_nat 9).

Fixpoint only_spaces_tabs (s : string) : bool :=
  match s with
  | EmptyString => true
  | String c r => space_or_tab c && only_spaces_tabs r
  end.

Fixpoint ends_in_space_tab (s : string) : bool :=
  match s with
  | EmptyString => false
  | String c EmptyString => space_or_tab c
  | String _ r => ends_in_space_tab r
  end.

(** Two worlds in which every editor shows the same buffer and every
    buffer has the same path. *)
Definition same_files (w w' : World) : Prop :=
  map ed_buffer (editors w') = map ed_buffer (editors w)
  /\ forall b, buffers w' !! b ≫= buf_uri = buffers w !! b ≫= buf_uri.

(** Every open editor shows a buffer of the store. *)
Definition editors_have_buffers (w : World) : Prop :=
  Forall (fun ed => is_Some (buffers w !! ed_buffer ed)) (editors w).



End Notions.

Import JS Config Atom Index Spec.

(** * Properties *)

(** ** Normalisation *)

Ltac run_normalize :=
  unfold normalize, Eff.bind, Eff.modify, Eff.lift, Eff.gets, Eff.ret.

Lemma lower_char_idem c : lower_char (lower_char c) = lower_char c.
Proof. destruct c as [[] [] [] [] [] [] [] []]; reflexivity. Qed.

Lemma lower_char_hyphen c : Ascii.eqb (lower_char c) "-" = Ascii.eqb c "-".
Proof. destruct c as [[] [] [] [] [] [] [] []]; reflexivity. Qed.

Lemma strip_hyphens_lower s :
  strip_hyphens (toLowerCase s) = toLowerCase (strip_hyphens s).
Proof.
  induction s as [|c r IH]; simpl; [reflexivity|].
  rewrite lower_char_hyphen. destruct (Ascii.eqb c "-"); simpl; congruence.
Qed.

Lemma strip_hyphens_idem s : strip_hyphens (strip_hyphens s) = strip_hyphens s.
Proof.
  induction s as [|c r IH]; simpl; [reflexivity|].
  destruct (Ascii.eqb c "-") eqn:E; simpl; [assumption|].
  rewrite E. congruence.
Qed.

Lemma toLowerCase_idem s : toLowerCase (toLowerCase s) = toLowerCase s.
Proof.
  induction s as [|c r IH]; simpl; [reflexivity|].
  rewrite lower_char_idem. congruence.
Qed.

(** The charset the normaliser stores is a fixed point of its own
    normalisation. *)
Lemma charset_normal_form s :
  Spec.charset_or_unset (Str (toLowerCase (strip_hyphens s))) = true.
Proof.
  unfold Spec.charset_or_unset.
  rewrite strip_hyphens_lower, strip_hyphens_idem, toLowerCase_idem.
  apply String.eqb_refl.
Qed.

(** The example of section 8: "UTF-8" becomes "utf8". *)
Example charset_utf8 :
  charset (snd (normalize {[ "charset" := RStr "UTF-8" ]} initial_settings)) = Str "utf8".
Proof. vm_compute. reflexivity. Qed.

(** Below 2^53 every integer is a number. *)
Lemma round_double_exact n : Z.abs n < 2 ^ 53 -> round_double n = Num n.
Proof.
  intros Hn. unfold round_double.
  destruct (Z.ltb_spec (Z.abs n) (2 ^ 53)); [reflexivity | lia].
Qed.

(** Rounding gives an integer of the same sign, or the infinity of that
    sign. *)
Lemma round_double_cases n :
  (exists m, round_double n = Num m /\ (0 < m <-> 0 < n))
  \/ round_double n = Infinity (n <? 0).
Proof.
  unfold round_double.
  destruct (Z.ltb_spec (Z.abs n) (2 ^ 53)) as [|Hbig];
    [left; exists n; split; [reflexivity | tauto]|].
  set (a := Z.abs n) in *. set (e := Z.log2 a - 52).
  match goal with
  | |- context [Z.shiftl (if ?c then ?x + 1 else ?x) e] =>
      set (q := if c then x + 1 else x)
  end.
  destruct (2 ^ 1024 <=? Z.shiftl q e); [right; reflexivity|].
  left. eexists. split; [reflexivity|].
  assert (Ha : 0 < a) by (pose proof (Z.pow_pos_nonneg 2 53); lia).
  assert (Hlog : 53 <= Z.log2 a) by (apply Z.log2_le_pow2; lia).
  assert (He : 0 <= e) by (unfold e; lia).
  assert (Hq : 0 < q).
  { assert (0 < Z.shiftr a e).
    { rewrite Z.shiftr_div_pow2 by exact He.
      apply Z.div_str_pos. split; [apply Z.pow_pos_nonneg; lia|].
      transitivity (2 ^ Z.log2 a); [apply Z.pow_le_mono_r; unfold e; lia|].
      apply Z.log2_spec. exact Ha. }
    unfold q. destruct (_ || _); lia. }
  assert (0 < Z.shiftl q e).
  { rewrite Z.shiftl_mul_pow2 by exact He.
    apply Z.mul_pos_pos; [exact Hq | apply Z.pow_pos_nonneg; lia]. }
  unfold a in Ha. nia.
Qed.

Lemma parseInt10_cases v :
  parseInt10 v = NaN \/ (exists n, parseInt10 v = Num n)
  \/ exists negative, parseInt10 v = Infinity negative.
Proof.
  unfold parseInt10.
  destruct (match skip_space (ToString v) with
            | String "-" r => (-1, r)
            | String "+" r => (1, r)
            | _ => (1, skip_space (ToString v))
            end) as [sign body].
  destruct (read_digits body None) as [n|]; [|left; reflexivity].
  destruct (round_double_cases (sign * n)) as [(m & -> & _) | ->]; eauto.
Qed.

(** What the test [isNaN(n) || n <= 0] keeps of a parsed number: a
    positive integer or the positive infinity. *)
Lemma keep_positive_cases v :
  (exists n, parseInt10 v = Num n /\ 0 < n /\ Spec.keep_positive (parseInt10 v) = Num n)
  \/ (parseInt10 v = Infinity false
      /\ Spec.keep_positive (parseInt10 v) = Infinity false)
  \/ Spec.keep_positive (parseInt10 v) = unset.
Proof.
  unfold Spec.keep_positive.
  destruct (parseInt10_cases v) as [-> | [[n ->] | [[] ->]]]; simpl; auto.
  destruct (Z.leb_spec n 0); [right; right; reflexivity | left; exists n; auto].
Qed.

Lemma keep_positive_domain v :
  parseInt10 v <> Infinity false ->
  Spec.positive_or_unset (Spec.keep_positive (parseInt10 v)) = true.
Proof.
  intros Hfinite.
  destruct (keep_positive_cases v) as [(n & _ & Hn & ->) | [[Hinf _] | ->]];
    simpl; [lia | contradiction | reflexivity].
Qed.

(** The fields a boolean-strict rule fills. *)
Lemma boolean_rule_domain (present : bool) v :
  Spec.boolean_or_unset
    (if present && typeof_boolean v then strict_eq_true v else unset) = true.
Proof. destruct present, v as [| |[]| | | | | |]; reflexivity. Qed.

Lemma end_of_line_rule_domain key :
  mem_string (ToString key) object_prototype_names = false ->
  Spec.line_ending_or_unset (or (get_literal lineEndings key) unset) = true.
Proof.
  intros Hproto. unfold get_literal, lineEndings. cbn [List.find fst snd].
  destruct (String.eqb "crlf" (ToString key)); [reflexivity|].
  destruct (String.eqb "cr" (ToString key)); [reflexivity|].
  destruct (String.eqb "lf" (ToString key)); [reflexivity|].
  rewrite Hproto. reflexivity.
Qed.

(** What [normalize] leaves in [tab_width] and [max_line_length] once
    it has run to its end, and when it runs to its end. *)
Lemma normalize_normal config s0 s' :
  normalize config s0 = (Normal tt, s') ->
  tab_width s' = Spec.keep_positive (parseInt10 (Spec.tab_width_source config))
  /\ max_line_length s' = Spec.keep_positive (parseInt10 (get "max_line_length" config)).
Proof.
  run_normalize. unfold Spec.tab_width_source, Spec.keep_positive, or.
  destruct (has "indent_style" config);
    [destruct (search_space_or_tab (get "indent_style" config)); [|discriminate]|];
    cbn [fst snd tab_width set_tab_width max_line_length set_max_line_length
         set_end_of_line set_indent_style];
    (destruct (truthy (get "indent_size" config));
     (destruct (nan_or_nonpositive (parseInt10 _)) eqn:E1;
      cbn [tab_width set_tab_width max_line_length set_max_line_length];
      (destruct (nan_or_nonpositive (parseInt10 (get "max_line_length" config))) eqn:E2;
       cbn [tab_width set_tab_width max_line_length set_max_line_length];
       (destruct (has "charset" config);
        [destruct (replace_hyphens_lower (get "charset" config)); [|discriminate]|];
        intros [= <-]; cbn; rewrite ?E1, ?E2; auto)))).
Qed.

(** X1.  On a mapping whose [indent_style] and [charset] are strings (or
    absent), whose [end_of_line] does not name a member of
    [Object.prototype], and whose sizes are not so long that they parse
    to the infinity, the normaliser runs to its end and every field is
    in its documented domain. *)
Lemma normalize_in_domain config s0 :
  Notions.string_or_absent (config !! "indent_style") ->
  Notions.string_or_absent (config !! "charset") ->
  mem_string (ToString (get "end_of_line" config)) object_prototype_names = false ->
  parseInt10 (Spec.tab_width_source config) <> Infinity false ->
  parseInt10 (get "max_line_length" config) <> Infinity false ->
  exists s', normalize config s0 = (Normal tt, s') /\ Spec.in_domain s' = true.
Proof.
  intros Hstyle Hcharset Heol Htab Hlen.
  assert (Hs : exists ok,
    (if has "indent_style" config
     then Eff.bind (Eff.lift (search_space_or_tab (get "indent_style" config)))
            (fun i => Eff.ret (i >? -1))
     else Eff.ret false)
    = (fun s : Settings => (Normal ok, s))
    /\ Spec.indent_or_unset (if ok then get "indent_style" config else unset) = true).
  { unfold has, get. destruct (config !! "indent_style") as [[b|s|r]|] eqn:E;
      [destruct Hstyle | | destruct Hstyle |].
    - unfold search_space_or_tab, to_js, Eff.bind, Eff.lift, Eff.ret.
      destruct (String.eqb s "space" || String.eqb s "tab") eqn:E1.
      + exists true. split; [reflexivity|].
        unfold Spec.indent_or_unset. cbn [strict_eq]. rewrite E1. reflexivity.
      + exists false. split; reflexivity.
    - exists false. split; reflexivity. }
  assert (Hc : exists c,
    (if has "charset" config
     then Eff.bind (Eff.lift (replace_hyphens_lower (get "charset" config)))
            (fun c => Eff.modify (set_charset c))
     else Eff.modify (set_charset unset))
    = (fun s : Settings => (Normal tt, set_charset c s))
    /\ Spec.charset_or_unset c = true).
  { unfold has, get. destruct (config !! "charset") as [[b|s|r]|] eqn:E;
      [destruct Hcharset | | destruct Hcharset |].
    - exists (Str (toLowerCase (strip_hyphens s))). split; [reflexivity|].
      apply charset_normal_form.
    - exists unset. split; reflexivity. }
  destruct Hs as (ok & Hs & Hok), Hc as (c & Hc & Hcd).
  unfold normalize. rewrite Hs, Hc.
  unfold Eff.bind, Eff.modify, Eff.gets, Eff.ret.
  cbn [fst snd tab_width set_tab_width max_line_length set_max_line_length
       set_end_of_line set_indent_style set_insert_final_newline
       set_trim_trailing_whitespace].
  pose proof (keep_positive_domain (or (get "indent_size" config) (get "tab_width" config)) Htab)
    as Htw.
  pose proof (keep_positive_domain (get "max_line_length" config) Hlen) as Hml.
  unfold Spec.keep_positive in Htw, Hml.
  destruct (nan_or_nonpositive (parseInt10 (or _ _)));
    destruct (nan_or_nonpositive (parseInt10 (get "max_line_length" config)));
    eexists; (split; [reflexivity|]);
    unfold Spec.in_domain; cbn;
    rewrite ?boolean_rule_domain, ?Hok, ?Hcd, ?(end_of_line_rule_domain _ Heol);
    cbn in Htw, Hml; rewrite ?Htw, ?Hml; reflexivity.
Qed.

(** C1 (defect in the code).  The normaliser is not total on the
    mappings the resolver can return: with [indent_style = true] the
    call of [search] on a boolean raises a [TypeError], after
    [insert_final_newline] has already been assigned; and an
    [end_of_line] that names a member of [Object.prototype] (here
    "constructor") is looked up through the prototype of the
    [lineEndings] literal, which leaves a function in the settings
    instead of a line ending or ['unset']. *)
Theorem normalize_throws_on_boolean_indent_style :
  normalize Samples.boolean_indent_style initial_settings
  = (Throw (TypeError "config.indent_style.search is not a function"),
     set_insert_final_newline (Bool true) initial_settings)
  /\ end_of_line (snd (normalize Samples.inherited_end_of_line initial_settings))
     = ProtoMember "constructor"
  /\ Spec.in_domain (snd (normalize Samples.inherited_end_of_line initial_settings)) = false.
Proof. vm_compute. repeat split. Qed.

(** C8, as the claim states it, fails: [indent_size] is present (and
    empty), so the stated rule parses it and yields ['unset'], while
    the code falls through [||] to [tab_width] and stores 4. *)
Lemma empty_indent_size_falls_back_to_tab_width :
  normalize Samples.empty_indent_size initial_settings
  = (Normal tt, set_tab_width (Num 4) initial_settings)
  /\ Spec.tab_width_as_specified Samples.empty_indent_size = unset.
Proof. vm_compute. split; reflexivity. Qed.

(** The rule for [tab_width] has run as soon as the rule for
    [indent_style] before it did not raise; what the rule for [charset]
    does after it is of no concern. *)
Lemma normalize_tab_width config s0 :
  Notions.string_or_absent (config !! "indent_style") ->
  tab_width (snd (normalize config s0))
  = Spec.keep_positive (parseInt10 (Spec.tab_width_source config)).
Proof.
  intros Hstyle. run_normalize. unfold Spec.tab_width_source, Spec.keep_positive, or.
  assert (Hs : has "indent_style" config = false
               \/ exists i, search_space_or_tab (get "indent_style" config) = Normal i).
  { unfold has, get. destruct (config !! "indent_style") as [[b|s|r]|];
      [destruct Hstyle | right; eexists; reflexivity | destruct Hstyle | left; reflexivity]. }
  destruct (has "indent_style" config);
    [destruct Hs as [? | [i ->]]; [discriminate|] |];
    cbn [fst snd tab_width set_tab_width max_line_length set_max_line_length
         set_end_of_line set_indent_style];
    (destruct (truthy (get "indent_size" config));
     (destruct (nan_or_nonpositive (parseInt10 _)) eqn:E1;
      cbn [tab_width set_tab_width max_line_length set_max_line_length];
      (destruct (nan_or_nonpositive (parseInt10 (get "max_line_length" config))) eqn:E2;
       cbn [tab_width set_tab_width max_line_length set_max_line_length];
       (destruct (has "charset" config);
        [destruct (replace_hyphens_lower (get "charset" config))|];
        cbn; rewrite ?E1; reflexivity)))).
Qed.

(** C8 (amended).  Whenever the rule for [indent_style], which runs
    first, does not raise (the value is a string or absent),
    [tab_width] is parsed from [indent_size] when that value is truthy
    (neither absent, nor [false], nor the empty string, nor the number
    0) and from [tab_width] otherwise.  The parsed number is kept when
    it is greater than zero: a positive integer, which beyond 2^53 is
    the nearest number the language has, or the infinity, for more
    digits than a number holds; in every other case the field is
    ['unset'].  Alone under either key, "0", "-3" and "abc" give
    ['unset'] and "4" gives the number 4, whether the resolver hands
    them over as strings or as numbers; the number 0 under
    [indent_size] leaves the choice to [tab_width]; and a [charset]
    that raises afterwards leaves the number in place. *)
Theorem normalized_tab_width config s0 :
  Notions.string_or_absent (config !! "indent_style") ->
  tab_width (snd (normalize config s0))
  = Spec.keep_positive (parseInt10 (Spec.tab_width_source config))
  /\ ((exists n, parseInt10 (Spec.tab_width_source config) = Num n
                 /\ 0 < n /\ tab_width (snd (normalize config s0)) = Num n)
      \/ (parseInt10 (Spec.tab_width_source config) = Infinity false
          /\ tab_width (snd (normalize config s0)) = Infinity false)
      \/ tab_width (snd (normalize config s0)) = unset)
  /\ Forall (fun key : string -> gmap string RawValue =>
       tab_width (snd (normalize (key "0") initial_settings)) = unset
       /\ tab_width (snd (normalize (key "-3") initial_settings)) = unset
       /\ tab_width (snd (normalize (key "abc") initial_settings)) = unset
       /\ tab_width (snd (normalize (key "4") initial_settings)) = Num 4
       /\ tab_width (snd (normalize (key "9007199254740993") initial_settings))
          = Num 9007199254740992
       /\ tab_width (snd (normalize (key (Samples.nines 400)) initial_settings))
          = Infinity false)
     [Samples.only_indent_size; Samples.only_tab_width]
  /\ Forall (fun key : string -> gmap string RawValue =>
       tab_width (snd (normalize (key "0") initial_settings)) = unset
       /\ tab_width (snd (normalize (key "-3") initial_settings)) = unset
       /\ tab_width (snd (normalize (key "4") initial_settings)) = Num 4
       /\ tab_width (snd (normalize (key "2.5") initial_settings)) = Num 2)
     [Samples.number_indent_size; Samples.number_tab_width]
  /\ tab_width (snd (normalize Samples.zero_indent_size initial_settings)) = Num 4
  /\ normalize Samples.boolean_charset initial_settings
     = (Throw (TypeError "config.charset.replace is not a function"),
        set_tab_width (Num 4) initial_settings).
Proof.
  intros Hstyle. pose proof (normalize_tab_width config s0 Hstyle) as Htw.
  split; [exact Htw|]. split; [|split; [|split; [|split]]].
  - rewrite Htw.
    destruct (keep_positive_cases (Spec.tab_width_source config))
      as [(n & Hp & Hn & Hk) | [[Hp Hk] | Hk]]; eauto.
  - repeat constructor; vm_compute; reflexivity.
  - repeat constructor; vm_compute; reflexivity.
  - vm_compute; reflexivity.
  - vm_compute; reflexivity.
Qed.

Lemma normalized_tab_width_witness :
  Notions.string_or_absent (Samples.boolean_charset !! "indent_style")
  /\ tab_width (snd (normalize Samples.boolean_charset initial_settings))
     = Spec.keep_positive (parseInt10 (Spec.tab_width_source Samples.boolean_charset)).
Proof.
  split; [vm_compute; exact I|].
  exact (proj1 (normalized_tab_width Samples.boolean_charset initial_settings
                  ltac:(vm_compute; exact I))).
Defined.

(** ** The pre-save hook *)

Section SaveHookFacts.

Import TextBuffer SaveHook.

Lemma isRowBlank_lookup rows (i : nat) :
  isRowBlank rows (Z.of_nat i)
  = match rows !! i with Some l => negb (has_non_space l) | None => false end.
Proof.
  unfold isRowBlank, lineForRow.
  destruct (Z.ltb_spec (Z.of_nat i) 0); [lia|].
  rewrite Nat2Z.id. destruct (rows !! i); reflexivity.
Qed.

(** Going back from anywhere in a blank tail, the scan stops at the
    row before the tail. *)
Lemma scan_back_blank_tail pre l tail k :
  has_non_space l = true -> Forall blank tail -> (k <= length tail)%nat ->
  scan_back (pre ++ l :: tail) (length pre + 1 + k) = Some (Z.of_nat (length pre)).
Proof.
  intros Hl Htail. induction k as [|k IH]; intros Hk.
  - replace (length pre + 1 + 0)%nat with (S (length pre)) by lia.
    cbn [scan_back]. rewrite isRowBlank_lookup, list_lookup_middle by reflexivity.
    rewrite Hl. reflexivity.
  - replace (length pre + 1 + S k)%nat with (S (length pre + 1 + k)) by lia.
    cbn [scan_back]. rewrite isRowBlank_lookup.
    replace (length pre + 1 + k)%nat with (length pre + S k)%nat by lia.
    rewrite lookup_app_r by lia.
    replace (length pre + S k - length pre)%nat with (S k) by lia.
    change ((l :: tail) !! S k) with (tail !! k).
    destruct (lookup_lt_is_Some_2 tail k ltac:(lia)) as [b Hb]. rewrite Hb.
    rewrite Forall_lookup in Htail. rewrite (Htail _ _ Hb). cbn.
    replace (length pre + S k)%nat with (length pre + 1 + k)%nat by lia.
    apply IH. lia.
Qed.

(** When every row is blank, the scan finds nothing. *)
Lemma scan_back_all_blank rows k :
  Forall blank rows -> (k <= length rows)%nat -> scan_back rows k = None.
Proof.
  intros Hall. induction k as [|k IH]; intros Hk; [reflexivity|].
  cbn [scan_back]. rewrite isRowBlank_lookup.
  destruct (lookup_lt_is_Some_2 rows k ltac:(lia)) as [b Hb]. rewrite Hb.
  rewrite Forall_lookup in Hall. rewrite (Hall _ _ Hb). cbn. apply IH. lia.
Qed.

Lemma previousNonBlankRow_blank_tail (pre : list string) l b1 blanks :
  has_non_space l = true -> Forall blank (b1 :: blanks) ->
  let rows := (pre ++ l :: b1 :: blanks)%list in
  previousNonBlankRow rows (getLineCount rows - 1) = Some (Z.of_nat (length pre)).
Proof.
  intros Hl Hb rows. unfold previousNonBlankRow, getLastRow, getLineCount.
  assert (Hlen : length rows = (length pre + 1 + S (length blanks))%nat).
  { unfold rows. rewrite length_app. cbn. lia. }
  rewrite Hlen. destruct (Z.eqb_spec (Z.of_nat (length pre + 1 + S (length blanks)) - 1) 0); [lia|].
  rewrite Z.min_id.
  replace (Z.to_nat (Z.of_nat (length pre + 1 + S (length blanks)) - 1))
    with (length pre + 1 + length blanks)%nat by lia.
  apply scan_back_blank_tail; [assumption..|cbn; lia].
Qed.

Lemma last_row_blank (pre : list string) l b1 blanks :
  Forall blank (b1 :: blanks) ->
  let rows := (pre ++ l :: b1 :: blanks)%list in
  isRowBlank rows (getLineCount rows - 1) = true.
Proof.
  intros Hb rows. unfold getLineCount.
  assert (Hlen : length rows = S (length pre + 1 + length blanks)).
  { unfold rows. rewrite length_app. cbn. lia. }
  rewrite Hlen.
  replace (Z.of_nat (S (length pre + 1 + length blanks)) - 1)
    with (Z.of_nat (length pre + 1 + length blanks)) by lia.
  rewrite isRowBlank_lookup.
  destruct (lookup_lt_is_Some_2 rows (length pre + 1 + length blanks) ltac:(lia)) as [b Hrow].
  rewrite Hrow. unfold rows in Hrow.
  rewrite lookup_app_r in Hrow by lia.
  replace (length pre + 1 + length blanks - length pre)%nat with (S (length blanks)) in Hrow by lia.
  cbn in Hrow. rewrite Forall_lookup in Hb. rewrite (Hb _ _ Hrow). reflexivity.
Qed.

Lemma last_row_not_blank pre l :
  has_non_space l = true ->
  isRowBlank (pre ++ [l]) (getLineCount (pre ++ [l]) - 1) = false.
Proof.
  intros Hl. unfold getLineCount. rewrite length_app. cbn [length].
  replace (Z.of_nat (length pre + 1) - 1) with (Z.of_nat (length pre)) by lia.
  rewrite isRowBlank_lookup, list_lookup_middle by reflexivity. rewrite Hl. reflexivity.
Qed.

(** Deleting from a row after the first through the last row keeps the
    rows before it. *)
Lemma deleteRows_to_end rows (n : nat) :
  (0 < n)%nat -> (n < length rows)%nat ->
  deleteRows rows (Z.of_nat n) (getLineCount rows - 1) = take n rows.
Proof.
  intros Hn Hlen. unfold deleteRows, getLastRow, getLineCount.
  destruct (Z.gtb_spec (Z.of_nat n) (Z.of_nat (length rows) - 1)); [lia|].
  destruct (Z.ltb_spec (Z.of_nat (length rows) - 1) 0); [lia|].
  destruct (Z.gtb_spec (Z.of_nat n) (Z.of_nat (length rows) - 1)); [lia|].
  rewrite Z.min_id, Z.ltb_irrefl, Z.max_r by lia.
  destruct (Z.eqb_spec (Z.of_nat n) 0); [lia|].
  rewrite Nat2Z.id. reflexivity.
Qed.

(** The example of section 8: trailing spaces and tabs are cut. *)
Example trim_trailing_whitespace_rows :
  onWillSave (set_trim_trailing_whitespace (Bool true) initial_settings)
    ["a "; String "b" (String (ascii_of_nat 9) EmptyString); ""]
  = ["a"; "b"; ""].
Proof. vm_compute. reflexivity. Qed.

(** With ['unset'] the second block does nothing. *)
Lemma finalNewline_unset settings rows :
  insert_final_newline settings = unset -> finalNewline settings rows = rows.
Proof. intros H. unfold finalNewline. rewrite H. reflexivity. Qed.

(** With [true], a blank tail is cut after its first row, whatever that
    row holds. *)
Lemma finalNewline_true_blank_tail settings (pre : list string) l b1 blanks :
  insert_final_newline settings = Bool true ->
  has_non_space l = true -> Forall blank (b1 :: blanks) ->
  finalNewline settings (pre ++ l :: b1 :: blanks) = (pre ++ [l; b1])%list.
Proof.
  intros H Hl Hb. unfold finalNewline. rewrite H. cbn [strict_eq unset negb Bool.eqb].
  rewrite (last_row_blank pre l b1 blanks Hb).
  rewrite (previousNonBlankRow_blank_tail pre l b1 blanks Hl Hb).
  cbn [to_number default from_option id].
  unfold id.
  set (rows := (pre ++ l :: b1 :: blanks)%list).
  assert (Hlen : length rows = (length pre + 2 + length blanks)%nat).
  { unfold rows. rewrite length_app. cbn. lia. }
  assert (Htake : take (length pre + 2) rows = (pre ++ [l; b1])%list).
  { unfold rows. rewrite take_app_add. reflexivity. }
  destruct (Z.ltb_spec (Z.of_nat (length pre) + 1) (getLineCount rows - 1)) as [Hlt|Hge].
  - replace (Z.of_nat (length pre) + 1 + 1) with (Z.of_nat (length pre + 2)) by lia.
    unfold getLineCount in Hlt. rewrite deleteRows_to_end by lia. exact Htake.
  - unfold getLineCount in Hge. rewrite <- Htake.
    rewrite take_ge by lia. reflexivity.
Qed.

(** With [false], the whole blank tail goes, final newline included. *)
Lemma finalNewline_false_blank_tail settings (pre : list string) l b1 blanks :
  insert_final_newline settings = Bool false ->
  has_non_space l = true -> Forall blank (b1 :: blanks) ->
  finalNewline settings (pre ++ l :: b1 :: blanks) = (pre ++ [l])%list.
Proof.
  intros H Hl Hb. unfold finalNewline. rewrite H. cbn [strict_eq unset negb Bool.eqb].
  rewrite (last_row_blank pre l b1 blanks Hb).
  rewrite (previousNonBlankRow_blank_tail pre l b1 blanks Hl Hb).
  cbn [to_number default from_option id].
  unfold id.
  set (rows := (pre ++ l :: b1 :: blanks)%list).
  assert (Hlen : length rows = (length pre + 2 + length blanks)%nat).
  { unfold rows. rewrite length_app. cbn. lia. }
  destruct (Z.ltb_spec (Z.of_nat (length pre)) (getLineCount rows - 1)) as [Hlt|Hge];
    [|unfold getLineCount in Hge; lia].
  replace (Z.of_nat (length pre) + 1) with (Z.of_nat (length pre + 1)) by lia.
  rewrite deleteRows_to_end by lia.
  unfold rows. rewrite take_app_add. reflexivity.
Qed.

(** After a last row that is not blank, [true] appends one newline and
    [false] appends nothing. *)
Lemma finalNewline_after_text settings (pre : list string) l :
  has_non_space l = true ->
  finalNewline settings (pre ++ [l])
  = if strict_eq (insert_final_newline settings) (Bool true)
    then (pre ++ [l; ""])%list else (pre ++ [l])%list.
Proof.
  intros Hl. unfold finalNewline. rewrite (last_row_not_blank pre l Hl).
  destruct (strict_eq (insert_final_newline settings) (Bool true)) eqn:E.
  - destruct (insert_final_newline settings) as [| |[]| | | | | |]; try discriminate.
    cbn. unfold append_newline. rewrite <- app_assoc. reflexivity.
  - destruct (negb (strict_eq (insert_final_newline settings) unset)); reflexivity.
Qed.

(** The guarantee [true] does give: when the rows after the last text
    row are empty, or when the buffer ends in text, the saved text ends
    in exactly one newline. *)
Lemma finalNewline_true_one_newline settings (pre : list string) l empties :
  insert_final_newline settings = Bool true ->
  has_non_space l = true -> Forall (fun r => r = "") empties ->
  finalNewline settings (pre ++ l :: empties) = (pre ++ [l; ""])%list
  /\ Spec.one_final_newline (finalNewline settings (pre ++ l :: empties)) = true.
Proof.
  intros H Hl He.
  assert (Hgoal : finalNewline settings (pre ++ l :: empties) = (pre ++ [l; ""])%list).
  { destruct empties as [|b1 blanks].
    - rewrite finalNewline_after_text by assumption. rewrite H. reflexivity.
    - inversion He as [|? ? Hb1 Hbl]; subst.
      apply finalNewline_true_blank_tail; [assumption..|].
      constructor; [reflexivity|].
      eapply Forall_impl; [exact Hbl|]. intros r ->. reflexivity. }
  split; [exact Hgoal|]. rewrite Hgoal.
  unfold Spec.one_final_newline. rewrite rev_app_distr. cbn [rev app].
  rewrite Hl. reflexivity.
Qed.

End SaveHookFacts.

(** C2 (defect in the code).  With [insert_final_newline = true] and
    the text "a", newline, two spaces, newline, the hook takes the row
    of spaces for the one blank row to keep and deletes the empty row
    after it: the saved text ends in the two spaces, the final newline
    it had is gone.  An empty buffer gets no newline either.  (With
    [false] and ['unset'] the hook does what the claim says.) *)
Theorem onWillSave_true_loses_final_newline :
  SaveHook.onWillSave Samples.final_newline_on ["a"; "  "; ""] = ["a"; "  "]
  /\ TextBuffer.getText (SaveHook.onWillSave Samples.final_newline_on ["a"; "  "; ""])
     = String "a" (String (ascii_of_nat 10) "  ")
  /\ Spec.ends_in_newline (SaveHook.onWillSave Samples.final_newline_on ["a"; "  "; ""]) = false
  /\ SaveHook.onWillSave Samples.final_newline_on [""] = [""]
  /\ SaveHook.onWillSave Samples.final_newline_on ["a"; ""; ""; ""] = ["a"; ""]
  /\ SaveHook.onWillSave Samples.final_newline_off ["a"; ""; ""; ""] = ["a"]
  /\ SaveHook.onWillSave initial_settings ["a"; ""; ""; ""] = ["a"; ""; ""; ""].
Proof. vm_compute. repeat split. Qed.

(** ** The applier *)

Ltac crunch :=
  repeat match goal with
         | |- context [if ?c then _ else _] => destruct c
         | |- context [match ?o with Some _ => _ | None => _ end] => destruct o
         end;
  cbn [editors buffers icon calls saveObservers
       setSoftTabs setTabLength setEncoding update setPreferredLineEnding
       with_editor with_buffer with_editors with_buffers with_icon with_ecfg log].

Section Applier.

Variable h : Host.

Lemma last_editor_of_none b eds i prev :
  Forall (fun ed => ed_buffer ed <> b) eds -> last_editor_of b eds i prev = prev.
Proof.
  intros Hall. revert i prev.
  induction Hall as [|ed eds Hne _ IH]; intros i prev; cbn; [reflexivity|].
  rewrite IH. destruct (Nat.eqb_spec (ed_buffer ed) b); [contradiction | reflexivity].
Qed.

(** The editor [getCurrentEditor] returns is open and shows the buffer. *)
Lemma last_editor_of_some b eds i prev e :
  last_editor_of b eds i prev = Some e ->
  prev = Some e \/ exists ed, eds !! (e - i)%nat = Some ed /\ ed_buffer ed = b /\ (i <= e)%nat.
Proof.
  revert i prev. induction eds as [|curr rest IH]; intros i prev; cbn [last_editor_of].
  - auto.
  - intros Hl. apply IH in Hl as [Hl | (ed & Hed & Hb & Hi)].
    + destruct (Nat.eqb_spec (ed_buffer curr) b); [|auto].
      injection Hl as <-. right. exists curr.
      rewrite Nat.sub_diag. auto.
    + right. exists ed. replace (e - i)%nat with (S (e - S i)) by lia.
      split; [exact Hed|]. split; [exact Hb | lia].
Qed.

Lemma getCurrentEditor_shows w b e :
  getCurrentEditor w b = Some e ->
  exists ed, editors w !! e = Some ed /\ ed_buffer ed = b.
Proof.
  intros Hc. apply last_editor_of_some in Hc as [Hc | (ed & Hed & Hb & _)]; [discriminate|].
  rewrite Nat.sub_0_r in Hed. eauto.
Qed.



Lemma editors_setState b w : editors (setState h b w) = editors w.
Proof. unfold setState. crunch; reflexivity. Qed.


Lemma saveObservers_applySettings b w :
  saveObservers (applySettings h b w) = saveObservers w.
Proof.
  unfold applySettings, setState, applyToEditor. crunch; reflexivity.
Qed.

(** C10.  When no open text editor shows the buffer, [applySettings]
    returns at once: the world, with its log of host calls, its status
    icon and every editor and buffer, is what it was; neither a setter
    nor [setState] has run. *)
Theorem applySettings_without_editor b w :
  Forall (fun ed => ed_buffer ed <> b) (editors w) ->
  applySettings h b w = w.
Proof.
  intros Hnone. unfold applySettings, getCurrentEditor.
  rewrite last_editor_of_none by assumption. reflexivity.
Qed.

End Applier.

Lemma applySettings_without_editor_witness :
  Forall (fun ed => ed_buffer ed <> 1%nat) (editors Samples.hidden_buffer)
  /\ applySettings Samples.host 1 Samples.hidden_buffer = Samples.hidden_buffer.
Proof.
  assert (H : Forall (fun ed => ed_buffer ed <> 1%nat) (editors Samples.hidden_buffer)).
  { repeat constructor. cbn. lia. }
  split; [exact H|].
  apply (applySettings_without_editor Samples.host 1 Samples.hidden_buffer H).
Defined.

(** ** The promise chain of [observeTextEditor] *)

Lemma is_empty_iff (config : gmap string RawValue) :
  is_empty config = true <-> config = ∅.
Proof.
  unfold is_empty. rewrite <- map_to_list_empty_iff.
  destruct (map_to_list config); split; intros; congruence.
Qed.

(** C4.  When the resolver returns the empty mapping, the promise chain
    ends fulfilled in the world it started in: stored settings, stored
    raw config, severity, every editor, buffer and wrap guide, the
    status icon and the log of host calls are unchanged, so no setter
    ran and nothing was applied again. *)
Theorem empty_config_mutates_nothing h req w :
  settle h req (Resolved ∅) w = (Fulfilled, w).
Proof.
  unfold settle, onParsed, catchError.
  rewrite (proj2 (is_empty_iff ∅) eq_refl). reflexivity.
Qed.

(** C5, as the claim states it, fails: a rejection whose reason is not
    an instance of [Error] passes the filtered [catch]; nothing is
    logged and the chain stays rejected. *)
Lemma non_error_rejection_is_not_logged :
  settle Samples.host (mkRequest 1 "/b/x.txt") (Rejected (Other (Str "ENOENT")))
    Samples.two_projects
  = (Unhandled (Other (Str "ENOENT")), Samples.two_projects).
Proof. reflexivity. Qed.

(** C5 (amended).  A rejection of the resolver's promise never changes
    a buffer, an editor, the save observers or the status icon, so the
    stored settings and severity stay as they were; when the reason is
    an instance of [Error], the chain ends fulfilled and the one thing
    that happened is the warning [atom-editorconfig: <reason>]; any
    other reason is left unhandled and unlogged. *)
Theorem rejection_keeps_state h req reason w :
  settle h req (Rejected reason) w
  = (if instanceof_Error reason
     then (Fulfilled, console_warn ("atom-editorconfig: " ++ thrown_to_string reason) w)
     else (Unhandled reason, w))
  /\ buffers (snd (settle h req (Rejected reason) w)) = buffers w
  /\ editors (snd (settle h req (Rejected reason) w)) = editors w
  /\ saveObservers (snd (settle h req (Rejected reason) w)) = saveObservers w
  /\ icon (snd (settle h req (Rejected reason) w)) = icon w.
Proof.
  unfold settle, catchError. destruct (instanceof_Error reason); repeat split.
Qed.

(** ** Wrap-guide interception *)

Lemma interceptWrapGuide_twice b b' g :
  interceptWrapGuide b' (interceptWrapGuide b g) = interceptWrapGuide b g.
Proof.
  unfold interceptWrapGuide. destruct (wg_editorconfig g) eqn:E; cbn; [|reflexivity].
  rewrite E. reflexivity.
Qed.

(** C6.  Intercepting a wrap guide that is already intercepted changes
    nothing, whichever config state asks for it; the first interception
    keeps the guide's own functions under [getNativeGuideColumn] and
    [getNativeGuidesColumns], and a guide that carries the marker is
    left as it is. *)
Theorem interceptWrapGuide_idempotent b b' g :
  interceptWrapGuide b' (interceptWrapGuide b g) = interceptWrapGuide b g
  /\ match wg_editorconfig g with
     | None =>
         wg_getNativeGuideColumn (interceptWrapGuide b g) = Some (wg_getGuideColumn g)
         /\ wg_getNativeGuidesColumns (interceptWrapGuide b g) = Some (wg_getGuidesColumns g)
         /\ wg_getGuideColumn (interceptWrapGuide b g) = InterceptGuideColumn
         /\ wg_getGuidesColumns (interceptWrapGuide b g) = InterceptGuidesColumns
         /\ wg_editorconfig (interceptWrapGuide b g) = Some b
     | Some _ => interceptWrapGuide b g = g
     end.
Proof.
  split; [apply interceptWrapGuide_twice|].
  unfold interceptWrapGuide. destruct (wg_editorconfig g); repeat split.
Qed.

(** With the interceptor of section 4.3, a guide of the host that has
    been intercepted, once or more often, answers with the resolved
    [max_line_length], and with the host's own column when that is
    ['unset']; two steps of calling are enough. *)
Lemma intercepted_guide_delegates h w b b' ec g name :
  ecfg_of w b = Some ec ->
  wg_editorconfig g = None ->
  wg_getGuideColumn g = HostFn name ->
  let g' := interceptWrapGuide b' (interceptWrapGuide b g) in
  WrapGuideInterceptor.call h w g' 2 (wg_getGuideColumn g')
  = Some (if strict_eq (max_line_length (ec_settings ec)) unset
          then nativeGuide h name
          else max_line_length (ec_settings ec)).
Proof.
  intros Hec Hmark Hfn g'.
  unfold g'. rewrite interceptWrapGuide_twice. unfold interceptWrapGuide. rewrite Hmark. cbn.
  rewrite Hec. cbn. rewrite Hfn.
  destruct (strict_eq (max_line_length (ec_settings ec)) unset); reflexivity.
Qed.

(** ** Observation and re-resolution *)

Lemma same_paths_refl w : same_paths w w.
Proof. split; reflexivity. Qed.

Lemma same_paths_trans w1 w2 w3 :
  same_paths w1 w2 -> same_paths w2 w3 -> same_paths w1 w3.
Proof.
  intros [He1 Hb1] [He2 Hb2]. split; [congruence|].
  intros b. rewrite Hb2. apply Hb1.
Qed.

Lemma same_paths_getURI w w' e : same_paths w w' -> getURI w' e = getURI w e.
Proof.
  intros [He Hb]. unfold getURI. rewrite He.
  destruct (editors w !! e) as [ed|]; [|reflexivity]. cbn. apply Hb.
Qed.

(** A change inside a buffer that keeps its path. *)
Lemma same_paths_with_buffer b f w :
  (forall bf, buf_uri (f bf) = buf_uri bf) -> same_paths w (with_buffer b f w).
Proof.
  intros Hf. split; [reflexivity|]. intros b'. cbn.
  destruct (decide (b = b')) as [->|Hne].
  - rewrite lookup_alter_eq. destruct (buffers w !! b'); cbn; [apply Hf | reflexivity].
  - rewrite lookup_alter_ne by assumption. reflexivity.
Qed.

Lemma same_paths_initializeTextBuffer b w : same_paths w (initializeTextBuffer b w).
Proof.
  apply same_paths_with_buffer. intros bf. destruct (buf_editorconfig bf); reflexivity.
Qed.

Lemma observeTextEditor_spec e w :
  same_paths w (fst (observeTextEditor e w))
  /\ snd (observeTextEditor e w) = request_of w e.
Proof.
  unfold observeTextEditor, request_of.
  destruct (editors w !! e) as [ed|] eqn:He.
  - pose proof (same_paths_initializeTextBuffer (ed_buffer ed) w) as Hinit.
    rewrite <- (same_paths_getURI _ _ e Hinit).
    destruct (getURI (initializeTextBuffer (ed_buffer ed) w) e) as [file|];
      [destruct (String.eqb file "")|]; cbn [fst snd]; split; try reflexivity;
      try exact Hinit;
      (eapply same_paths_trans; [exact Hinit | split; reflexivity]).
  - unfold getURI. rewrite He. split; [apply same_paths_refl | reflexivity].
Qed.

Lemma request_of_same_paths w w' e : same_paths w w' -> request_of w' e = request_of w e.
Proof. intros H. unfold request_of. rewrite (same_paths_getURI _ _ e H). reflexivity. Qed.

Lemma observeAll_spec es w :
  same_paths w (fst (observeAll es w))
  /\ snd (observeAll es w) = flat_map (request_of w) es.
Proof.
  revert w. induction es as [|e rest IH]; intros w; cbn [observeAll flat_map].
  - split; [apply same_paths_refl | reflexivity].
  - destruct (observeTextEditor_spec e w) as [Hp1 Hr1].
    destruct (observeTextEditor e w) as [w1 r1]. cbn [fst snd] in Hp1, Hr1.
    destruct (IH w1) as [Hp2 Hr2].
    destruct (observeAll rest w1) as [w2 r2]. cbn [fst snd] in Hp2, Hr2 |- *.
    split; [eapply same_paths_trans; eassumption|].
    rewrite Hr1, Hr2. f_equal.
    apply flat_map_ext. intros e'. apply request_of_same_paths. assumption.
Qed.

(** [reapplyEditorconfig] asks the resolver again for every open editor
    that has a path. *)
Lemma reapplyEditorconfig_requests w e file :
  getURI w e = Some file -> file <> "" ->
  In (mkRequest e file) (snd (reapplyEditorconfig w)).
Proof.
  intros Huri Hfile. unfold reapplyEditorconfig.
  rewrite (proj2 (observeAll_spec _ w)). apply in_flat_map. exists e. split.
  - apply in_seq. unfold getURI in Huri.
    destruct (editors w !! e) as [ed|] eqn:He; [|discriminate].
    apply lookup_lt_Some in He. lia.
  - unfold request_of. rewrite Huri.
    destruct (String.eqb_spec file ""); [contradiction | left; reflexivity].
Qed.

(** The subscription that triggers the re-resolution is made when the
    config state is created, and only for a buffer whose path then
    ends in [.editorconfig]. *)
Lemma fresh_ecfg_reapply_subscription uri :
  subscribed OnDidSaveReapply (ec_disposables (fresh_ecfg uri)) = is_editorconfig_file uri.
Proof. unfold fresh_ecfg. destruct (is_editorconfig_file uri); reflexivity. Qed.

(** Saving a buffer whose config state holds the
    [onDidSave(reapplyEditorconfig)] subscription asks the resolver
    again for every open text editor that has a path, wherever that
    path lies. *)
Lemma save_requests_every_editor b ec w e file :
  ecfg_of w b = Some ec ->
  subscribed OnDidSaveReapply (ec_disposables ec) = true ->
  getURI w e = Some file -> file <> "" ->
  In (mkRequest e file) (snd (save b w)).
Proof.
  intros Hec Hsub Huri Hfile. unfold save. rewrite Hec, Hsub.
  set (w1 := if subscribed OnWillSave (ec_disposables ec) then _ else w).
  assert (Hp : same_paths w w1).
  { unfold w1. destruct (subscribed OnWillSave (ec_disposables ec));
      [apply same_paths_with_buffer; reflexivity | apply same_paths_refl]. }
  pose proof (reapplyEditorconfig_requests w1 e file) as Hin.
  rewrite (same_paths_getURI _ _ e Hp) in Hin. specialize (Hin Huri Hfile).
  destruct (reapplyEditorconfig w1) as [w2 r1]. cbn [snd] in Hin.
  destruct (observeAll _ w2) as [w3 r2]. cbn [snd].
  apply in_or_app. left. exact Hin.
Qed.

(** C7, as the claim states it, fails: saving [/a/.editorconfig] asks
    the resolver again for the editor on [/b/x.txt], which that file
    does not govern, and the answer is normalised and applied to it. *)
Lemma editorconfig_save_reaches_ungoverned_buffer :
  Spec.governs "/a/.editorconfig" "/b/x.txt" = false
  /\ snd (save 0 Samples.two_projects)
     = [mkRequest 0 "/a/.editorconfig"; mkRequest 1 "/b/x.txt"]
  /\ calls (snd (settle Samples.host (mkRequest 1 "/b/x.txt") (Resolved Samples.tab4)
                   (fst (save 0 Samples.two_projects))))
     = [SetSoftTabs 1 (Str "editor.softTabs"); SetTabLength 1 (Num 4);
        SetEncoding 1 (Str "core.fileEncoding");
        Update 1 (Str "editor.preferredLineLength"); UpdateGuide 1;
        Checklist 1; UpdateIcon "success"].
Proof. vm_compute. repeat split. Qed.

(** Saving a file that is not an [.editorconfig] file, observed with
    its path, asks for nothing. *)
Example ordinary_save_requests_nothing :
  snd (save 1 Samples.two_projects) = [].
Proof. vm_compute. reflexivity. Qed.

(** ** Teardown *)


Lemma ecfg_of_with_ecfg b f w b' :
  ecfg_of (with_ecfg b f w) b'
  = if decide (b = b') then f <$> ecfg_of w b' else ecfg_of w b'.
Proof.
  unfold ecfg_of, with_ecfg, with_buffer, with_buffers. cbn [buffers].
  destruct (decide (b = b')) as [->|Hne].
  - rewrite lookup_alter_eq. destruct (buffers w !! b') as [bf|]; reflexivity.
  - rewrite lookup_alter_ne by assumption. reflexivity.
Qed.

Lemma disposeAll_all_observed eds w :
  Forall (fun ed => is_Some (ecfg_of w (ed_buffer ed))) eds ->
  exists w',
    disposeAll eds w = (Normal tt, w')
    /\ icon w' = icon w /\ calls w' = calls w
    /\ (forall b, is_Some (ecfg_of w b) -> is_Some (ecfg_of w' b))
    /\ (forall b, released w b -> released w' b)
    /\ Forall (fun ed => released w' (ed_buffer ed)) eds.
Proof.
  revert w. induction eds as [|ed rest IH]; intros w Hall.
  - exists w. cbn. repeat split; auto.
  - inversion Hall as [|? ? [ec Hec] Hrest]; subst. cbn [disposeAll]. rewrite Hec.
    set (w1 := with_ecfg (ed_buffer ed)
                 (set_ec_disposables (disposable_dispose (ec_disposables ec))) w).
    assert (Hsome : forall b, is_Some (ecfg_of w b) -> is_Some (ecfg_of w1 b)).
    { intros b [x Hx]. unfold w1. rewrite ecfg_of_with_ecfg, Hx.
      destruct (decide (ed_buffer ed = b)); eauto. }
    assert (Hrel : forall b, released w b -> released w1 b).
    { intros b. unfold released, w1. rewrite ecfg_of_with_ecfg.
      destruct (decide (ed_buffer ed = b)) as [<-|]; [|auto].
      rewrite Hec. reflexivity. }
    assert (Hnow : released w1 (ed_buffer ed)).
    { unfold released, w1. rewrite ecfg_of_with_ecfg, Hec.
      destruct (decide (ed_buffer ed = ed_buffer ed)); [reflexivity | congruence]. }
    destruct (IH w1) as (w' & Hrun & Hicon & Hcalls & Hsome' & Hrel' & Hall').
    { eapply Forall_impl; [exact Hrest|]. intros x. apply Hsome. }
    exists w'. split; [exact Hrun|]. repeat split; auto.
Qed.



(** X26.  When every open editor's buffer has its config state,
    teardown runs to its end: every such state has its subscriptions
    released and the status icon is removed. *)
Lemma deactivate_when_all_observed w :
  Forall (fun ed => is_Some (ecfg_of w (ed_buffer ed))) (editors w) ->
  exists w',
    deactivate w = (Normal tt, w')
    /\ icon w' = None
    /\ Forall (fun ed => released w' (ed_buffer ed)) (editors w).
Proof.
  intros Hall. destruct (disposeAll_all_observed _ _ Hall)
    as (w1 & Hrun & _ & _ & _ & _ & Hreleased).
  exists (removeIcon w1). unfold deactivate. rewrite Hrun.
  split; [reflexivity|]. split; [reflexivity|].
  eapply Forall_impl; [exact Hreleased|]. intros ed Hr. exact Hr.
Qed.

(** What [observeActivePaneItem] does with an open text editor. *)
Lemma observeActivePaneItem_text_editor h w e :
  observeActivePaneItem h (TextEditorItem e) w
  = match editors w !! e with
    | Some ed =>
        match ecfg_of w (ed_buffer ed) with
        | Some _ => applySettings h (ed_buffer ed) w
        | None => w
        end
    | None => w
    end.
Proof.
  unfold observeActivePaneItem. cbn [constructor_name item_buffer].
  rewrite bool_decide_eq_true_2 by reflexivity.
  destruct (editors w !! e); reflexivity.
Qed.

(** The three things [observeActivePaneItem] can do. *)
Lemma observeActivePaneItem_cases h item w :
  observeActivePaneItem h item w = w
  \/ observeActivePaneItem h item w = removeIcon w
  \/ exists b, observeActivePaneItem h item w = applySettings h b w.
Proof.
  unfold observeActivePaneItem. destruct (bool_decide _); [|auto].
  destruct (item_buffer w item) as [b|]; [|auto].
  destruct (ecfg_of w b); eauto.
Qed.

(** The guard [deactivate] lacks is there in [observeActivePaneItem]:
    a text editor whose buffer has no config state is passed over. *)
Lemma observeActivePaneItem_guards_missing_state h w e ed :
  editors w !! e = Some ed -> ecfg_of w (ed_buffer ed) = None ->
  observeActivePaneItem h (TextEditorItem e) w = w.
Proof.
  intros Hed Hec. rewrite observeActivePaneItem_text_editor, Hed, Hec. reflexivity.
Qed.

(** An exception of the normaliser is caught by the chain and logged,
    after the settings object has been changed in part; the settings
    are not applied. *)
Lemma throwing_normalisation_is_logged_half_applied :
  fst (settle Samples.host (mkRequest 1 "/b/x.txt")
         (Resolved Samples.boolean_indent_style) Samples.two_projects)
  = Fulfilled
  /\ ec_settings <$>
       ecfg_of (snd (settle Samples.host (mkRequest 1 "/b/x.txt")
                       (Resolved Samples.boolean_indent_style) Samples.two_projects)) 1
     = Some Samples.final_newline_on
  /\ calls (snd (settle Samples.host (mkRequest 1 "/b/x.txt")
                   (Resolved Samples.boolean_indent_style) Samples.two_projects))
     = [ConsoleWarn
          "atom-editorconfig: TypeError: config.indent_style.search is not a function"].
Proof. vm_compute. repeat split. Qed.

(** ** Stored state and repeated application *)

Section Stored.

Variable h : Host.

Lemma last_editor_of_buffers b eds eds' i prev :
  map ed_buffer eds' = map ed_buffer eds ->
  last_editor_of b eds' i prev = last_editor_of b eds i prev.
Proof.
  revert eds' i prev. induction eds as [|ed rest IH]; intros [|ed' rest'] i prev Hmap;
    try discriminate; [reflexivity|].
  cbn in Hmap |- *. injection Hmap as Hb Hrest. rewrite Hb. apply IH. exact Hrest.
Qed.

Lemma map_ed_buffer_alter f e (eds : list Editor) :
  (forall ed, ed_buffer (f ed) = ed_buffer ed) ->
  map ed_buffer (alter f e eds) = map ed_buffer eds.
Proof.
  intros Hf. revert e. induction eds as [|ed rest IH]; intros [|e]; cbn;
    rewrite ?Hf, ?IH; reflexivity.
Qed.

Lemma applySettings_buffers_of_editors b w :
  map ed_buffer (editors (applySettings h b w)) = map ed_buffer (editors w).
Proof.
  unfold applySettings.
  destruct (getCurrentEditor w b) as [e|]; [|reflexivity].
  destruct (editors w !! e) as [ed|]; [|reflexivity].
  destruct (ecfg_of w b); [|reflexivity].
  rewrite editors_setState.
  destruct (Nat.eqb (ed_buffer ed) b); [|reflexivity].
  unfold applyToEditor. crunch;
    rewrite ?map_ed_buffer_alter by (intros; reflexivity); reflexivity.
Qed.

Lemma ecfg_of_with_buffer b f w b' :
  (forall bf, buf_editorconfig (f bf) = buf_editorconfig bf) ->
  ecfg_of (with_buffer b f w) b' = ecfg_of w b'.
Proof.
  intros Hf. unfold ecfg_of. cbn.
  destruct (decide (b = b')) as [->|Hne].
  - rewrite lookup_alter_eq. destruct (buffers w !! b'); cbn; [apply Hf | reflexivity].
  - rewrite lookup_alter_ne by assumption. reflexivity.
Qed.

Lemma ecfg_of_log c w b : ecfg_of (log c w) b = ecfg_of w b.
Proof. reflexivity. Qed.

Lemma ecfg_of_with_editor e f w b : ecfg_of (with_editor e f w) b = ecfg_of w b.
Proof. reflexivity. Qed.

Lemma ecfg_of_applyToEditor b e ed st w b' :
  ecfg_of (applyToEditor h b e ed st w) b' = ecfg_of w b'.
Proof.
  unfold applyToEditor, setSoftTabs, setTabLength, setEncoding, update,
    setPreferredLineEnding.
  repeat match goal with
         | |- context [if ?c then _ else _] => destruct c
         | |- context [match ed_wrapGuide ed with Some _ => _ | None => _ end] =>
             destruct (ed_wrapGuide ed)
         end;
    rewrite ?ecfg_of_log, ?ecfg_of_with_editor,
      ?ecfg_of_with_buffer by (intros; reflexivity);
    repeat (rewrite ?ecfg_of_log, ?ecfg_of_with_editor,
              ?ecfg_of_with_buffer by (intros; reflexivity));
    reflexivity.
Qed.

Lemma ecfg_of_setState_some b w b' :
  is_Some (ecfg_of w b') -> is_Some (ecfg_of (setState h b w) b').
Proof.
  intros [x Hx]. unfold setState. destruct (ecfg_of w b) as [ec|]; [|eauto].
  change (is_Some (ecfg_of (with_ecfg b (set_ec_state (checklist h ec)) w) b')).
  rewrite ecfg_of_with_ecfg, Hx. destruct (decide (b = b')); eauto.
Qed.

(** What one run of [applySettings] leaves in the wrap-guide slot of
    the editor it applies to. *)
Lemma applySettings_guide b w e ed g :
  getCurrentEditor w b = Some e -> editors w !! e = Some ed ->
  is_Some (ecfg_of w b) -> ed_wrapGuide ed = Some g ->
  getCurrentEditor (applySettings h b w) b = Some e
  /\ is_Some (ecfg_of (applySettings h b w) b)
  /\ exists ed', editors (applySettings h b w) !! e = Some ed'
                 /\ ed_wrapGuide ed' = Some (updateGuide (interceptWrapGuide b g)).
Proof.
  intros Hcur Hed [ec Hec] Hg.
  split; [|split].
  - unfold getCurrentEditor in *.
    rewrite (last_editor_of_buffers b _ _ _ _ (applySettings_buffers_of_editors b w)).
    exact Hcur.
  - unfold applySettings. rewrite Hcur, Hed, Hec.
    apply ecfg_of_setState_some.
    destruct (Nat.eqb (ed_buffer ed) b); [rewrite ecfg_of_applyToEditor|]; eauto.
  - destruct (getCurrentEditor_shows _ _ _ Hcur) as (ed0 & Hed0 & Hb).
    assert (ed0 = ed) by congruence. subst ed0.
    unfold applySettings. rewrite Hcur, Hed, Hec, Hb, Nat.eqb_refl.
    rewrite editors_setState. unfold applyToEditor. rewrite Hg.
    crunch; rewrite !list_lookup_alter_eq, Hed; cbn; eexists; split; reflexivity.
Qed.

(** X25.  Applied twice, the settings leave the guide with the slots
    of a single interception; only [updateGuide] has run twice. *)
Lemma applySettings_twice_guide b w e ed g :
  getCurrentEditor w b = Some e -> editors w !! e = Some ed ->
  is_Some (ecfg_of w b) -> ed_wrapGuide ed = Some g ->
  exists ed', editors (applySettings h b (applySettings h b w)) !! e = Some ed'
              /\ ed_wrapGuide ed' = Some (updateGuide (updateGuide (interceptWrapGuide b g))).
Proof.
  intros Hcur Hed Hec Hg.
  destruct (applySettings_guide b w e ed g Hcur Hed Hec Hg)
    as (Hcur1 & Hec1 & ed1 & Hed1 & Hg1).
  destruct (applySettings_guide b _ e ed1 _ Hcur1 Hed1 Hec1 Hg1)
    as (_ & _ & ed2 & Hed2 & Hg2).
  exists ed2. split; [exact Hed2|]. rewrite Hg2. f_equal. f_equal.
  unfold interceptWrapGuide.
  destruct (wg_editorconfig g) eqn:E; cbn; rewrite ?E; reflexivity.
Qed.





End Stored.



(** * Further properties of the code *)

(** ** The normaliser, field by field *)

Lemma normalize_in_domain_witness :
  Notions.string_or_absent (Samples.tab4 !! "indent_style")
  /\ parseInt10 (Spec.tab_width_source Samples.tab4) <> Infinity false
  /\ exists s', normalize Samples.tab4 initial_settings = (Normal tt, s')
                /\ Spec.in_domain s' = true.
Proof.
  assert (H1 : Notions.string_or_absent (Samples.tab4 !! "indent_style"))
    by (vm_compute; exact I).
  assert (H2 : parseInt10 (Spec.tab_width_source Samples.tab4) <> Infinity false)
    by (vm_compute; discriminate).
  split; [exact H1|]. split; [exact H2|].
  apply (normalize_in_domain Samples.tab4 initial_settings H1).
  - vm_compute; exact I.
  - vm_compute; reflexivity.
  - exact H2.
  - vm_compute; discriminate.
Defined.

(** The two calls that can raise, as the monad sees them. *)
Lemma indent_style_step config :
  (if has "indent_style" config
   then Eff.bind (Eff.lift (search_space_or_tab (get "indent_style" config)))
          (fun i => Eff.ret (i >? -1))
   else Eff.ret false)
  = match config !! "indent_style" with
    | Some (RStr v) =>
        fun s : Settings => (Normal (String.eqb v "space" || String.eqb v "tab"), s)
    | Some _ =>
        fun s => (Throw (TypeError "config.indent_style.search is not a function"), s)
    | None => fun s => (Normal false, s)
    end.
Proof.
  unfold has, get. destruct (config !! "indent_style") as [[b|v|r]|]; try reflexivity.
  unfold search_space_or_tab, to_js, Eff.bind, Eff.lift, Eff.ret.
  destruct (String.eqb v "space" || String.eqb v "tab"); reflexivity.
Qed.

Lemma charset_step config :
  (if has "charset" config
   then Eff.bind (Eff.lift (replace_hyphens_lower (get "charset" config)))
          (fun c => Eff.modify (set_charset c))
   else Eff.modify (set_charset unset))
  = match config !! "charset" with
    | Some (RStr v) =>
        fun s : Settings =>
          (Normal tt, set_charset (Str (toLowerCase (strip_hyphens v))) s)
    | Some _ =>
        fun s => (Throw (TypeError "config.charset.replace is not a function"), s)
    | None => fun s => (Normal tt, set_charset unset s)
    end.
Proof.
  unfold has, get. destruct (config !! "charset") as [[b|v|r]|]; reflexivity.
Qed.

Ltac step_normalize :=
  unfold normalize; rewrite indent_style_step, charset_step;
  unfold Eff.bind, Eff.modify, Eff.gets, Eff.ret.

(** X2.  The normaliser runs to its end exactly when [indent_style]
    and [charset] are each a string or absent: a boolean or a number
    under either key makes it raise, and no other value of the mapping
    does. *)
Theorem normalize_completes_iff config s0 :
  fst (normalize config s0) = Normal tt
  <-> Notions.string_or_absent (config !! "indent_style")
      /\ Notions.string_or_absent (config !! "charset").
Proof.
  step_normalize. unfold Notions.string_or_absent.
  destruct (config !! "indent_style") as [[b|v|r]|];
    cbn [fst snd tab_width set_tab_width max_line_length set_max_line_length
         set_end_of_line set_indent_style];
    try (split; [discriminate | intros [[] _]]);
    (destruct (nan_or_nonpositive (parseInt10 (or _ _)));
     cbn [fst snd tab_width set_tab_width max_line_length set_max_line_length];
     destruct (nan_or_nonpositive (parseInt10 (get "max_line_length" config)));
     cbn [fst snd];
     destruct (config !! "charset") as [[b|c|r]|]; cbn [fst];
     try (split; [discriminate | intros [_ []]]);
     (split; [intros _; split; exact I | reflexivity])).
Qed.

(** X3.  A run that reaches its end assigns all seven fields: what it
    leaves does not depend on the settings the object held before, so
    nothing of an earlier resolution survives a later one. *)
Theorem normalize_forgets_previous config s0 s1 s' :
  normalize config s0 = (Normal tt, s') ->
  normalize config s1 = (Normal tt, s').
Proof.
  step_normalize.
  destruct (config !! "indent_style") as [[b|v|r]|];
    cbn [fst snd tab_width set_tab_width max_line_length set_max_line_length
         set_end_of_line set_indent_style];
    try discriminate;
    (destruct (nan_or_nonpositive (parseInt10 (or _ _)));
     cbn [fst snd tab_width set_tab_width max_line_length set_max_line_length];
     destruct (nan_or_nonpositive (parseInt10 (get "max_line_length" config)));
     cbn [fst snd];
     destruct (config !! "charset") as [[b|c|r]|]; try discriminate;
     intros [= <-]; reflexivity).
Qed.

Lemma normalize_forgets_previous_witness :
  normalize Samples.tab4 initial_settings
  = (Normal tt, set_tab_width (Num 4) initial_settings)
  /\ normalize Samples.tab4 Samples.final_newline_on
     = (Normal tt, set_tab_width (Num 4) initial_settings).
Proof.
  assert (H : normalize Samples.tab4 initial_settings
              = (Normal tt, set_tab_width (Num 4) initial_settings))
    by (vm_compute; reflexivity).
  split; [exact H|].
  apply (normalize_forgets_previous Samples.tab4 initial_settings
           Samples.final_newline_on _ H).
Defined.

(** X4.  The two boolean fields are assigned before anything can
    raise, and strictly: whether or not the run reaches its end, each
    holds the raw boolean when the raw value is a boolean and ['unset']
    otherwise; a string such as "true" is not taken for a boolean. *)
Theorem boolean_fields_are_strict config s0 :
  trim_trailing_whitespace (snd (normalize config s0))
  = match config !! "trim_trailing_whitespace" with
    | Some (RBool b) => Bool b
    | _ => unset
    end
  /\ insert_final_newline (snd (normalize config s0))
     = match config !! "insert_final_newline" with
       | Some (RBool b) => Bool b
       | _ => unset
       end.
Proof.
  step_normalize. unfold has, get.
  assert (Hb : forall o : option RawValue,
    (if match o with Some _ => true | None => false end
        && typeof_boolean match o with Some v => to_js v | None => Undefined end
     then strict_eq_true match o with Some v => to_js v | None => Undefined end
     else unset)
    = match o with Some (RBool b) => Bool b | _ => unset end).
  { intros [[[]| |]|]; reflexivity. }
  rewrite !Hb.
  destruct (config !! "indent_style") as [[b|v|r]|];
    cbn [fst snd tab_width set_tab_width max_line_length set_max_line_length
         set_end_of_line set_indent_style];
    try (split; reflexivity);
    (destruct (nan_or_nonpositive (parseInt10 _));
     cbn [fst snd tab_width set_tab_width max_line_length set_max_line_length];
     destruct (nan_or_nonpositive (parseInt10 _));
     cbn [fst snd];
     destruct (config !! "charset") as [[b|c|r]|]; split; reflexivity).
Qed.

(** ** Numbers written in decimal *)

Lemma read_digits_acc d (acc : positive) :
  read_digits (NilEmpty.string_of_uint d) (Some (Z.pos acc))
  = Some (Z.pos (Pos.of_uint_acc d acc)).
Proof.
  revert acc.
  induction d as [|d IH|d IH|d IH|d IH|d IH|d IH|d IH|d IH|d IH|d IH]; intros acc;
    [reflexivity|..];
    cbn [NilEmpty.string_of_uint read_digits Pos.of_uint_acc];
    match goal with
    | |- context [digit_of ?c] =>
        let v := eval vm_compute in (digit_of c) in
        change (digit_of c) with v
    end;
    cbn [default from_option id]; unfold id;
    rewrite <- IH; do 2 f_equal; lia.
Qed.

Lemma read_digits_zero d :
  read_digits (NilEmpty.string_of_uint d) (Some 0) = Some (Z.of_N (Pos.of_uint d)).
Proof.
  induction d as [|d IH|d IH|d IH|d IH|d IH|d IH|d IH|d IH|d IH|d IH];
    [reflexivity|..];
    cbn [NilEmpty.string_of_uint read_digits Pos.of_uint];
    match goal with
    | |- context [digit_of ?c] =>
        let v := eval vm_compute in (digit_of c) in
        change (digit_of c) with v
    end;
    cbn [default from_option id]; unfold id;
    [exact IH|..]; cbn [Z.of_N]; rewrite <- read_digits_acc; reflexivity.
Qed.

Lemma read_digits_start d :
  d <> Decimal.Nil ->
  read_digits (NilEmpty.string_of_uint d) None
  = read_digits (NilEmpty.string_of_uint d) (Some 0).
Proof. destruct d; [congruence|..]; intros _; reflexivity. Qed.

(** The decimal digits of a positive number, as [ToString] prints
    them, start with a digit; [parseInt] reads them back. *)
Lemma parse_positive_digits p :
  skip_space (NilEmpty.string_of_uint (Pos.to_uint p))
  = NilEmpty.string_of_uint (Pos.to_uint p)
  /\ match NilEmpty.string_of_uint (Pos.to_uint p) with
     | String "-" _ | String "+" _ => False
     | _ => True
     end
  /\ Pos.to_uint p <> Decimal.Nil
  /\ read_digits (NilEmpty.string_of_uint (Pos.to_uint p)) None = Some (Z.pos p).
Proof.
  assert (Hnil : Pos.to_uint p <> Decimal.Nil).
  { intros E. pose proof (DecimalPos.Unsigned.of_to p) as H. rewrite E in H. discriminate. }
  repeat split; try exact Hnil.
  - destruct (Pos.to_uint p); reflexivity.
  - destruct (Pos.to_uint p); exact I.
  - rewrite read_digits_start by exact Hnil.
    rewrite read_digits_zero, DecimalPos.Unsigned.of_to. reflexivity.
Qed.

(** [parseInt] reads the decimal digits of an integer back and rounds
    it to a number. *)
Lemma parseInt10_ToString n : parseInt10 (Str (ToString (Num n))) = round_double n.
Proof.
  destruct n as [|p|p]; [reflexivity|..];
    destruct (parse_positive_digits p) as (Hskip & Hsign & Hnil & Hread);
    unfold parseInt10; cbn [ToString Z.to_int NilZero.string_of_int].
  - unfold NilZero.string_of_uint.
    destruct (Pos.to_uint p) eqn:E; [congruence|..];
      rewrite Hskip; cbn [NilEmpty.string_of_uint] in *;
      rewrite Hread; reflexivity.
  - unfold NilZero.string_of_uint.
    destruct (Pos.to_uint p) eqn:E; [congruence|..];
      cbn [NilEmpty.string_of_uint] in *;
      change (skip_space (String "-" ?r)) with (String "-" r);
      cbn iota; rewrite Hread; reflexivity.
Qed.

(** The decimal digits of an integer are neither the empty string nor,
    unless the integer is zero, the digit 0. *)
Lemma decimal_digits_truthy n :
  truthy (Str (ToString (Num n))) = true
  /\ (n <> 0 -> truthy (Numeral (ToString (Num n))) = true).
Proof.
  destruct n as [|p|p]; [split; [reflexivity | congruence]|..];
    cbn [ToString Z.to_int NilZero.string_of_int truthy];
    unfold NilZero.string_of_uint;
    destruct (parse_positive_digits p) as (_ & _ & Hnil & Hread).
  - assert (Hzero : NilEmpty.string_of_uint (Pos.to_uint p) <> "0").
    { intros E. rewrite E in Hread. discriminate. }
    destruct (Pos.to_uint p) eqn:E; try congruence;
      (split; [reflexivity|]); intros _;
      apply andb_true_intro; (split; [|reflexivity]);
      apply negb_true_iff, String.eqb_neq; exact Hzero.
  - destruct (Pos.to_uint p) eqn:E; try congruence;
      split; reflexivity.
Qed.

(** X5.  A size written in decimal arrives as that number, as long as
    it is one of the integers below 2^53 in magnitude, which the
    language represents exactly: under [max_line_length], and under
    [indent_size] for [tab_width], the decimal digits of such an
    integer [n] normalise to [n] when [n] is positive and to ['unset']
    when it is zero or negative, whether the resolver hands them over
    as a string or as a number.  The number 0 under [indent_size] is
    the one exception: it leaves the choice to [tab_width]. *)
Theorem decimal_values_round_trip n config s0 s' :
  Z.abs n < 2 ^ 53 ->
  normalize config s0 = (Normal tt, s') ->
  (config !! "max_line_length" = Some (RStr (ToString (Num n)))
   \/ config !! "max_line_length" = Some (RNum (ToString (Num n))) ->
   max_line_length s' = if 0 <? n then Num n else unset)
  /\ (config !! "indent_size" = Some (RStr (ToString (Num n)))
      \/ config !! "indent_size" = Some (RNum (ToString (Num n))) /\ n <> 0 ->
      tab_width s' = if 0 <? n then Num n else unset).
Proof.
  intros Hsafe Hrun. destruct (normalize_normal _ _ _ Hrun) as [Htw Hml].
  assert (Hkeep : Spec.keep_positive (parseInt10 (Str (ToString (Num n))))
                  = if 0 <? n then Num n else unset).
  { rewrite parseInt10_ToString, (round_double_exact _ Hsafe).
    unfold Spec.keep_positive. cbn.
    destruct (Z.leb_spec n 0), (Z.ltb_spec 0 n); try lia; reflexivity. }
  destruct (decimal_digits_truthy n) as [Hstr Hnum].
  split.
  - intros [Hkey | Hkey]; rewrite Hml; unfold get; rewrite Hkey; exact Hkeep.
  - intros [Hkey | [Hkey Hn]]; rewrite Htw;
      unfold Spec.tab_width_source, get; rewrite Hkey; cbn [to_js];
      [rewrite Hstr | rewrite (Hnum Hn)]; exact Hkeep.
Qed.

Lemma decimal_values_round_trip_witness :
  Z.abs 120 < 2 ^ 53
  /\ normalize {[ "max_line_length" := RNum "120" ]} initial_settings
     = (Normal tt, set_max_line_length (Num 120) initial_settings)
  /\ max_line_length (set_max_line_length (Num 120) initial_settings) = Num 120.
Proof.
  assert (Hsafe : Z.abs 120 < 2 ^ 53) by (vm_compute; reflexivity).
  assert (H : normalize {[ "max_line_length" := RNum "120" ]} initial_settings
              = (Normal tt, set_max_line_length (Num 120) initial_settings))
    by (vm_compute; reflexivity).
  split; [exact Hsafe|]. split; [exact H|].
  apply (proj1 (decimal_values_round_trip 120 {[ "max_line_length" := RNum "120" ]}
                  initial_settings (set_max_line_length (Num 120) initial_settings)
                  Hsafe H)).
  right. vm_compute; reflexivity.
Defined.

(** ** The pre-save hook on every buffer *)

Section SaveHookMore.

Import TextBuffer SaveHook Notions.

Lemma space_or_tab_is_space c : space_or_tab c = true -> is_space c = true.
Proof.
  unfold space_or_tab. intros H. apply orb_true_iff in H as [H|H];
    apply Ascii.eqb_eq in H; subst; reflexivity.
Qed.

Lemma strip_trailing_cons c r :
  strip_trailing (String c r)
  = if space_or_tab c && String.eqb (strip_trailing r) ""
    then EmptyString else String c (strip_trailing r).
Proof. reflexivity. Qed.

Lemma strip_trailing_blank s : has_non_space (strip_trailing s) = has_non_space s.
Proof.
  induction s as [|c r IH]; [reflexivity|].
  rewrite strip_trailing_cons.
  destruct (space_or_tab c) eqn:Ec; cbn [andb].
  - destruct (String.eqb_spec (strip_trailing r) "") as [E|E].
    + cbn [has_non_space]. rewrite <- IH, E, (space_or_tab_is_space _ Ec). reflexivity.
    + cbn [has_non_space]. rewrite IH. reflexivity.
  - cbn [has_non_space]. rewrite IH. reflexivity.
Qed.

Lemma strip_trailing_idem s : strip_trailing (strip_trailing s) = strip_trailing s.
Proof.
  induction s as [|c r IH]; [reflexivity|].
  rewrite strip_trailing_cons.
  destruct (space_or_tab c && String.eqb (strip_trailing r) "") eqn:E; [reflexivity|].
  rewrite strip_trailing_cons, IH, E. reflexivity.
Qed.

Lemma strip_trailing_suffix s :
  exists suffix,
    s = strip_trailing s ++ suffix
    /\ only_spaces_tabs suffix = true
    /\ ends_in_space_tab (strip_trailing s) = false.
Proof.
  induction s as [|c r (suffix & Hr & Hs & He)].
  - exists "". repeat split.
  - rewrite strip_trailing_cons.
    destruct (space_or_tab c) eqn:Ec; cbn [andb].
    + destruct (String.eqb_spec (strip_trailing r) "") as [E|E].
      * exists (String c r). split; [reflexivity|]. split; [|reflexivity].
        cbn [only_spaces_tabs]. rewrite Ec. rewrite E in Hr. cbn in Hr.
        rewrite Hr. exact Hs.
      * exists suffix.
        split; [change (String c r = String c (strip_trailing r ++ suffix)); f_equal; exact Hr|].
        split; [exact Hs|].
        cbn [ends_in_space_tab]. destruct (strip_trailing r); [congruence | exact He].
    + exists suffix.
        split; [change (String c r = String c (strip_trailing r ++ suffix)); f_equal; exact Hr|].
        split; [exact Hs|].
      cbn [ends_in_space_tab]. destruct (strip_trailing r); [exact Ec | exact He].
Qed.

(** X6.  The trimming block of [onWillSave] cuts from each row the
    spaces and tabs at its end and nothing else: the row count stays,
    every row keeps a prefix of itself that no longer ends in a space
    or a tab, and what was cut consists of spaces and tabs only.  With
    any value other than [true] the rows are left as they are. *)
Theorem trimTrailingWhitespace_cuts_row_ends settings rows :
  length (trimTrailingWhitespace settings rows) = length rows
  /\ (forall i r, rows !! i = Some r ->
        exists r' suffix,
          trimTrailingWhitespace settings rows !! i = Some r'
          /\ r = r' ++ suffix
          /\ only_spaces_tabs suffix = true
          /\ (trim_trailing_whitespace settings = Bool true ->
              ends_in_space_tab r' = false)
          /\ (trim_trailing_whitespace settings <> Bool true -> suffix = "")).
Proof.
  unfold trimTrailingWhitespace, backwardsScan_strip.
  destruct (strict_eq (trim_trailing_whitespace settings) (Bool true)) eqn:E.
  - split; [apply length_map|]. intros i r Hr.
    destruct (strip_trailing_suffix r) as (suffix & Hs & Ho & He).
    exists (strip_trailing r), suffix.
    change (map strip_trailing rows) with (strip_trailing <$> rows).
    rewrite list_lookup_fmap, Hr. repeat split; auto.
    intros Hne. destruct (trim_trailing_whitespace settings) as [| |[]| | | | | |];
      try discriminate. congruence.
  - split; [reflexivity|]. intros i r Hr. exists r, "".
    split; [exact Hr|]. split; [|split; [reflexivity|split; [|reflexivity]]].
    + clear. induction r as [|c r IH]; [reflexivity|].
      change (String c r = String c (r ++ "")). f_equal. exact IH.
    + intros Ht. rewrite Ht in E. discriminate.
Qed.

Lemma trim_app settings (a b : list string) :
  trimTrailingWhitespace settings (a ++ b)
  = (trimTrailingWhitespace settings a ++ trimTrailingWhitespace settings b)%list.
Proof.
  unfold trimTrailingWhitespace, backwardsScan_strip.
  destruct (strict_eq _ _); [apply map_app | reflexivity].
Qed.

Lemma trim_take settings k (rows : list string) :
  trimTrailingWhitespace settings (take k rows) = take k (trimTrailingWhitespace settings rows).
Proof.
  unfold trimTrailingWhitespace, backwardsScan_strip.
  destruct (strict_eq _ _); [|reflexivity].
  change (map strip_trailing) with (fmap (M:=list) strip_trailing).
  apply fmap_take.
Qed.

Lemma trim_idem settings rows :
  trimTrailingWhitespace settings (trimTrailingWhitespace settings rows)
  = trimTrailingWhitespace settings rows.
Proof.
  unfold trimTrailingWhitespace, backwardsScan_strip.
  destruct (strict_eq _ _); [|reflexivity].
  rewrite map_map. apply map_ext. intros r. apply strip_trailing_idem.
Qed.

Lemma trim_one settings r :
  exists r', trimTrailingWhitespace settings [r] = [r']
             /\ has_non_space r' = has_non_space r.
Proof.
  unfold trimTrailingWhitespace, backwardsScan_strip.
  destruct (strict_eq _ _); eexists; (split; [reflexivity|]);
    [apply strip_trailing_blank | reflexivity].
Qed.

Lemma trim_blank settings rows :
  Forall blank rows -> Forall blank (trimTrailingWhitespace settings rows).
Proof.
  unfold trimTrailingWhitespace, backwardsScan_strip.
  destruct (strict_eq _ _); [|auto].
  intros H. apply Forall_map. eapply Forall_impl; [exact H|].
  intros r Hr. unfold blank in *. rewrite strip_trailing_blank. exact Hr.
Qed.

Lemma trim_empty_row settings : trimTrailingWhitespace settings [""] = [""].
Proof.
  unfold trimTrailingWhitespace, backwardsScan_strip. destruct (strict_eq _ _); reflexivity.
Qed.

End SaveHookMore.

Section SaveHookRules.

Import TextBuffer SaveHook Notions.

(** The trimming block is a map over the rows, by a function that keeps
    blank rows blank, text rows text, and its own results. *)
Lemma trim_is_map settings :
  exists f : string -> string,
    (forall rows, trimTrailingWhitespace settings rows = map f rows)
    /\ (forall r, has_non_space (f r) = has_non_space r)
    /\ (forall r, f (f r) = f r)
    /\ f "" = "".
Proof.
  unfold trimTrailingWhitespace, backwardsScan_strip.
  destruct (strict_eq _ _).
  - exists strip_trailing. repeat split;
      auto using strip_trailing_blank, strip_trailing_idem.
  - exists (fun r => r). repeat split. intros rows. symmetry. apply map_id.
Qed.

(** Any value other than [true] and ['unset'] strips the whole blank
    tail. *)
Lemma finalNewline_strip_blank_tail settings (pre : list string) l b1 blanks :
  strict_eq (insert_final_newline settings) unset = false ->
  strict_eq (insert_final_newline settings) (Bool true) = false ->
  has_non_space l = true -> Forall blank (b1 :: blanks) ->
  finalNewline settings (pre ++ l :: b1 :: blanks) = (pre ++ [l])%list.
Proof.
  intros Hu Ht Hl Hb. unfold finalNewline. rewrite Hu, Ht. cbn [negb].
  rewrite (last_row_blank pre l b1 blanks Hb).
  rewrite (previousNonBlankRow_blank_tail pre l b1 blanks Hl Hb).
  cbn [to_number default from_option id].
  unfold id.
  set (rows := (pre ++ l :: b1 :: blanks)%list).
  assert (Hlen : length rows = (length pre + 2 + length blanks)%nat).
  { unfold rows. rewrite length_app. cbn. lia. }
  destruct (Z.ltb_spec (Z.of_nat (length pre)) (getLineCount rows - 1)) as [Hlt|Hge];
    [|unfold getLineCount in Hge; lia].
  replace (Z.of_nat (length pre) + 1) with (Z.of_nat (length pre + 1)) by lia.
  rewrite deleteRows_to_end by lia.
  unfold rows. rewrite take_app_add. reflexivity.
Qed.

(** A buffer of blank rows only: [true] keeps its first two rows, any
    other value its first row. *)
Lemma finalNewline_all_blank settings rows :
  rows <> [] -> Forall blank rows ->
  strict_eq (insert_final_newline settings) unset = false ->
  finalNewline settings rows
  = if strict_eq (insert_final_newline settings) (Bool true)
    then take 2 rows else take 1 rows.
Proof.
  intros Hne Hall Hu. unfold finalNewline. rewrite Hu. cbn [negb].
  assert (Hlen : (0 < length rows)%nat) by (destruct rows; [congruence | cbn; lia]).
  assert (Hlast : isRowBlank rows (getLineCount rows - 1) = true).
  { unfold getLineCount.
    replace (Z.of_nat (length rows) - 1) with (Z.of_nat (length rows - 1)) by lia.
    rewrite isRowBlank_lookup.
    destruct (lookup_lt_is_Some_2 rows (length rows - 1) ltac:(lia)) as [r Hr].
    rewrite Hr. rewrite Forall_lookup in Hall. rewrite (Hall _ _ Hr). reflexivity. }
  assert (Hprev : previousNonBlankRow rows (getLineCount rows - 1) = None).
  { unfold previousNonBlankRow. destruct (_ =? 0); [reflexivity|].
    apply scan_back_all_blank; [exact Hall|].
    unfold getLastRow, getLineCount. lia. }
  rewrite Hlast, Hprev.
  destruct (strict_eq (insert_final_newline settings) (Bool true)).
  - change (to_number (Some (to_number None + 1))) with 1.
    destruct (Z.ltb_spec 1 (getLineCount rows - 1)) as [Hlt|Hge];
      unfold getLineCount in Hlt || unfold getLineCount in Hge.
    + change (1 + 1) with (Z.of_nat 2). apply deleteRows_to_end; lia.
    + rewrite take_ge by lia. reflexivity.
  - change (to_number None) with 0.
    destruct (Z.ltb_spec 0 (getLineCount rows - 1)) as [Hlt|Hge];
      unfold getLineCount in Hlt || unfold getLineCount in Hge.
    + change (0 + 1) with (Z.of_nat 1). apply deleteRows_to_end; lia.
    + rewrite take_ge by lia. reflexivity.
Qed.

(** Every buffer is either blank throughout or has a last text row
    followed by blank rows. *)
Lemma rows_decompose (rows : list string) :
  Forall blank rows
  \/ exists pre l tail,
       rows = (pre ++ l :: tail)%list /\ has_non_space l = true /\ Forall blank tail.
Proof.
  induction rows as [|r rows IH]; [left; constructor|].
  destruct IH as [Hall | (pre & l & tail & -> & Hl & Ht)].
  - destruct (has_non_space r) eqn:Er.
    + right. exists [], r, rows. auto.
    + left. constructor; assumption.
  - right. exists (r :: pre), l, tail. auto.
Qed.

(** X7.  With [insert_final_newline = true], a buffer with text is
    saved as its rows up to the last text row, trimmed if trimming is
    on, followed by exactly one more row: the first blank row that
    followed the text, or an empty row when the text was last. *)
Theorem onWillSave_true_keeps_one_row_after_text settings (pre : list string) l tail :
  insert_final_newline settings = Bool true ->
  has_non_space l = true -> Forall blank tail ->
  onWillSave settings (pre ++ l :: tail)
  = (trimTrailingWhitespace settings (pre ++ [l])
     ++ match tail with
        | [] => [""]
        | b1 :: _ => trimTrailingWhitespace settings [b1]
        end)%list.
Proof.
  intros H Hl Ht. unfold onWillSave.
  destruct (trim_is_map settings) as (f & Hf & Hblank & _ & _).
  rewrite !Hf. rewrite !map_app. cbn [map].
  assert (Hl' : has_non_space (f l) = true) by (rewrite Hblank; exact Hl).
  destruct tail as [|b1 blanks]; cbn [map].
  - rewrite finalNewline_after_text by exact Hl'. rewrite H. cbn.
    rewrite <- app_assoc. reflexivity.
  - rewrite Hf. cbn [map].
    rewrite finalNewline_true_blank_tail; [rewrite <- app_assoc; reflexivity | assumption..|].
    change (f b1 :: map f blanks) with (map f (b1 :: blanks)).
    apply Forall_map. eapply Forall_impl; [exact Ht|].
    intros r Hr. unfold blank in *. rewrite Hblank. exact Hr.
Qed.

Lemma onWillSave_true_keeps_one_row_after_text_witness :
  insert_final_newline Samples.final_newline_on = Bool true
  /\ onWillSave Samples.final_newline_on ["a"; "b"; ""; ""] = ["a"; "b"; ""].
Proof.
  split; [reflexivity|].
  apply (onWillSave_true_keeps_one_row_after_text Samples.final_newline_on ["a"] "b" [""; ""]).
  - reflexivity.
  - reflexivity.
  - repeat constructor.
Defined.

(** X8.  With [insert_final_newline = false], a buffer with text is
    saved as its rows up to the last text row and nothing after it:
    every trailing blank row goes, and with it the final newline the
    text had; a buffer that ends in text is left without one. *)
Theorem onWillSave_false_ends_in_text settings (pre : list string) l tail :
  insert_final_newline settings = Bool false ->
  has_non_space l = true -> Forall blank tail ->
  onWillSave settings (pre ++ l :: tail)
  = trimTrailingWhitespace settings (pre ++ [l]).
Proof.
  intros H Hl Ht. unfold onWillSave.
  destruct (trim_is_map settings) as (f & Hf & Hblank & _ & _).
  rewrite !Hf. rewrite !map_app. cbn [map].
  assert (Hl' : has_non_space (f l) = true) by (rewrite Hblank; exact Hl).
  destruct tail as [|b1 blanks]; cbn [map].
  - rewrite finalNewline_after_text by exact Hl'. rewrite H. reflexivity.
  - apply finalNewline_false_blank_tail; [assumption..|].
    change (f b1 :: map f blanks) with (map f (b1 :: blanks)).
    apply Forall_map. eapply Forall_impl; [exact Ht|].
    intros r Hr. unfold blank in *. rewrite Hblank. exact Hr.
Qed.

Lemma onWillSave_false_ends_in_text_witness :
  insert_final_newline Samples.final_newline_off = Bool false
  /\ onWillSave Samples.final_newline_off ["a"; "b"; ""; ""] = ["a"; "b"].
Proof.
  split; [reflexivity|].
  apply (onWillSave_false_ends_in_text Samples.final_newline_off ["a"] "b" [""; ""]).
  - reflexivity.
  - reflexivity.
  - repeat constructor.
Defined.

(** X9.  A buffer without any text (every row blank, the empty buffer
    among them) is cut to its first two rows by [true] and to its
    first row by any other value but ['unset']; the rows kept are not
    emptied, and an empty buffer gets no newline. *)
Theorem onWillSave_blank_buffer settings rows :
  rows <> [] -> Forall blank rows ->
  onWillSave settings rows
  = if strict_eq (insert_final_newline settings) unset
    then trimTrailingWhitespace settings rows
    else if strict_eq (insert_final_newline settings) (Bool true)
    then take 2 (trimTrailingWhitespace settings rows)
    else take 1 (trimTrailingWhitespace settings rows).
Proof.
  intros Hne Hall. unfold onWillSave.
  destruct (strict_eq (insert_final_newline settings) unset) eqn:Hu.
  - unfold finalNewline. rewrite Hu. reflexivity.
  - apply finalNewline_all_blank; [|apply trim_blank; exact Hall | exact Hu].
    destruct (trim_is_map settings) as (f & Hf & _). rewrite Hf.
    destruct rows; [congruence | discriminate].
Qed.

Lemma onWillSave_blank_buffer_witness :
  onWillSave Samples.final_newline_on [""; "  "; ""; ""] = [""; "  "]
  /\ onWillSave Samples.final_newline_on [""] = [""].
Proof.
  split.
  - apply (onWillSave_blank_buffer Samples.final_newline_on [""; "  "; ""; ""]);
      [discriminate | repeat constructor].
  - apply (onWillSave_blank_buffer Samples.final_newline_on [""]);
      [discriminate | repeat constructor].
Defined.

End SaveHookRules.

Section SaveHookTwice.

Import TextBuffer SaveHook Notions.

Lemma strict_eq_true_inv v : strict_eq v (Bool true) = true -> v = Bool true.
Proof. destruct v as [| |[]| | | | | |]; cbn; congruence. Qed.

(** What the second block returns is a prefix of the rows, or the rows
    and one empty row. *)
Lemma finalNewline_shape settings rows :
  rows <> [] ->
  (exists k, (0 < k)%nat /\ finalNewline settings rows = take k rows)
  \/ finalNewline settings rows = (rows ++ [""])%list.
Proof.
  intros Hne.
  assert (Hlen : (0 < length rows)%nat) by (destruct rows; [congruence | cbn; lia]).
  destruct (strict_eq (insert_final_newline settings) unset) eqn:Hu.
  { left. exists (length rows). split; [exact Hlen|].
    unfold finalNewline. rewrite Hu, take_ge by lia. reflexivity. }
  destruct (rows_decompose rows) as [Hall | (pre & l & tail & -> & Hl & Ht)].
  { left. rewrite finalNewline_all_blank by assumption.
    destruct (strict_eq _ (Bool true)); eexists; (split; [|reflexivity]); lia. }
  destruct (strict_eq (insert_final_newline settings) (Bool true)) eqn:Et.
  - apply strict_eq_true_inv in Et. destruct tail as [|b1 blanks].
    + right. rewrite finalNewline_after_text by assumption. rewrite Et. cbn.
      rewrite <- app_assoc. reflexivity.
    + left. exists (length pre + 2)%nat. split; [lia|].
      rewrite finalNewline_true_blank_tail by assumption.
      rewrite take_app_add. reflexivity.
  - left. destruct tail as [|b1 blanks].
    + exists (length pre + 1)%nat. split; [lia|].
      rewrite finalNewline_after_text by assumption. rewrite Et.
      rewrite take_app_add. reflexivity.
    + exists (length pre + 1)%nat. split; [lia|].
      rewrite finalNewline_strip_blank_tail by assumption.
      rewrite take_app_add. reflexivity.
Qed.

Lemma finalNewline_idem settings rows :
  rows <> [] ->
  finalNewline settings (finalNewline settings rows) = finalNewline settings rows.
Proof.
  intros Hne.
  destruct (strict_eq (insert_final_newline settings) unset) eqn:Hu.
  { unfold finalNewline. rewrite Hu. reflexivity. }
  destruct (rows_decompose rows) as [Hall | (pre & l & tail & -> & Hl & Ht)].
  { rewrite (finalNewline_all_blank settings rows) by assumption.
    assert (Hk : forall k, (0 < k)%nat -> take k rows <> []).
    { intros [|k] Hk; [lia|]. destruct rows; [congruence | discriminate]. }
    rewrite finalNewline_all_blank;
      [| destruct (strict_eq _ (Bool true)); apply Hk; lia
       | destruct (strict_eq _ (Bool true)); apply Forall_take; exact Hall
       | exact Hu].
    destruct (strict_eq _ (Bool true)); rewrite take_take; reflexivity. }
  destruct (strict_eq (insert_final_newline settings) (Bool true)) eqn:Et.
  - apply strict_eq_true_inv in Et. destruct tail as [|b1 blanks].
    + rewrite (finalNewline_after_text settings pre l) by assumption. rewrite Et. cbn.
      apply finalNewline_true_blank_tail; [assumption..|]. repeat constructor.
    + rewrite (finalNewline_true_blank_tail settings pre l b1 blanks) by assumption.
      apply finalNewline_true_blank_tail; [assumption..|].
      inversion Ht; subst. repeat constructor. assumption.
  - assert (Hfix : finalNewline settings (pre ++ [l]) = (pre ++ [l])%list).
    { rewrite finalNewline_after_text by assumption. rewrite Et. reflexivity. }
    destruct tail as [|b1 blanks].
    + rewrite !Hfix. reflexivity.
    + rewrite (finalNewline_strip_blank_tail settings pre l b1 blanks) by assumption.
      exact Hfix.
Qed.

(** X10.  The pre-save hook is idempotent: on a buffer saved once,
    a second run of [onWillSave] with the same settings changes
    nothing, whatever the settings and the rows. *)
Theorem onWillSave_idempotent settings rows :
  rows <> [] ->
  onWillSave settings (onWillSave settings rows) = onWillSave settings rows.
Proof.
  intros Hne. unfold onWillSave.
  destruct (trim_is_map settings) as (f & Hf & _ & Hidem & Hempty).
  rewrite !Hf.
  assert (Hne' : map f rows <> []) by (destruct rows; [congruence | discriminate]).
  assert (Hfixed : map f (finalNewline settings (map f rows))
                   = finalNewline settings (map f rows)).
  { destruct (finalNewline_shape settings (map f rows) Hne') as [(k & _ & ->) | ->].
    - change (map f (take k (map f rows))) with (f <$> take k (f <$> rows)).
      rewrite fmap_take. f_equal. rewrite <- list_fmap_compose.
      apply list_fmap_ext. intros _ r _. apply Hidem.
    - rewrite map_app, map_map. cbn [map]. rewrite Hempty. f_equal.
      apply map_ext. intros r. apply Hidem. }
  rewrite Hfixed. apply finalNewline_idem. exact Hne'.
Qed.

Lemma onWillSave_idempotent_witness :
  ["a "; ""; ""] <> []
  /\ onWillSave Samples.final_newline_on (onWillSave Samples.final_newline_on ["a "; ""; ""])
     = onWillSave Samples.final_newline_on ["a "; ""; ""].
Proof.
  assert (H : ["a "; ""; ""] <> []) by discriminate.
  split; [exact H|].
  apply (onWillSave_idempotent Samples.final_newline_on ["a "; ""; ""] H).
Defined.

End SaveHookTwice.

(** ** More on the applier *)

Lemma last_editor_of_spec b eds i prev e :
  last_editor_of b eds i prev = Some e
  <-> (exists j ed, e = (i + j)%nat /\ eds !! j = Some ed /\ ed_buffer ed = b
                    /\ forall j' ed', (j < j')%nat -> eds !! j' = Some ed' ->
                                      ed_buffer ed' <> b)
      \/ (prev = Some e /\ Forall (fun ed => ed_buffer ed <> b) eds).
Proof.
  revert i prev. induction eds as [|curr rest IH]; intros i prev; cbn [last_editor_of].
  - split.
    + intros ->. right. split; [reflexivity | constructor].
    + intros [(j & ed & _ & Hl & _) | [-> _]]; [discriminate | reflexivity].
  - rewrite IH. split.
    + intros [(j & ed & -> & Hl & Hb & Hlater) | [Hprev Hall]].
      * left. exists (S j), ed. split; [lia|]. split; [exact Hl|]. split; [exact Hb|].
        intros [|j'] ed' Hlt Hl'; [lia|]. apply (Hlater j' ed'); [lia | exact Hl'].
      * destruct (Nat.eqb_spec (ed_buffer curr) b) as [Hc|Hc].
        -- injection Hprev as <-. left. exists 0%nat, curr.
           split; [lia|]. split; [reflexivity|]. split; [exact Hc|].
           intros [|j'] ed' Hlt Hl'; [lia|].
           rewrite Forall_lookup in Hall. apply (Hall j' ed' Hl').
        -- right. split; [exact Hprev|]. constructor; assumption.
    + intros [(j & ed & -> & Hl & Hb & Hlater) | [-> Hall]].
      * destruct j as [|j].
        -- right. cbn in Hl. injection Hl as ->. rewrite Hb, Nat.eqb_refl.
           split; [f_equal; lia|]. apply Forall_lookup. intros j' ed' Hl'.
           apply (Hlater (S j') ed'); [lia | exact Hl'].
        -- left. exists j, ed. split; [lia|]. split; [exact Hl|]. split; [exact Hb|].
           intros j' ed' Hlt Hl'. apply (Hlater (S j') ed'); [lia | exact Hl'].
      * inversion Hall as [|? ? Hc Hrest]; subst. right.
        destruct (Nat.eqb_spec (ed_buffer curr) b); [contradiction|]. auto.
Qed.

(** X11.  [getCurrentEditor] returns the last open editor that shows
    the buffer: an editor is returned exactly when it shows the buffer
    and no editor after it in the workspace does.  When several
    editors show one buffer, only the last is the one the settings are
    applied to. *)
Theorem getCurrentEditor_is_last w b e :
  getCurrentEditor w b = Some e
  <-> (exists ed, editors w !! e = Some ed /\ ed_buffer ed = b)
      /\ (forall e' ed', (e < e')%nat -> editors w !! e' = Some ed' -> ed_buffer ed' <> b).
Proof.
  unfold getCurrentEditor. rewrite last_editor_of_spec. split.
  - intros [(j & ed & -> & Hl & Hb & Hlater) | [Hp _]]; [|discriminate].
    split; [exists ed; auto | exact Hlater].
  - intros [(ed & Hl & Hb) Hlater]. left. exists e, ed. auto.
Qed.

Section ApplierMore.

Variable h : Host.

Lemma ecfg_proj_setState {A} (p : Ecfg -> A) b w b' :
  (forall st ec, p (set_ec_state st ec) = p ec) ->
  p <$> ecfg_of (setState h b w) b' = p <$> ecfg_of w b'.
Proof.
  intros Hp. unfold setState. destruct (ecfg_of w b) as [ec|]; [|reflexivity].
  change (p <$> ecfg_of (with_ecfg b (set_ec_state (checklist h ec)) w) b'
          = p <$> ecfg_of w b').
  rewrite ecfg_of_with_ecfg. destruct (decide (b = b')); [|reflexivity].
  destruct (ecfg_of w b'); cbn; [rewrite Hp|]; reflexivity.
Qed.

Lemma ecfg_proj_applySettings {A} (p : Ecfg -> A) b w b' :
  (forall st ec, p (set_ec_state st ec) = p ec) ->
  p <$> ecfg_of (applySettings h b w) b' = p <$> ecfg_of w b'.
Proof.
  intros Hp. unfold applySettings.
  destruct (getCurrentEditor w b) as [e|]; [|reflexivity].
  destruct (editors w !! e) as [ed|]; [|reflexivity].
  destruct (ecfg_of w b); [|reflexivity].
  rewrite ecfg_proj_setState by exact Hp.
  destruct (Nat.eqb (ed_buffer ed) b); [rewrite ecfg_of_applyToEditor|]; reflexivity.
Qed.

(** X12.  [applySettings] changes nothing of a buffer's config state
    but its severity: the stored settings, the stored raw config and
    the subscriptions of every buffer are after it what they were
    before. *)
Theorem applySettings_keeps_config_state b w b' :
  ec_settings <$> ecfg_of (applySettings h b w) b' = ec_settings <$> ecfg_of w b'
  /\ ec_config <$> ecfg_of (applySettings h b w) b' = ec_config <$> ecfg_of w b'
  /\ ec_disposables <$> ecfg_of (applySettings h b w) b'
     = ec_disposables <$> ecfg_of w b'.
Proof.
  repeat split; apply ecfg_proj_applySettings; reflexivity.
Qed.

(** The severity [applySettings] leaves in the state and on the icon. *)
Lemma applySettings_state b w e ec :
  getCurrentEditor w b = Some e -> ecfg_of w b = Some ec ->
  icon (applySettings h b w) = Some (checklist h ec)
  /\ ec_state <$> ecfg_of (applySettings h b w) b = Some (checklist h ec).
Proof.
  intros Hcur Hec.
  destruct (getCurrentEditor_shows _ _ _ Hcur) as (ed & Hed & Hb).
  unfold applySettings. rewrite Hcur, Hed, Hec, Hb, Nat.eqb_refl.
  unfold setState. rewrite ecfg_of_applyToEditor, Hec. split; [reflexivity|].
  change (ec_state <$>
            ecfg_of (with_ecfg b (set_ec_state (checklist h ec))
                       (applyToEditor h b e ed (ec_settings ec) w)) b
          = Some (checklist h ec)).
  rewrite ecfg_of_with_ecfg, ecfg_of_applyToEditor, Hec.
  destruct (decide (b = b)); [reflexivity | congruence].
Qed.

(** X13.  When an editor shows the buffer, [applySettings] ends with
    [setState]: the severity that [checklist] computes from the config
    state is stored in it and is the one the status icon shows. *)
Theorem applySettings_shows_stored_state b w e ec :
  getCurrentEditor w b = Some e -> ecfg_of w b = Some ec ->
  icon (applySettings h b w) = Some (checklist h ec)
  /\ ec_state <$> ecfg_of (applySettings h b w) b = Some (checklist h ec).
Proof. exact (applySettings_state b w e ec). Qed.

End ApplierMore.

Lemma applySettings_shows_stored_state_witness :
  getCurrentEditor Samples.two_projects 1 = Some 1%nat
  /\ icon (applySettings Samples.host 1 Samples.two_projects) = Some "success".
Proof.
  assert (H : getCurrentEditor Samples.two_projects 1 = Some 1%nat) by reflexivity.
  split; [exact H|].
  exact (proj1 (applySettings_shows_stored_state Samples.host 1 Samples.two_projects 1
                  (fresh_ecfg (Some "/b/x.txt")) H eq_refl)).
Defined.

Section AppliedValues.

Variable h : Host.

(** The values [applySettings] leaves in the editor and the buffer. *)
Lemma applySettings_values b w e ed bf ec :
  getCurrentEditor w b = Some e -> editors w !! e = Some ed ->
  buffers w !! b = Some bf -> buf_editorconfig bf = Some ec ->
  exists ed' bf',
    editors (applySettings h b w) !! e = Some ed'
    /\ buffers (applySettings h b w) !! b = Some bf'
    /\ ed_softTabs ed'
       = (if strict_eq (indent_style (ec_settings ec)) unset
          then if strict_eq (ed_usesSoftTabs ed) Undefined
               then configGet h "editor.softTabs" (ed_scope ed)
               else ed_usesSoftTabs ed
          else Bool (strict_eq (indent_style (ec_settings ec)) (Str "space")))
    /\ ed_tabLength ed'
       = (if strict_eq (tab_width (ec_settings ec)) unset
          then configGet h "editor.tabLength" (ed_scope ed)
          else tab_width (ec_settings ec))
    /\ ed_preferredLineLength ed'
       = (if strict_eq (max_line_length (ec_settings ec)) unset
          then configGet h "editor.preferredLineLength" (ed_scope ed)
          else max_line_length (ec_settings ec))
    /\ buf_encoding bf'
       = (if strict_eq (charset (ec_settings ec)) unset
          then configGet h "core.fileEncoding" (ed_scope ed)
          else charset (ec_settings ec))
    /\ buf_preferredLineEnding bf'
       = (if strict_eq (end_of_line (ec_settings ec)) unset
          then buf_preferredLineEnding bf
          else end_of_line (ec_settings ec))
    /\ buf_rows bf' = buf_rows bf
    /\ buf_uri bf' = buf_uri bf
    /\ ed_buffer ed' = b.
Proof.
  intros Hcur Hed Hbf Hec.
  destruct (getCurrentEditor_shows _ _ _ Hcur) as (ed0 & Hed0 & Hb).
  assert (ed0 = ed) by congruence. subst ed0.
  assert (Hecfg : ecfg_of w b = Some ec) by (unfold ecfg_of; rewrite Hbf; exact Hec).
  unfold applySettings. rewrite Hcur, Hed, Hecfg, Hb, Nat.eqb_refl.
  unfold setState. rewrite ecfg_of_applyToEditor, Hecfg.
  unfold applyToEditor.
  destruct (strict_eq (indent_style (ec_settings ec)) unset),
    (strict_eq (ed_usesSoftTabs ed) Undefined),
    (strict_eq (tab_width (ec_settings ec)) unset),
    (strict_eq (charset (ec_settings ec)) unset),
    (strict_eq (max_line_length (ec_settings ec)) unset),
    (strict_eq (end_of_line (ec_settings ec)) unset),
    (ed_wrapGuide ed);
    cbn [editors buffers icon calls saveObservers negb
         setSoftTabs setTabLength setEncoding update setPreferredLineEnding
         with_editor with_buffer with_editors with_buffers with_icon with_ecfg log];
    rewrite !list_lookup_alter_eq, !lookup_alter_eq, Hed, Hbf;
    cbn; eexists _, _; repeat split; exact Hb.
Qed.

(** X14.  What the editor and the buffer hold after [applySettings]:
    a field that is set wins, a field that is ['unset'] takes the
    host's own value for the editor's scope (for soft tabs, the
    editor's own finding first), and the line ending alone has no
    fallback: when it is ['unset'] the buffer's preferred line ending
    is left as it was.  Rows and path are not touched. *)
Theorem applySettings_applied_values b w e ed bf ec :
  getCurrentEditor w b = Some e -> editors w !! e = Some ed ->
  buffers w !! b = Some bf -> buf_editorconfig bf = Some ec ->
  exists ed' bf',
    editors (applySettings h b w) !! e = Some ed'
    /\ buffers (applySettings h b w) !! b = Some bf'
    /\ ed_softTabs ed'
       = (if strict_eq (indent_style (ec_settings ec)) unset
          then if strict_eq (ed_usesSoftTabs ed) Undefined
               then configGet h "editor.softTabs" (ed_scope ed)
               else ed_usesSoftTabs ed
          else Bool (strict_eq (indent_style (ec_settings ec)) (Str "space")))
    /\ ed_tabLength ed'
       = (if strict_eq (tab_width (ec_settings ec)) unset
          then configGet h "editor.tabLength" (ed_scope ed)
          else tab_width (ec_settings ec))
    /\ ed_preferredLineLength ed'
       = (if strict_eq (max_line_length (ec_settings ec)) unset
          then configGet h "editor.preferredLineLength" (ed_scope ed)
          else max_line_length (ec_settings ec))
    /\ buf_encoding bf'
       = (if strict_eq (charset (ec_settings ec)) unset
          then configGet h "core.fileEncoding" (ed_scope ed)
          else charset (ec_settings ec))
    /\ buf_preferredLineEnding bf'
       = (if strict_eq (end_of_line (ec_settings ec)) unset
          then buf_preferredLineEnding bf
          else end_of_line (ec_settings ec))
    /\ buf_rows bf' = buf_rows bf
    /\ buf_uri bf' = buf_uri bf
    /\ ed_buffer ed' = b.
Proof. exact (applySettings_values b w e ed bf ec). Qed.

(** An open editor's buffer has a current editor, which is that editor
    or one after it in the workspace. *)
Lemma getCurrentEditor_of_open w e ed :
  editors w !! e = Some ed ->
  exists e', getCurrentEditor w (ed_buffer ed) = Some e' /\ (e <= e')%nat.
Proof.
  intros Hed. destruct (getCurrentEditor w (ed_buffer ed)) as [e'|] eqn:Hcur.
  - exists e'. split; [reflexivity|].
    unfold getCurrentEditor in Hcur. apply last_editor_of_spec in Hcur
      as [(j & ed' & -> & _ & _ & Hlater) | [Hp _]]; [|discriminate].
    destruct (Nat.le_gt_cases e (0 + j)) as [|Hlt]; [assumption|].
    destruct (Hlater e ed ltac:(lia) Hed). reflexivity.
  - exfalso. unfold getCurrentEditor in Hcur.
    assert (Hnone : forall eds i prev,
      last_editor_of (ed_buffer ed) eds i prev = None ->
      Forall (fun x => ed_buffer x <> ed_buffer ed) eds).
    { induction eds as [|curr rest IH]; intros i prev Hl; [constructor|].
      cbn [last_editor_of] in Hl. pose proof (IH _ _ Hl) as Hrest.
      constructor; [|exact Hrest].
      rewrite (last_editor_of_none _ _ _ _ Hrest) in Hl.
      destruct (Nat.eqb_spec (ed_buffer curr) (ed_buffer ed)); [discriminate | assumption]. }
    apply Hnone in Hcur. rewrite Forall_lookup in Hcur.
    destruct (Hcur e ed Hed). reflexivity.
Qed.

End AppliedValues.

Lemma applySettings_applied_values_witness :
  getCurrentEditor Samples.two_projects 1 = Some 1%nat
  /\ exists ed', editors (applySettings Samples.host 1 Samples.two_projects) !! 1%nat
                 = Some ed'
                 /\ ed_tabLength ed' = Str "editor.tabLength".
Proof.
  assert (H : getCurrentEditor Samples.two_projects 1 = Some 1%nat) by reflexivity.
  split; [exact H|].
  destruct (applySettings_applied_values Samples.host 1 Samples.two_projects 1
              (Samples.editor_on 1)
              (Samples.buffer_at "/b/x.txt" (Some (fresh_ecfg (Some "/b/x.txt"))))
              (fresh_ecfg (Some "/b/x.txt")) H eq_refl eq_refl eq_refl)
    as (ed' & bf' & He & _ & _ & Ht & _).
  exists ed'. split; [exact He | exact Ht].
Defined.

Lemma applySettings_twice_guide_witness :
  getCurrentEditor Samples.two_projects 1 = Some 1%nat
  /\ exists ed',
       editors (applySettings Samples.host 1
                  (applySettings Samples.host 1 Samples.two_projects)) !! 1%nat = Some ed'
       /\ ed_wrapGuide ed'
          = Some (updateGuide (updateGuide (interceptWrapGuide 1 Samples.guide))).
Proof.
  assert (H : getCurrentEditor Samples.two_projects 1 = Some 1%nat) by reflexivity.
  split; [exact H|].
  apply (applySettings_twice_guide Samples.host 1 Samples.two_projects 1
           (Samples.editor_on 1) Samples.guide H eq_refl).
  - eexists. reflexivity.
  - reflexivity.
Defined.

Lemma deactivate_when_all_observed_witness :
  Forall (fun ed => is_Some (ecfg_of Samples.two_projects (ed_buffer ed)))
    (editors Samples.two_projects)
  /\ exists w', deactivate Samples.two_projects = (Normal tt, w')
                /\ icon w' = None
                /\ Forall (fun ed => released w' (ed_buffer ed))
                     (editors Samples.two_projects).
Proof.
  assert (H : Forall (fun ed => is_Some (ecfg_of Samples.two_projects (ed_buffer ed)))
                (editors Samples.two_projects)).
  { repeat constructor; eexists; reflexivity. }
  split; [exact H|].
  apply (deactivate_when_all_observed Samples.two_projects H).
Defined.

(** ** Observation, once more *)

Lemma initializeTextBuffer_keeps_state b w b' :
  is_Some (ecfg_of w b') -> ecfg_of (initializeTextBuffer b w) b' = ecfg_of w b'.
Proof.
  unfold initializeTextBuffer, with_buffer, with_buffers, ecfg_of. cbn [buffers].
  intros [ec Hec]. destruct (decide (b = b')) as [->|Hne].
  - rewrite lookup_alter_eq. destruct (buffers w !! b') as [bf|]; [|discriminate].
    cbn in Hec |- *. destruct (buf_editorconfig bf) eqn:E; [|discriminate].
    cbn. rewrite E. reflexivity.
  - rewrite lookup_alter_ne by assumption. reflexivity.
Qed.

Lemma initializeTextBuffer_makes_state b w :
  is_Some (buffers w !! b) -> is_Some (ecfg_of (initializeTextBuffer b w) b).
Proof.
  unfold initializeTextBuffer, with_buffer, with_buffers, ecfg_of. cbn [buffers].
  intros [bf Hbf]. rewrite lookup_alter_eq, Hbf. cbn.
  destruct (buf_editorconfig bf) eqn:E; cbn; [rewrite E|]; eauto.
Qed.

(** X15.  [initializeTextBuffer] establishes a buffer's config state
    at most once: a second call changes nothing, a state that exists
    (on this buffer or any other) is never replaced, and a buffer of
    the store has a state afterwards. *)
Theorem initializeTextBuffer_once b w :
  initializeTextBuffer b (initializeTextBuffer b w) = initializeTextBuffer b w
  /\ (forall b', is_Some (ecfg_of w b') ->
                 ecfg_of (initializeTextBuffer b w) b' = ecfg_of w b')
  /\ (is_Some (buffers w !! b) -> is_Some (ecfg_of (initializeTextBuffer b w) b)).
Proof.
  split; [|split; [apply initializeTextBuffer_keeps_state
                  | apply initializeTextBuffer_makes_state]].
  unfold initializeTextBuffer, with_buffer, with_buffers.
  cbn [buffers editors saveObservers icon calls].
  f_equal. apply map_eq. intros i.
  destruct (decide (b = i)) as [->|Hne].
  - rewrite !lookup_alter_eq. destruct (buffers w !! i) as [bf|]; [|reflexivity].
    cbn. f_equal. destruct (buf_editorconfig bf) eqn:E; cbn; rewrite ?E; reflexivity.
  - rewrite !lookup_alter_ne by assumption. reflexivity.
Qed.

Lemma ends_in_editorconfig_app prefix c :
  (c = "\" \/ c = "|" \/ c = "/")%char ->
  ends_in_editorconfig (prefix ++ String c ".editorconfig") = true.
Proof.
  intros Hc. induction prefix as [|a p IH].
  - change (ends_in_editorconfig (String c ".editorconfig") = true).
    cbn [ends_in_editorconfig]. rewrite String.eqb_refl.
    destruct Hc as [-> | [-> | ->]]; reflexivity.
  - change (ends_in_editorconfig (String a (p ++ String c ".editorconfig")) = true).
    cbn [ends_in_editorconfig]. rewrite IH. apply orb_true_r.
Qed.

(** X16.  The save of a buffer re-applies the whole workspace exactly
    when the buffer's path, at the time its state is created, ends in
    a backslash, a bar or a slash followed by [.editorconfig]: the bar
    counts as a separator, and the bare name [.editorconfig] without a
    directory before it does not match. *)
Theorem is_editorconfig_file_spec s :
  is_editorconfig_file (Some s) = true
  <-> exists prefix c,
        s = prefix ++ String c ".editorconfig"
        /\ (c = "\" \/ c = "|" \/ c = "/")%char.
Proof.
  unfold is_editorconfig_file. split.
  - intros H. apply andb_true_iff in H as [_ H].
    induction s as [|a r IH]; [discriminate|].
    cbn [ends_in_editorconfig] in H. apply orb_true_iff in H as [H|H].
    + apply andb_true_iff in H as [Hc Hr]. apply String.eqb_eq in Hr. subst r.
      exists "", a. split; [reflexivity|].
      apply orb_true_iff in Hc as [Hc|Hc]; [apply orb_true_iff in Hc as [Hc|Hc]|];
        apply Ascii.eqb_eq in Hc; auto.
    + destruct (IH H) as (prefix & c & -> & Hc).
      exists (String a prefix), c. split; [reflexivity | exact Hc].
  - intros (prefix & c & -> & Hc). rewrite ends_in_editorconfig_app by exact Hc.
    destruct prefix; reflexivity.
Qed.

(** X17.  Observing an editor applies nothing by itself: the editors,
    the log of host calls and the status icon stay as they are and an
    existing config state is kept.  An editor with a path gets exactly
    one request, for that path, and no save observer; an editor
    without a path (none, or the empty string) gets no request and is
    registered to be observed again when it is saved. *)
Theorem observeTextEditor_effects e w :
  editors (fst (observeTextEditor e w)) = editors w
  /\ calls (fst (observeTextEditor e w)) = calls w
  /\ icon (fst (observeTextEditor e w)) = icon w
  /\ (forall b, is_Some (ecfg_of w b) ->
                ecfg_of (fst (observeTextEditor e w)) b = ecfg_of w b)
  /\ snd (observeTextEditor e w) = request_of w e
  /\ saveObservers (fst (observeTextEditor e w))
     = match editors w !! e, request_of w e with
       | Some _, [] => (saveObservers w ++ [e])%list
       | _, _ => saveObservers w
       end.
Proof.
  destruct (observeTextEditor_spec e w) as [_ Hreq].
  split; [|split; [|split; [|split; [|split; [exact Hreq|]]]]];
    unfold observeTextEditor in *; destruct (editors w !! e) as [ed|] eqn:He;
    try reflexivity.
  - destruct (getURI _ e) as [file|]; [destruct (String.eqb file "")|]; reflexivity.
  - destruct (getURI _ e) as [file|]; [destruct (String.eqb file "")|]; reflexivity.
  - destruct (getURI _ e) as [file|]; [destruct (String.eqb file "")|]; reflexivity.
  - intros b Hb.
    pose proof (initializeTextBuffer_keeps_state (ed_buffer ed) w b Hb) as Hk.
    destruct (getURI _ e) as [file|]; [destruct (String.eqb file "")|]; exact Hk.
  - rewrite <- Hreq.
    destruct (getURI _ e) as [file|]; [destruct (String.eqb file "")|]; reflexivity.
Qed.

Lemma initializeTextBuffer_once_witness :
  is_Some (buffers Samples.half_observed !! 0%nat)
  /\ is_Some (ecfg_of (initializeTextBuffer 0 Samples.half_observed) 0).
Proof.
  assert (H : is_Some (buffers Samples.half_observed !! 0%nat)) by (eexists; reflexivity).
  split; [exact H|].
  exact (proj2 (proj2 (initializeTextBuffer_once 0 Samples.half_observed)) H).
Defined.

(** X18.  [reapplyEditorconfig] asks the resolver for an editor and a
    path exactly when that editor is open and the path is its own,
    non-empty path: no request is made for an editor without a path,
    and none for a path that is not the editor's. *)
Theorem reapplyEditorconfig_requests_exactly w e file :
  In (mkRequest e file) (snd (reapplyEditorconfig w))
  <-> getURI w e = Some file /\ file <> "".
Proof.
  split; [|intros [Hu Hf]; apply reapplyEditorconfig_requests; assumption].
  unfold reapplyEditorconfig. rewrite (proj2 (observeAll_spec _ w)).
  intros Hin. apply in_flat_map in Hin as (e0 & _ & Hin).
  unfold request_of in Hin.
  destruct (getURI w e0) as [f0|] eqn:Hu; [|destruct Hin].
  destruct (String.eqb_spec f0 ""); [destruct Hin|].
  destruct Hin as [[= <- <-] | []]. auto.
Qed.

(** ** The promise chain, once more *)

(** Whatever the normaliser raises is an instance of [Error]. *)
Lemma normalize_raises_errors config s0 x :
  fst (normalize config s0) = Throw x -> instanceof_Error x = true.
Proof.
  step_normalize.
  destruct (config !! "indent_style") as [[b|v|r]|];
    cbn [fst snd tab_width set_tab_width max_line_length set_max_line_length
         set_end_of_line set_indent_style];
    try (intros [= <-]; reflexivity);
    (destruct (nan_or_nonpositive (parseInt10 (or _ _)));
     cbn [fst snd tab_width set_tab_width max_line_length set_max_line_length];
     destruct (nan_or_nonpositive (parseInt10 (get "max_line_length" config)));
     cbn [fst snd];
     destruct (config !! "charset") as [[b|c|r]|]; cbn [fst];
     try discriminate; intros [= <-]; reflexivity).
Qed.

Section ChainMore.

Variable h : Host.

(** X19.  Once [editorconfig.parse] has resolved, the chain never ends
    rejected: whatever the mapping holds and whatever the normaliser
    raises on it, the exception is caught and the chain is fulfilled. *)
Theorem resolved_chain_is_fulfilled req config w :
  fst (settle h req (Resolved config) w) = Fulfilled.
Proof.
  unfold settle, onParsed.
  destruct (is_empty config); [reflexivity|].
  destruct (editors w !! req_editor req) as [ed|]; [|reflexivity].
  destruct (ecfg_of w (ed_buffer ed)) as [ec|]; [|reflexivity].
  destruct (normalize config (ec_settings ec)) as [[[]|x] s'] eqn:E; [reflexivity|].
  cbn [catchError].
  rewrite (normalize_raises_errors config (ec_settings ec) x) by (rewrite E; reflexivity).
  reflexivity.
Qed.

(** X20.  The raw mapping is kept before anything is normalised: after
    a non-empty resolution the config state holds that mapping as
    [config], whether the normaliser then ran to its end or raised. *)
Theorem resolution_keeps_raw_config w e ed ec config file :
  editors w !! e = Some ed -> ecfg_of w (ed_buffer ed) = Some ec ->
  is_empty config = false ->
  ec_config <$>
    ecfg_of (snd (settle h (mkRequest e file) (Resolved config) w)) (ed_buffer ed)
  = Some (Some config).
Proof.
  intros Hed Hec Hne. unfold settle, onParsed. cbn [req_editor].
  rewrite Hne, Hed, Hec.
  assert (Hstored : forall s',
    ec_config <$>
      ecfg_of (with_ecfg (ed_buffer ed) (set_ec_settings s')
                 (with_ecfg (ed_buffer ed) (set_ec_config (Some config)) w)) (ed_buffer ed)
    = Some (Some config)).
  { intros s'. rewrite !ecfg_of_with_ecfg, Hec.
    destruct (decide (ed_buffer ed = ed_buffer ed)); [reflexivity | congruence]. }
  destruct (normalize config (ec_settings ec)) as [[[]|x] s'].
  - cbn [catchError snd]. rewrite ecfg_proj_applySettings by reflexivity. apply Hstored.
  - cbn [catchError]. destruct (instanceof_Error x); cbn [snd]; apply Hstored.
Qed.

(** X21.  When the normaliser raises, nothing is applied: no editor is
    changed, the status icon stays, and the one host call made is the
    warning; the settings object keeps the fields assigned before the
    exception. *)
Theorem raising_resolution_applies_nothing w e ed ec config file x s' :
  editors w !! e = Some ed -> ecfg_of w (ed_buffer ed) = Some ec ->
  is_empty config = false ->
  normalize config (ec_settings ec) = (Throw x, s') ->
  editors (snd (settle h (mkRequest e file) (Resolved config) w)) = editors w
  /\ icon (snd (settle h (mkRequest e file) (Resolved config) w)) = icon w
  /\ calls (snd (settle h (mkRequest e file) (Resolved config) w))
     = (calls w ++ [ConsoleWarn ("atom-editorconfig: " ++ thrown_to_string x)])%list
  /\ ec_settings <$>
       ecfg_of (snd (settle h (mkRequest e file) (Resolved config) w)) (ed_buffer ed)
     = Some s'.
Proof.
  intros Hed Hec Hne Hrun. unfold settle, onParsed. cbn [req_editor].
  rewrite Hne, Hed, Hec, Hrun. cbn [catchError].
  rewrite (normalize_raises_errors config (ec_settings ec) x) by (rewrite Hrun; reflexivity).
  cbn [snd]. repeat split.
  unfold console_warn. rewrite ecfg_of_log, !ecfg_of_with_ecfg, Hec.
  destruct (decide (ed_buffer ed = ed_buffer ed)); [reflexivity | congruence].
Qed.

(** X22.  A change of the active pane item re-applies, it never
    resolves.  For an item whose constructor is named [TextEditor] and
    whose buffer has a config state, the handler is [applySettings] of
    that state: when an open editor shows the buffer, the last such
    editor takes the stored tab width, or the host's when that is
    ['unset'], and the status icon shows the severity of the state.
    With that constructor name but without a buffer, or without a
    config state on it, the workspace is left as it is.  For any other
    item, and for none, the status icon is removed and nothing else is
    changed.  Whatever the item, the stored settings, the stored raw
    config, the subscriptions of every buffer and the save observers
    stay as they are. *)
Theorem observeActivePaneItem_keeps_config_state item w b :
  ec_settings <$> ecfg_of (observeActivePaneItem h item w) b = ec_settings <$> ecfg_of w b
  /\ ec_config <$> ecfg_of (observeActivePaneItem h item w) b = ec_config <$> ecfg_of w b
  /\ ec_disposables <$> ecfg_of (observeActivePaneItem h item w) b
     = ec_disposables <$> ecfg_of w b
  /\ saveObservers (observeActivePaneItem h item w) = saveObservers w
  /\ (constructor_name item <> Some "TextEditor" ->
      observeActivePaneItem h item w = removeIcon w)
  /\ (constructor_name item = Some "TextEditor" ->
      (item_buffer w item = None -> observeActivePaneItem h item w = w)
      /\ (forall b', item_buffer w item = Some b' -> ecfg_of w b' = None ->
                     observeActivePaneItem h item w = w)
      /\ (forall b' ec e ed,
            item_buffer w item = Some b' -> ecfg_of w b' = Some ec ->
            getCurrentEditor w b' = Some e -> editors w !! e = Some ed ->
            observeActivePaneItem h item w = applySettings h b' w
            /\ icon (observeActivePaneItem h item w) = Some (checklist h ec)
            /\ ed_tabLength <$> editors (observeActivePaneItem h item w) !! e
               = Some (if strict_eq (tab_width (ec_settings ec)) unset
                       then configGet h "editor.tabLength" (ed_scope ed)
                       else tab_width (ec_settings ec))))
  /\ calls (observeActivePaneItem Samples.host (TextEditorItem 1) Samples.two_projects)
     = [SetSoftTabs 1 (Str "editor.softTabs"); SetTabLength 1 (Str "editor.tabLength");
        SetEncoding 1 (Str "core.fileEncoding");
        Update 1 (Str "editor.preferredLineLength"); UpdateGuide 1;
        Checklist 1; UpdateIcon "success"]
  /\ observeActivePaneItem Samples.host (OtherItem "TextEditor" None) Samples.two_projects
     = Samples.two_projects
  /\ calls (observeActivePaneItem Samples.host (OtherItem "TreeView" (Some 1%nat))
              Samples.two_projects)
     = [RemoveIcon]
  /\ calls (observeActivePaneItem Samples.host NoItem Samples.two_projects) = [RemoveIcon].
Proof.
  assert (Hframe : forall {A} (p : Ecfg -> A),
    (forall st ec, p (set_ec_state st ec) = p ec) ->
    p <$> ecfg_of (observeActivePaneItem h item w) b = p <$> ecfg_of w b).
  { intros A p Hp.
    destruct (observeActivePaneItem_cases h item w) as [-> | [-> | [b' ->]]];
      [reflexivity | reflexivity | apply ecfg_proj_applySettings; exact Hp]. }
  split; [apply Hframe; reflexivity|].
  split; [apply Hframe; reflexivity|].
  split; [apply Hframe; reflexivity|].
  split.
  { destruct (observeActivePaneItem_cases h item w) as [-> | [-> | [b' ->]]];
      [reflexivity | reflexivity | apply saveObservers_applySettings]. }
  split.
  { intros Hname. unfold observeActivePaneItem.
    rewrite bool_decide_eq_false_2 by exact Hname. reflexivity. }
  split.
  { intros Hname. unfold observeActivePaneItem.
    rewrite bool_decide_eq_true_2 by exact Hname.
    split; [intros ->; reflexivity|]. split; [intros b' -> ->; reflexivity|].
    intros b' ec e ed -> Hec Hcur Hed. rewrite Hec.
    split; [reflexivity|]. split; [apply (applySettings_state h b' w e ec Hcur Hec)|].
    assert (Hbf : exists bf, buffers w !! b' = Some bf /\ buf_editorconfig bf = Some ec).
    { unfold ecfg_of in Hec. destruct (buffers w !! b') as [bf|]; [|discriminate]. eauto. }
    destruct Hbf as (bf & Hbf & Hbe).
    destruct (applySettings_values h b' w e ed bf ec Hcur Hed Hbf Hbe)
      as (ed' & bf' & Hed' & _ & _ & Htab & _).
    rewrite Hed'. cbn. rewrite Htab. reflexivity. }
  vm_compute. repeat split.
Qed.

End ChainMore.

(** ** Saving an [.editorconfig] file *)

Section SaveReapplies.

Variable h : Host.

(** The world a resolution leaves when it is not empty and the
    normaliser runs to its end on it. *)
Lemma settle_completed w e ed ec config s' file :
  editors w !! e = Some ed -> ecfg_of w (ed_buffer ed) = Some ec ->
  is_empty config = false -> normalize config (ec_settings ec) = (Normal tt, s') ->
  settle h (mkRequest e file) (Resolved config) w
  = (Fulfilled,
     applySettings h (ed_buffer ed)
       (with_ecfg (ed_buffer ed) (set_ec_settings s')
          (with_ecfg (ed_buffer ed) (set_ec_config (Some config)) w))).
Proof.
  intros Hed Hec Hne Hrun. unfold settle, onParsed. cbn [req_editor].
  rewrite Hne, Hed, Hec, Hrun. reflexivity.
Qed.

(** C7 (amended).  Saving a buffer whose config state holds the
    [onDidSave(reapplyEditorconfig)] subscription asks the resolver
    again for every open text editor that has a path, wherever that
    path lies.  When such a resolution comes back with a mapping that
    is not empty and on which the normaliser runs to its end, the
    normalised settings are stored in the config state of the buffer
    the editor shows, and they are applied to the last open editor
    that shows this buffer, which is the editor itself or one after
    it: each field that is set goes to that editor or to the buffer,
    each field that is ['unset'] gives way to the host's value, and
    the status icon shows the new severity.  When the normaliser
    raises, no editor is changed and the icon stays. *)
Theorem editorconfig_save_requests_every_editor b ec w :
  ecfg_of w b = Some ec ->
  subscribed OnDidSaveReapply (ec_disposables ec) = true ->
  (forall e file, getURI w e = Some file -> file <> "" ->
                  In (mkRequest e file) (snd (save b w)))
  /\ (forall w' e file config ed ec' s',
        editors w' !! e = Some ed -> ecfg_of w' (ed_buffer ed) = Some ec' ->
        is_empty config = false ->
        normalize config (ec_settings ec') = (Normal tt, s') ->
        exists e' ed' ed'' bf' bf'',
          getCurrentEditor w' (ed_buffer ed) = Some e' /\ (e <= e')%nat
          /\ editors w' !! e' = Some ed'
          /\ buffers w' !! ed_buffer ed = Some bf'
          /\ editors (snd (settle h (mkRequest e file) (Resolved config) w')) !! e'
             = Some ed''
          /\ buffers (snd (settle h (mkRequest e file) (Resolved config) w')) !! ed_buffer ed
             = Some bf''
          /\ ec_settings <$> buf_editorconfig bf'' = Some s'
          /\ ed_softTabs ed''
             = (if strict_eq (indent_style s') unset
                then if strict_eq (ed_usesSoftTabs ed') Undefined
                     then configGet h "editor.softTabs" (ed_scope ed')
                     else ed_usesSoftTabs ed'
                else Bool (strict_eq (indent_style s') (Str "space")))
          /\ ed_tabLength ed''
             = (if strict_eq (tab_width s') unset
                then configGet h "editor.tabLength" (ed_scope ed')
                else tab_width s')
          /\ ed_preferredLineLength ed''
             = (if strict_eq (max_line_length s') unset
                then configGet h "editor.preferredLineLength" (ed_scope ed')
                else max_line_length s')
          /\ buf_encoding bf''
             = (if strict_eq (charset s') unset
                then configGet h "core.fileEncoding" (ed_scope ed')
                else charset s')
          /\ buf_preferredLineEnding bf''
             = (if strict_eq (end_of_line s') unset
                then buf_preferredLineEnding bf'
                else end_of_line s')
          /\ icon (snd (settle h (mkRequest e file) (Resolved config) w'))
             = Some (checklist h (set_ec_settings s' (set_ec_config (Some config) ec'))))
  /\ (forall w' e file config ed ec' x s',
        editors w' !! e = Some ed -> ecfg_of w' (ed_buffer ed) = Some ec' ->
        is_empty config = false ->
        normalize config (ec_settings ec') = (Throw x, s') ->
        editors (snd (settle h (mkRequest e file) (Resolved config) w')) = editors w'
        /\ icon (snd (settle h (mkRequest e file) (Resolved config) w')) = icon w').
Proof.
  intros Hec Hsub. split; [|split].
  - intros e file. apply (save_requests_every_editor b ec w e file Hec Hsub).
  - intros w' e file config ed ec' s' Hed Hec' Hne Hrun.
    rewrite (settle_completed w' e ed ec' config s' file Hed Hec' Hne Hrun). cbn [snd].
    set (bk := ed_buffer ed) in *.
    set (ec1 := set_ec_settings s' (set_ec_config (Some config) ec')).
    set (w1 := with_ecfg bk (set_ec_settings s')
                 (with_ecfg bk (set_ec_config (Some config)) w')).
    destruct (getCurrentEditor_of_open w' e ed Hed) as (e' & Hcur & Hle). fold bk in Hcur.
    destruct (getCurrentEditor_shows _ _ _ Hcur) as (ed' & Hed' & Hshows).
    assert (Hec1 : ecfg_of w1 bk = Some ec1).
    { unfold w1. rewrite !ecfg_of_with_ecfg, Hec'.
      destruct (decide (bk = bk)); [reflexivity | congruence]. }
    assert (Hbf' : exists bf', buffers w' !! bk = Some bf').
    { unfold ecfg_of in Hec'. destruct (buffers w' !! bk) as [bf'|]; [eauto | discriminate]. }
    destruct Hbf' as [bf' Hbf'].
    assert (Hbf1 : exists bf1, buffers w1 !! bk = Some bf1
                               /\ buf_editorconfig bf1 = Some ec1
                               /\ buf_preferredLineEnding bf1 = buf_preferredLineEnding bf').
    { pose proof Hec1 as Hx. unfold ecfg_of in Hx.
      unfold w1, with_ecfg, with_buffer, with_buffers in Hx |- *. cbn [buffers] in Hx |- *.
      rewrite !lookup_alter_eq, Hbf' in Hx |- *. cbn in Hx |- *.
      eexists. split; [reflexivity|]. split; [exact Hx | reflexivity]. }
    destruct Hbf1 as (bf1 & Hbf1 & Hbe1 & Hple).
    destruct (applySettings_values h bk w1 e' ed' bf1 ec1 Hcur Hed' Hbf1 Hbe1)
      as (ed'' & bf'' & He'' & Hb'' & Hsoft & Htab & Hlen & Henc & Hend & _).
    destruct (applySettings_state h bk w1 e' ec1 Hcur Hec1) as [Hicon _].
    exists e', ed', ed'', bf', bf''.
    split; [exact Hcur|]. split; [exact Hle|]. split; [exact Hed'|].
    split; [exact Hbf'|]. split; [exact He''|]. split; [exact Hb''|].
    split.
    { pose proof (ecfg_proj_applySettings h ec_settings bk w1 bk ltac:(reflexivity)) as Hp.
      unfold ecfg_of in Hp at 1. rewrite Hb'', Hec1 in Hp. exact Hp. }
    rewrite Hple in Hend. repeat split; assumption.
  - intros w' e file config ed ec' x s' Hed Hec' Hne Hrun.
    unfold settle, onParsed. cbn [req_editor]. rewrite Hne, Hed, Hec', Hrun.
    cbn [catchError].
    rewrite (normalize_raises_errors config (ec_settings ec') x) by (rewrite Hrun; reflexivity).
    split; reflexivity.
Qed.

End SaveReapplies.

Lemma editorconfig_save_requests_every_editor_witness :
  ecfg_of Samples.two_projects 0 = Some (fresh_ecfg (Some "/a/.editorconfig"))
  /\ In (mkRequest 1 "/b/x.txt") (snd (save 0 Samples.two_projects)).
Proof.
  split; [reflexivity|].
  apply (proj1 (editorconfig_save_requests_every_editor Samples.host 0
                  (fresh_ecfg (Some "/a/.editorconfig")) Samples.two_projects
                  eq_refl eq_refl));
    [reflexivity | discriminate].
Defined.

Lemma resolution_keeps_raw_config_witness :
  editors Samples.two_projects !! 1%nat = Some (Samples.editor_on 1)
  /\ ec_config <$>
       ecfg_of (snd (settle Samples.host (mkRequest 1 "/b/x.txt")
                       (Resolved Samples.boolean_indent_style) Samples.two_projects)) 1
     = Some (Some Samples.boolean_indent_style).
Proof.
  split; [reflexivity|].
  apply (resolution_keeps_raw_config Samples.host Samples.two_projects 1
           (Samples.editor_on 1) (fresh_ecfg (Some "/b/x.txt"))
           Samples.boolean_indent_style "/b/x.txt");
    [reflexivity | reflexivity | vm_compute; reflexivity].
Defined.

Lemma raising_resolution_applies_nothing_witness :
  normalize Samples.boolean_indent_style initial_settings
  = (Throw (TypeError "config.indent_style.search is not a function"),
     Samples.final_newline_on)
  /\ editors (snd (settle Samples.host (mkRequest 1 "/b/x.txt")
                     (Resolved Samples.boolean_indent_style) Samples.two_projects))
     = editors Samples.two_projects.
Proof.
  assert (H : normalize Samples.boolean_indent_style initial_settings
              = (Throw (TypeError "config.indent_style.search is not a function"),
                 Samples.final_newline_on)) by (vm_compute; reflexivity).
  split; [exact H|].
  apply (raising_resolution_applies_nothing Samples.host Samples.two_projects 1
           (Samples.editor_on 1) (fresh_ecfg (Some "/b/x.txt"))
           Samples.boolean_indent_style "/b/x.txt" _ _ eq_refl eq_refl
           ltac:(vm_compute; reflexivity) H).
Defined.

(** ** Teardown and activation *)

Lemma disposeAll_keeps {A} (p : Ecfg -> A) eds w b :
  (forall d ec, p (set_ec_disposables d ec) = p ec) ->
  editors (snd (disposeAll eds w)) = editors w
  /\ p <$> ecfg_of (snd (disposeAll eds w)) b = p <$> ecfg_of w b.
Proof.
  intros Hp. revert w. induction eds as [|ed rest IH]; intros w; cbn [disposeAll].
  - split; reflexivity.
  - destruct (ecfg_of w (ed_buffer ed)) as [ec|]; [|split; reflexivity].
    destruct (IH (with_ecfg (ed_buffer ed)
                    (set_ec_disposables (disposable_dispose (ec_disposables ec))) w))
      as [He Hk].
    split; [rewrite He; reflexivity|].
    rewrite Hk, ecfg_of_with_ecfg. destruct (decide (ed_buffer ed = b)); [|reflexivity].
    destruct (ecfg_of w b); cbn; [rewrite Hp|]; reflexivity.
Qed.

(** X23.  [deactivate] releases subscriptions and removes nothing
    else: whether it runs to its end or stops at a buffer without
    state, the editors are as they were and every config state is
    still on its buffer with its settings, raw config and severity. *)
Theorem deactivate_keeps_config_objects w b :
  editors (snd (deactivate w)) = editors w
  /\ ec_settings <$> ecfg_of (snd (deactivate w)) b = ec_settings <$> ecfg_of w b
  /\ ec_config <$> ecfg_of (snd (deactivate w)) b = ec_config <$> ecfg_of w b
  /\ ec_state <$> ecfg_of (snd (deactivate w)) b = ec_state <$> ecfg_of w b.
Proof.
  assert (H : forall {A} (p : Ecfg -> A),
    (forall d ec, p (set_ec_disposables d ec) = p ec) ->
    editors (snd (deactivate w)) = editors w
    /\ p <$> ecfg_of (snd (deactivate w)) b = p <$> ecfg_of w b).
  { intros A p Hp. destruct (disposeAll_keeps p (editors w) w b Hp) as [He Hk].
    unfold deactivate. destruct (disposeAll (editors w) w) as [[[]|x] w1];
      cbn [snd] in *; split; assumption. }
  split; [apply (H _ ec_settings); reflexivity|].
  split; [apply (H _ ec_settings); reflexivity|].
  split; [apply (H _ ec_config); reflexivity | apply (H _ ec_state); reflexivity].
Qed.

Section ActivationFacts.

Import Notions Activation.

Variable h : Host.

Lemma same_files_refl w : same_files w w.
Proof. split; reflexivity. Qed.

Lemma same_files_trans w1 w2 w3 :
  same_files w1 w2 -> same_files w2 w3 -> same_files w1 w3.
Proof.
  intros [He1 Hb1] [He2 Hb2]. split; [congruence|].
  intros b. rewrite Hb2. apply Hb1.
Qed.

Lemma same_paths_same_files w w' : same_paths w w' -> same_files w w'.
Proof. intros [He Hb]. split; [rewrite He; reflexivity | exact Hb]. Qed.

Lemma getURI_same_files w w' e : same_files w w' -> getURI w' e = getURI w e.
Proof.
  intros [He Hb]. unfold getURI.
  assert (Hl : ed_buffer <$> editors w' !! e = ed_buffer <$> editors w !! e).
  { rewrite <- !list_lookup_fmap.
    change (fmap ed_buffer (editors w')) with (map ed_buffer (editors w')).
    change (fmap ed_buffer (editors w)) with (map ed_buffer (editors w)).
    rewrite He. reflexivity. }
  destruct (editors w' !! e) as [ed'|], (editors w !! e) as [ed|];
    cbn in Hl |- *; try discriminate; [|reflexivity].
  injection Hl as ->. apply Hb.
Qed.

Lemma request_of_same_files w w' e : same_files w w' -> request_of w' e = request_of w e.
Proof. intros H. unfold request_of. rewrite (getURI_same_files _ _ e H). reflexivity. Qed.

(** What [applySettings] leaves alone in every buffer. *)
Lemma buffer_proj_applySettings {A} (p : Buffer -> A) b w b' :
  (forall v bf, p (set_encoding v bf) = p bf) ->
  (forall v bf, p (set_preferredLineEnding v bf) = p bf) ->
  (forall v bf, p (set_editorconfig v bf) = p bf) ->
  p <$> buffers (applySettings h b w) !! b' = p <$> buffers w !! b'.
Proof.
  intros H1 H2 H3. unfold applySettings.
  destruct (getCurrentEditor w b) as [e|]; [|reflexivity].
  destruct (editors w !! e) as [ed|]; [|reflexivity].
  destruct (ecfg_of w b) as [ec|] eqn:Hec; [|reflexivity].
  unfold setState.
  destruct (Nat.eqb (ed_buffer ed) b);
    [rewrite ecfg_of_applyToEditor|]; rewrite Hec; unfold applyToEditor;
    repeat match goal with
           | |- context [if ?c then _ else _] => destruct c
           | |- context [match ed_wrapGuide ed with Some _ => _ | None => _ end] =>
               destruct (ed_wrapGuide ed)
           end;
    cbn [editors buffers icon calls saveObservers negb
         setSoftTabs setTabLength setEncoding update setPreferredLineEnding
         with_editor with_buffer with_editors with_buffers with_icon with_ecfg log];
    (destruct (decide (b = b')) as [->|Hne];
     [rewrite !lookup_alter_eq; destruct (buffers w !! b'); cbn;
      rewrite ?H3, ?H2, ?H1; reflexivity
     |rewrite !lookup_alter_ne by assumption; reflexivity]).
Qed.

Lemma observeActivePaneItem_same_files item w :
  same_files w (observeActivePaneItem h item w).
Proof.
  destruct (observeActivePaneItem_cases h item w) as [-> | [-> | [b' ->]]];
    try (split; reflexivity).
  split; [apply applySettings_buffers_of_editors|].
  intros b.
  pose proof (buffer_proj_applySettings buf_uri b' w b
                ltac:(reflexivity) ltac:(reflexivity) ltac:(reflexivity)) as Hp.
  destruct (buffers (applySettings h b' w) !! b), (buffers w !! b);
    cbn in Hp |- *; congruence.
Qed.

Lemma observeActivePaneItem_keeps_state item w b :
  is_Some (ecfg_of w b) -> is_Some (ecfg_of (observeActivePaneItem h item w) b).
Proof.
  intros [ec Hec].
  destruct (observeActivePaneItem_cases h item w) as [-> | [-> | [b' ->]]];
    try (exists ec; exact Hec).
  pose proof (ecfg_proj_applySettings h ec_settings b' w b ltac:(reflexivity)) as Hp.
  rewrite Hec in Hp.
  destruct (ecfg_of (applySettings h b' w) b); [eauto | discriminate].
Qed.

End ActivationFacts.

Section ActivationTheorem.

Import Notions Activation.

Variable h : Host.

Lemma observeTextEditor_grows e w b :
  (is_Some (buffers w !! b) -> is_Some (buffers (fst (observeTextEditor e w)) !! b))
  /\ (is_Some (ecfg_of w b) -> is_Some (ecfg_of (fst (observeTextEditor e w)) b)).
Proof.
  unfold observeTextEditor. destruct (editors w !! e) as [ed|]; [|auto].
  set (w1 := initializeTextBuffer (ed_buffer ed) w).
  assert (Hb : is_Some (buffers w !! b) -> is_Some (buffers w1 !! b)).
  { unfold w1, initializeTextBuffer, with_buffer, with_buffers. cbn [buffers].
    intros [bf Hbf]. destruct (decide (ed_buffer ed = b)) as [->|Hne].
    - rewrite lookup_alter_eq, Hbf. eauto.
    - rewrite lookup_alter_ne by assumption. eauto. }
  assert (Hs : is_Some (ecfg_of w b) -> is_Some (ecfg_of w1 b)).
  { intros Hs. unfold w1. rewrite initializeTextBuffer_keeps_state by exact Hs. exact Hs. }
  destruct (getURI w1 e) as [file|]; [destruct (String.eqb file "")|]; split; assumption.
Qed.

Lemma observeTextEditor_state e w ed :
  editors w !! e = Some ed -> is_Some (buffers w !! ed_buffer ed) ->
  is_Some (ecfg_of (fst (observeTextEditor e w)) (ed_buffer ed)).
Proof.
  intros He Hb. unfold observeTextEditor. rewrite He.
  pose proof (initializeTextBuffer_makes_state (ed_buffer ed) w Hb) as Hs.
  destruct (getURI _ e) as [file|]; [destruct (String.eqb file "")|]; exact Hs.
Qed.

Lemma observeAll_grows es w b :
  (is_Some (buffers w !! b) -> is_Some (buffers (fst (observeAll es w)) !! b))
  /\ (is_Some (ecfg_of w b) -> is_Some (ecfg_of (fst (observeAll es w)) b)).
Proof.
  revert w. induction es as [|e rest IH]; intros w; cbn [observeAll]; [auto|].
  destruct (observeTextEditor_grows e w b) as [Hb1 Hs1].
  destruct (observeTextEditor e w) as [w1 r1]. cbn [fst] in *.
  destruct (IH w1) as [Hb2 Hs2].
  destruct (observeAll rest w1) as [w2 r2]. cbn [fst] in *. auto.
Qed.

Lemma observeAll_state es w e ed :
  In e es -> editors w !! e = Some ed -> is_Some (buffers w !! ed_buffer ed) ->
  is_Some (ecfg_of (fst (observeAll es w)) (ed_buffer ed)).
Proof.
  revert w. induction es as [|e0 rest IH]; intros w Hin He Hb; [destruct Hin|].
  cbn [observeAll].
  destruct (observeTextEditor_spec e0 w) as [[Hed _] _].
  destruct (observeTextEditor_grows e0 w (ed_buffer ed)) as [Hb1 Hs1].
  pose proof (observeTextEditor_state e0 w) as Hst.
  destruct (observeTextEditor e0 w) as [w1 r1]. cbn [fst] in *.
  pose proof (observeAll_grows rest w1 (ed_buffer ed)) as [_ Hs2].
  specialize (IH w1).
  destruct (observeAll rest w1) as [w2 r2]. cbn [fst] in *.
  destruct Hin as [->|Hin].
  - apply Hs2. apply (Hst ed He Hb).
  - apply IH; [exact Hin | rewrite Hed; exact He | apply Hb1; exact Hb].
Qed.

(** After every open editor has been observed, each one's buffer has
    its config state. *)
Lemma observeAll_everything w :
  editors_have_buffers w ->
  Forall (fun b => is_Some (ecfg_of (fst (reapplyEditorconfig w)) b))
    (map ed_buffer (editors w)).
Proof.
  intros Hwf. unfold reapplyEditorconfig. apply Forall_map, Forall_lookup.
  intros e ed He. apply (observeAll_state _ w e ed); [|exact He|].
  - apply in_seq. apply lookup_lt_Some in He. lia.
  - unfold editors_have_buffers in Hwf. rewrite Forall_lookup in Hwf. apply (Hwf e ed He).
Qed.

(** What activation leaves behind and what it asks for. *)
Lemma activate_spec active w :
  editors_have_buffers w ->
  Forall (fun ed => is_Some (ecfg_of (fst (activate h active w)) (ed_buffer ed)))
    (editors (fst (activate h active w)))
  /\ fst (deactivate (fst (activate h active w))) = Normal tt
  /\ snd (activate h active w)
     = (flat_map (request_of w) (seq 0 (length (editors w)))
        ++ flat_map (request_of w) (seq 0 (length (editors w))))%list.
Proof.
  intros Hwf. unfold activate.
  pose proof (observeAll_everything w Hwf) as Hall1.
  unfold reapplyEditorconfig in Hall1 |- *.
  destruct (observeAll_spec (seq 0 (length (editors w))) w) as [Hp1 Hr1].
  destruct (observeAll (seq 0 (length (editors w))) w) as [w1 r1].
  cbn [fst snd] in Hall1, Hp1, Hr1.
  set (w2 := observeActivePaneItem h active w1).
  pose proof (observeActivePaneItem_same_files h active w1) as Hf2. fold w2 in Hf2.
  destruct (observeAll_spec (seq 0 (length (editors w2))) w2) as [Hp3 Hr3].
  pose proof (fun b => proj2 (observeAll_grows (seq 0 (length (editors w2))) w2 b)) as Hg3.
  destruct (observeAll (seq 0 (length (editors w2))) w2) as [w3 r3].
  cbn [fst snd] in Hp3, Hr3, Hg3 |- *.
  assert (Hf : same_files w w2).
  { eapply same_files_trans; [apply same_paths_same_files; exact Hp1 | exact Hf2]. }
  assert (Hmap : map ed_buffer (editors w3) = map ed_buffer (editors w)).
  { destruct Hp3 as [-> _]. apply Hf. }
  assert (Hstate : Forall (fun ed => is_Some (ecfg_of w3 (ed_buffer ed))) (editors w3)).
  { apply (proj1 (Forall_map ed_buffer (fun b => is_Some (ecfg_of w3 b)) (editors w3))).
    rewrite Hmap. eapply Forall_impl; [exact Hall1|].
    intros b Hb. apply Hg3. apply observeActivePaneItem_keeps_state. exact Hb. }
  split; [exact Hstate|]. split.
  - destruct (disposeAll_all_observed _ _ Hstate) as (w' & Hrun & _).
    unfold deactivate. rewrite Hrun. reflexivity.
  - rewrite Hr1, Hr3. f_equal.
    assert (Hlen : length (editors w2) = length (editors w)).
    { rewrite <- (length_map ed_buffer (editors w2)), <- (length_map ed_buffer (editors w)).
      f_equal. apply Hf. }
    rewrite Hlen. apply flat_map_ext. intros e.
    apply request_of_same_files. exact Hf.
Qed.

(** X24.  In a workspace whose editors all show buffers of the store,
    activation leaves every open editor's buffer with a config state,
    so that a later [deactivate] runs to its end; and it asks the
    resolver twice for every open editor with a path, once through
    [observeTextEditors] and once more through [reapplyEditorconfig]. *)
Theorem activate_observes_every_editor active w :
  editors_have_buffers w ->
  Forall (fun ed => is_Some (ecfg_of (fst (activate h active w)) (ed_buffer ed)))
    (editors (fst (activate h active w)))
  /\ fst (deactivate (fst (activate h active w))) = Normal tt
  /\ snd (activate h active w)
     = (flat_map (request_of w) (seq 0 (length (editors w)))
        ++ flat_map (request_of w) (seq 0 (length (editors w))))%list.
Proof. exact (activate_spec active w). Qed.

End ActivationTheorem.

Lemma activate_observes_every_editor_witness :
  Notions.editors_have_buffers Samples.half_observed
  /\ fst (deactivate (fst (Activation.activate Samples.host NoItem Samples.half_observed)))
     = Normal tt.
Proof.
  assert (H : Notions.editors_have_buffers Samples.half_observed).
  { repeat constructor; eexists; reflexivity. }
  split; [exact H|].
  exact (proj1 (proj2 (activate_observes_every_editor Samples.host NoItem
                         Samples.half_observed H))).
Defined.

(** ** What the package keeps between activation and teardown *)

Section StatesKept.

Import Notions.

Variable h : Host.












End StatesKept.

(** ** Teardown, once more *)


